(** * WAV audio player: the playback controller and its monitor loop

    A shallow embedding of the three controller variants of the repository
    ([pygame_resume_player.py], [wav_player.py], [vlc_wav_player.py]) and the
    properties of their transport state machine.

    Conventions of the embedding.
    - A Python object is a record of optional attributes: [None] is an
      attribute that has not been assigned yet, and reading it raises
      [AttributeError], as [self.x] does.
    - Methods are computations in a state-and-exception monad over the
      "world": the object, the audio backend, the standard output, the
      wall clock and the monitor thread.  A raised exception keeps the
      mutations made before it.
    - A handler and an iteration of the monitor loop each run as one
      atomic step; the threads of the program interleave at that grain.
    - Python floats are idealised as exact rationals ([Q]).
    - The audio engine, the file system and the widget toolkit are outside
      the repository; what the code needs from them is a parameter
      ([Pygame], [FileSystem]) or, for the widgets, the documented
      behaviour of a traitlets value: assigning a dropdown a value that is
      not among its options is refused, and its observer is notified when
      the value changes.  The [value] of a widget is the value last
      assigned to it. *)

From Stdlib Require Import QArith Qround Lqa Sorted.
From stdpp Require Import base strings gmap list pretty.

Local Open Scope Z_scope.

(** ** Python prelude *)

(** The exception classes that occur; all derive from [Exception], so a
    handler [except Exception] catches every one of them. *)
Inductive exn : Type :=
  | AttributeError
  | IndexError
  | ZeroDivisionError
  | NameError
  | TraitError
  | RecursionError
  | PygameError
  | OSError
  | WaveError.

Inductive result (A : Type) : Type :=
  | Ok (a : A)
  | Raise (e : exn).
Arguments Ok {A} a.
Arguments Raise {A} e.

(** A computation over a state [S] that returns an [A] or raises. *)
Definition M (S A : Type) : Type := S -> result A * S.

Section Monad.
Context {S : Type}.

Definition ret {A} (a : A) : M S A := fun s => (Ok a, s).

Definition bind {A B} (m : M S A) (k : A -> M S B) : M S B :=
  fun s => match m s with
           | (Ok a, s') => k a s'
           | (Raise e, s') => (Raise e, s')
           end.

Definition raise {A} (e : exn) : M S A := fun s => (Raise e, s).

(** [try: m except Exception as e: h e] *)
Definition try_except {A} (m : M S A) (h : exn -> M S A) : M S A :=
  fun s => match m s with
           | (Ok a, s') => (Ok a, s')
           | (Raise e, s') => h e s'
           end.

Definition get : M S S := fun s => (Ok s, s).
Definition modify (f : S -> S) : M S unit := fun s => (Ok tt, f s).

(** [for x in xs: body x] *)
Fixpoint for_each {A} (xs : list A) (body : A -> M S unit) : M S unit :=
  match xs with
  | [] => ret tt
  | x :: xs' => bind (body x) (fun _ => for_each xs' body)
  end.

(** The state a call leaves behind, whether it returned or raised. *)
Definition state_after {A} (m : M S A) (s : S) : S := snd (m s).
Definition outcome {A} (m : M S A) (s : S) : result A := fst (m s).
End Monad.

(** Sequencing, written as in stdpp but elaborated left to right, so that
    the type of a bound variable is known in the continuation. *)
Declare Scope py_scope.
Delimit Scope py_scope with py.
Notation "x ← y ; z" := (bind y (fun x => z))
  (at level 20, y at level 100, z at level 200, only parsing) : py_scope.
Notation "y ;; z" := (bind y (fun _ => z))
  (at level 100, z at level 200, only parsing, right associativity) : py_scope.
Open Scope py_scope.

(** Lifting a pure fallible value. *)
Definition lift {S A} (r : result A) : M S A := fun s => (r, s).

(** [l[i]]: negative indices count from the end, anything else outside the
    list raises [IndexError]. *)
Definition py_index {A} (l : list A) (i : Z) : result A :=
  let n := Z.of_nat (length l) in
  let j := if i <? 0 then n + i else i in
  if (0 <=? j) && (j <? n)
  then match l !! Z.to_nat j with Some x => Ok x | None => Raise IndexError end
  else Raise IndexError.

(** [a % n] on integers: the result has the sign of [n], as [Z.modulo]. *)
Definition py_mod (a n : Z) : result Z :=
  if n =? 0 then Raise ZeroDivisionError else Ok (a `mod` n).

Definition Qltb (a b : Q) : bool := negb (Qle_bool b a).

(** [a / b] on floats. *)
Definition py_div (a b : Q) : result Q :=
  if Qeq_bool b 0 then Raise ZeroDivisionError else Ok (a / b)%Q.

(** [min(a, b)]: the first argument unless the second is strictly smaller. *)
Definition py_min (a b : Q) : Q := if Qltb b a then b else a.

(** [a // b] and [a % b] on floats, for [b > 0]. *)
Definition py_floordiv (a b : Q) : Q := inject_Z (Qfloor (a / b)).
Definition py_fmod (a b : Q) : Q := (a - b * inject_Z (Qfloor (a / b)))%Q.

(** [int(x)] truncates towards zero. *)
Definition py_int (x : Q) : Z := if Qltb x 0 then Qceiling x else Qfloor x.

(** [f"{n}"] and [f"{n:02d}"] *)
Definition fmt_d (n : Z) : string := pretty n.
Definition fmt_02d (n : Z) : string :=
  if (0 <=? n) && (n <? 10) then "0" +:+ pretty n else pretty n.

(** [os.path.basename]: what follows the last slash. *)
Fixpoint basename_aux (s acc : string) : string :=
  match s with
  | EmptyString => acc
  | String c s' =>
      if Ascii.eqb c (Ascii.ascii_of_nat 47) then basename_aux s' EmptyString
      else basename_aux s' (acc +:+ String c EmptyString)
  end.
Definition basename (s : string) : string := basename_aux s EmptyString.

(** [sorted(l)] on strings (insertion sort on the lexicographic order). *)
Fixpoint insert_sorted (x : string) (l : list string) : list string :=
  match l with
  | [] => [x]
  | y :: l' => if String.leb x y then x :: l else y :: insert_sorted x l'
  end.
Definition sorted (l : list string) : list string := foldr insert_sorted [] l.

Definition len {A} (l : list A) : Z := Z.of_nat (length l).

(** ** The environment: audio engine, file system, widgets *)

(** What the code needs from pygame: the base of the user event numbers and
    whether the engine can open and start a given file. *)
Record Pygame := {
  USEREVENT : Z;
  load_ok : string -> bool;
  play_ok : string -> bool;
  paplay_present : bool;
}.

(** What the code needs from the file system: the [*.wav] files of a
    folder as [glob.glob] lists them, the header of a file as the [wave]
    module reads it (frame count and frame rate) and as [scipy]'s
    [wavfile.read] reads it (rate and number of samples), and the text
    an exception prints as. *)
Record FileSystem := {
  glob_wav : string -> list string;
  wave_probe : string -> result (N * N);
  wavfile_read : string -> result (N * N);
  exn_text : exn -> string;
}.

(** Calls received by the audio engine, oldest first. *)
Inductive MixerCall : Type :=
  | PygameInit
  | MixerInit
  | SetEndEvent (type : Z)
  | MusicStop
  | MusicLoad (file : string)
  | MusicSetVolume (v : Q)
  | MusicPlay
  | MusicPause
  | MusicUnpause.

(** The files the engine was asked to load, in order. *)
Definition loaded_files (calls : list MixerCall) : list string :=
  omap (fun c => match c with MusicLoad f => Some f | _ => None end) calls.

(** An event of the pygame queue. *)
Record Event := { type : Z }.

(** The lifecycle phase, as the flags [is_playing] and [is_paused] encode
    it: Stopped is [is_playing = False]. *)
Inductive Phase : Type := Stopped | Playing | Paused.

Definition phase_of_flags (playing paused : option bool) : option Phase :=
  match playing, paused with
  | Some false, _ => Some Stopped
  | Some true, Some false => Some Playing
  | Some true, Some true => Some Paused
  | _, _ => None
  end.

(** The monitor thread and the local variable [start_time] of its loop. *)
Inductive Thread : Type :=
  | NotStarted
  | Running (start_time : option Q)
  | Crashed (e : exn)
  | Finished.

(** ** [pygame_resume_player.py] *)

Module PygameResume.

(** The widgets built by [_create_gui], each with its [value]; the
    dropdown also keeps its options [(basename, index)]. *)
Record Widgets := mkWidgets {
  dropdown_options : list (string * Z);
  file_dropdown : Z;
  volume_slider : Q;
  autoplay_checkbox : bool;
  current_file_label : string;
  progress_bar : Q;
  time_label : string;
}.

(** The attributes of a [WAVPlayer] object.  [pause_time] holds [None]
    or a time, so a set attribute is [Some None] or [Some (Some t)]. *)
Record WAVPlayer := mkPlayer {
  folder_path : option string;
  file_list : option (list string);
  current_index : option Z;
  is_playing : option bool;
  is_paused : option bool;
  volume : option Q;
  current_file : option string;
  current_position : option Q;
  pause_time : option (option Q);
  durations : option (gmap string Q);
  MUSIC_END : option Z;
  gui : option Widgets;
  should_stop_monitor : option bool;
}.

(** The object with what surrounds it: the track the engine has loaded,
    the calls it received, the printed lines, the wall clock (seconds) and
    the monitor thread. *)
Record World := mkWorld {
  self : WAVPlayer;
  music_loaded : option string;
  mixer_calls : list MixerCall;
  stdout : list string;
  now : Q;
  monitor : Thread;
}.

(** Field updates. *)
Definition w_dropdown_options (x : list (string * Z)) (g : Widgets) : Widgets :=
  mkWidgets x (file_dropdown g) (volume_slider g) (autoplay_checkbox g) (current_file_label g) (progress_bar g) (time_label g).
Definition w_file_dropdown (x : Z) (g : Widgets) : Widgets :=
  mkWidgets (dropdown_options g) x (volume_slider g) (autoplay_checkbox g) (current_file_label g) (progress_bar g) (time_label g).
Definition w_volume_slider (x : Q) (g : Widgets) : Widgets :=
  mkWidgets (dropdown_options g) (file_dropdown g) x (autoplay_checkbox g) (current_file_label g) (progress_bar g) (time_label g).
Definition w_autoplay_checkbox (x : bool) (g : Widgets) : Widgets :=
  mkWidgets (dropdown_options g) (file_dropdown g) (volume_slider g) x (current_file_label g) (progress_bar g) (time_label g).
Definition w_current_file_label (x : string) (g : Widgets) : Widgets :=
  mkWidgets (dropdown_options g) (file_dropdown g) (volume_slider g) (autoplay_checkbox g) x (progress_bar g) (time_label g).
Definition w_progress_bar (x : Q) (g : Widgets) : Widgets :=
  mkWidgets (dropdown_options g) (file_dropdown g) (volume_slider g) (autoplay_checkbox g) (current_file_label g) x (time_label g).
Definition w_time_label (x : string) (g : Widgets) : Widgets :=
  mkWidgets (dropdown_options g) (file_dropdown g) (volume_slider g) (autoplay_checkbox g) (current_file_label g) (progress_bar g) x.

Definition a_folder_path (x : option string) (o : WAVPlayer) : WAVPlayer :=
  mkPlayer x (file_list o) (current_index o) (is_playing o) (is_paused o) (volume o) (current_file o) (current_position o) (pause_time o) (durations o) (MUSIC_END o) (gui o) (should_stop_monitor o).
Definition a_file_list (x : option (list string)) (o : WAVPlayer) : WAVPlayer :=
  mkPlayer (folder_path o) x (current_index o) (is_playing o) (is_paused o) (volume o) (current_file o) (current_position o) (pause_time o) (durations o) (MUSIC_END o) (gui o) (should_stop_monitor o).
Definition a_current_index (x : option Z) (o : WAVPlayer) : WAVPlayer :=
  mkPlayer (folder_path o) (file_list o) x (is_playing o) (is_paused o) (volume o) (current_file o) (current_position o) (pause_time o) (durations o) (MUSIC_END o) (gui o) (should_stop_monitor o).
Definition a_is_playing (x : option bool) (o : WAVPlayer) : WAVPlayer :=
  mkPlayer (folder_path o) (file_list o) (current_index o) x (is_paused o) (volume o) (current_file o) (current_position o) (pause_time o) (durations o) (MUSIC_END o) (gui o) (should_stop_monitor o).
Definition a_is_paused (x : option bool) (o : WAVPlayer) : WAVPlayer :=
  mkPlayer (folder_path o) (file_list o) (current_index o) (is_playing o) x (volume o) (current_file o) (current_position o) (pause_time o) (durations o) (MUSIC_END o) (gui o) (should_stop_monitor o).
Definition a_volume (x : option Q) (o : WAVPlayer) : WAVPlayer :=
  mkPlayer (folder_path o) (file_list o) (current_index o) (is_playing o) (is_paused o) x (current_file o) (current_position o) (pause_time o) (durations o) (MUSIC_END o) (gui o) (should_stop_monitor o).
Definition a_current_file (x : option string) (o : WAVPlayer) : WAVPlayer :=
  mkPlayer (folder_path o) (file_list o) (current_index o) (is_playing o) (is_paused o) (volume o) x (current_position o) (pause_time o) (durations o) (MUSIC_END o) (gui o) (should_stop_monitor o).
Definition a_current_position (x : option Q) (o : WAVPlayer) : WAVPlayer :=
  mkPlayer (folder_path o) (file_list o) (current_index o) (is_playing o) (is_paused o) (volume o) (current_file o) x (pause_time o) (durations o) (MUSIC_END o) (gui o) (should_stop_monitor o).
Definition a_pause_time (x : option (option Q)) (o : WAVPlayer) : WAVPlayer :=
  mkPlayer (folder_path o) (file_list o) (current_index o) (is_playing o) (is_paused o) (volume o) (current_file o) (current_position o) x (durations o) (MUSIC_END o) (gui o) (should_stop_monitor o).
Definition a_durations (x : option (gmap string Q)) (o : WAVPlayer) : WAVPlayer :=
  mkPlayer (folder_path o) (file_list o) (current_index o) (is_playing o) (is_paused o) (volume o) (current_file o) (current_position o) (pause_time o) x (MUSIC_END o) (gui o) (should_stop_monitor o).
Definition a_MUSIC_END (x : option Z) (o : WAVPlayer) : WAVPlayer :=
  mkPlayer (folder_path o) (file_list o) (current_index o) (is_playing o) (is_paused o) (volume o) (current_file o) (current_position o) (pause_time o) (durations o) x (gui o) (should_stop_monitor o).
Definition a_gui (x : option Widgets) (o : WAVPlayer) : WAVPlayer :=
  mkPlayer (folder_path o) (file_list o) (current_index o) (is_playing o) (is_paused o) (volume o) (current_file o) (current_position o) (pause_time o) (durations o) (MUSIC_END o) x (should_stop_monitor o).
Definition a_should_stop_monitor (x : option bool) (o : WAVPlayer) : WAVPlayer :=
  mkPlayer (folder_path o) (file_list o) (current_index o) (is_playing o) (is_paused o) (volume o) (current_file o) (current_position o) (pause_time o) (durations o) (MUSIC_END o) (gui o) x.

Definition set_self (x : WAVPlayer) (w : World) : World :=
  mkWorld x (music_loaded w) (mixer_calls w) (stdout w) (now w) (monitor w).
Definition set_music_loaded (x : option string) (w : World) : World :=
  mkWorld (self w) x (mixer_calls w) (stdout w) (now w) (monitor w).
Definition set_mixer_calls (x : list MixerCall) (w : World) : World :=
  mkWorld (self w) (music_loaded w) x (stdout w) (now w) (monitor w).
Definition set_stdout (x : list string) (w : World) : World :=
  mkWorld (self w) (music_loaded w) (mixer_calls w) x (now w) (monitor w).
Definition set_now (x : Q) (w : World) : World :=
  mkWorld (self w) (music_loaded w) (mixer_calls w) (stdout w) x (monitor w).
Definition set_monitor (x : Thread) (w : World) : World :=
  mkWorld (self w) (music_loaded w) (mixer_calls w) (stdout w) (now w) x.

Definition blank : WAVPlayer :=
  mkPlayer None None None None None None None None None None None None None.

(** The world before the constructor runs, at wall-clock time [t0]. *)
Definition fresh (t0 : Q) : World := mkWorld blank None [] [] t0 NotStarted.

Section Methods.
Variable pg : Pygame.
Variable fs : FileSystem.

(** [self.x] *)
Definition attr {A} (f : WAVPlayer -> option A) : M World A :=
  fun w => match f (self w) with
           | Some a => (Ok a, w)
           | None => (Raise AttributeError, w)
           end.

(** [self.x = v], through the field update of [x] *)
Definition setattr (upd : WAVPlayer -> WAVPlayer) : M World unit :=
  modify (fun w => set_self (upd (self w)) w).

(** [self.<widget>.value = v] for a widget without observer *)
Definition set_widget (upd : Widgets -> Widgets) : M World unit :=
  g ← attr gui; setattr (a_gui (Some (upd g))).

Definition print (line : string) : M World unit :=
  modify (fun w => set_stdout (stdout w ++ [line]) w).

Definition time_time : M World Q := fun w => (Ok (now w), w).
Definition time_sleep (d : Q) : M World unit :=
  modify (fun w => set_now (now w + d)%Q w).

Definition call (c : MixerCall) : M World unit :=
  modify (fun w => set_mixer_calls (mixer_calls w ++ [c]) w).

(** [pygame.mixer.music.load]: raises when the engine cannot open the
    file; the call is logged either way. *)
Definition music_load (file : string) : M World unit :=
  call (MusicLoad file);;
  if load_ok pg file
  then modify (set_music_loaded (Some file))
  else raise PygameError.

(** [pygame.mixer.music.play]: raises when nothing is loaded or the
    engine cannot start the track. *)
Definition music_play : M World unit :=
  call MusicPlay;;
  w ← get;
  match music_loaded w with
  | Some file => if play_ok pg file then ret tt else raise PygameError
  | None => raise PygameError
  end.

Definition music_stop : M World unit := call MusicStop.
Definition music_set_volume (v : Q) : M World unit := call (MusicSetVolume v).

(** [_get_wav_durations]: the [try] statement of the loop body, on the
    local dictionary [durations]. *)
Definition probe_duration (wav_file : string) (durations : gmap string Q)
  : M World (gmap string Q) :=
  try_except
    (fr ← lift (wave_probe fs wav_file);
     let frames := inject_Z (Z.of_N fr.1) in
     let rate := inject_Z (Z.of_N fr.2) in
     duration ← lift (py_div frames rate);
     ret (<[wav_file := duration]> durations))
    (fun e =>
       print ("ファイル " +:+ wav_file +:+ " の長さを取得できませんでした: "
              +:+ exn_text fs e);;
       ret (<[wav_file := 0%Q]> durations)).

(** The loop over [self.file_list]. *)
Fixpoint durations_loop (files : list string) (durations : gmap string Q)
  : M World (gmap string Q) :=
  match files with
  | [] => ret durations
  | wav_file :: rest =>
      durations' ← probe_duration wav_file durations;
      durations_loop rest durations'
  end.

Definition _get_wav_durations : M World (gmap string Q) :=
  files ← attr file_list;
  durations_loop files ∅.

(** [_create_gui]: the dropdown offers [(basename f, i)] for every file
    and shows its first option; the label, bar and time text start
    empty.  The observers it registers are the handlers below. *)
Definition _create_gui : M World unit :=
  files ← attr file_list;
  let file_options := imap (fun i f => (basename f, Z.of_nat i)) files in
  vol ← attr volume;
  setattr (a_gui (Some (mkWidgets file_options 0 vol true
                          "<b>再生ファイル:</b> なし" 0 "0:00 / 0:00"))).

Definition _stop_external_player : M World unit :=
  (* hasattr(self, 'current_process') is false: no assignment to it
     ever completes, see [_play_with_external_player] *)
  ret tt.

(** [_play_with_external_player]: the module never imports [subprocess],
    so [subprocess.Popen] raises [NameError] before [current_process] is
    assigned; the handler around the body swallows it. *)
Definition _play_with_external_player (file_path : string) : M World unit :=
  try_except
    (if paplay_present pg
     then _stop_external_player;; raise NameError
     else ret tt)
    (fun _ => ret tt).

(** [_play_current(position=0)] *)
Definition _play_current (position : Q) : M World unit :=
  idx ← attr current_index;
  files ← attr file_list;
  if (0 <=? idx) && (idx <? len files) then
    music_stop;;
    files ← attr file_list;
    idx ← attr current_index;
    current_file' ← lift (py_index files idx);
    music_load current_file';;
    vol ← attr volume;
    music_set_volume vol;;
    music_play;;
    setattr (a_is_playing (Some true));;
    setattr (a_is_paused (Some false));;
    setattr (a_current_position (Some position));;
    setattr (a_current_file (Some (basename current_file')));;
    name ← attr current_file;
    set_widget (w_current_file_label ("<b>再生ファイル:</b> " +:+ name));;
    _play_with_external_player current_file'
  else ret tt.

(** [_on_file_select(change)], with [change['new']] as an option *)
Definition _on_file_select (new : option Z) : M World unit :=
  match new with
  | Some new_index =>
      idx ← attr current_index;
      if negb (new_index =? idx) then
        setattr (a_current_index (Some new_index));;
        playing ← attr is_playing;
        if playing then _play_current 0 else ret tt
      else ret tt
  | None => ret tt
  end.

(** [self.file_dropdown.value = v]: the widget refuses a value that is
    not among its options and notifies its observer,
    [_on_file_select], when the value changes. *)
Definition set_file_dropdown (v : Z) : M World unit :=
  g ← attr gui;
  if negb (bool_decide (v ∈ (dropdown_options g).*2)) then raise TraitError
  else if v =? file_dropdown g then ret tt
  else setattr (a_gui (Some (w_file_dropdown v g)));;
       _on_file_select (Some v).

(** [_on_play] *)
Definition _on_play : M World unit :=
  playing ← attr is_playing;
  if negb playing then _play_current 0
  else
    paused ← attr is_paused;
    if paused then
      setattr (a_is_paused (Some false));;
      pt ← attr pause_time;
      match pt with
      | Some t0 =>
          (if negb (Qeq_bool t0 0) then
             t ← time_time;
             let pause_duration := (t - t0)%Q in
             pos ← attr current_position;
             setattr (a_current_position (Some (pos + pause_duration)%Q))
           else ret tt)
      | None => ret tt
      end;;
      pos ← attr current_position;
      _play_current pos
    else ret tt.

(** [_on_pause] *)
Definition _on_pause : M World unit :=
  playing ← attr is_playing;
  if playing then
    paused ← attr is_paused;
    if negb paused then
      music_stop;;
      setattr (a_is_paused (Some true));;
      t ← time_time;
      setattr (a_pause_time (Some (Some t)))
    else ret tt
  else ret tt.

(** [_on_stop] *)
Definition _on_stop : M World unit :=
  playing ← attr is_playing;
  if playing then
    music_stop;;
    setattr (a_is_playing (Some false));;
    setattr (a_is_paused (Some false));;
    setattr (a_current_position (Some 0%Q));;
    setattr (a_pause_time (Some None));;
    set_widget (w_current_file_label "<b>再生ファイル:</b> なし");;
    set_widget (w_progress_bar 0%Q);;
    set_widget (w_time_label "0:00 / 0:00")
  else ret tt.

(** [_on_prev] *)
Definition _on_prev : M World unit :=
  files ← attr file_list;
  if 0 <? len files then
    idx ← attr current_index;
    files ← attr file_list;
    i ← lift (py_mod (idx - 1) (len files));
    setattr (a_current_index (Some i));;
    playing ← attr is_playing;
    if playing then _play_current 0
    else idx ← attr current_index; set_file_dropdown idx
  else ret tt.

(** [_on_next] *)
Definition _on_next : M World unit :=
  files ← attr file_list;
  if 0 <? len files then
    idx ← attr current_index;
    files ← attr file_list;
    i ← lift (py_mod (idx + 1) (len files));
    setattr (a_current_index (Some i));;
    playing ← attr is_playing;
    if playing then _play_current 0
    else idx ← attr current_index; set_file_dropdown idx
  else ret tt.

(** [_on_volume_change(change)] *)
Definition _on_volume_change (new : Q) : M World unit :=
  setattr (a_volume (Some new));;
  vol ← attr volume;
  music_set_volume vol.

(** [self.is_playing and not self.is_paused] *)
Definition playing_and_not_paused : M World bool :=
  playing ← attr is_playing;
  if playing then paused ← attr is_paused; ret (negb paused)
  else ret false.

(** The text of the time label,
    [f"{minutes_current}:{seconds_current:02d} / {minutes_total}:{seconds_total:02d}"] *)
Definition time_text (current_time total_duration : Q) : string :=
  let minutes_current := py_int (py_floordiv current_time 60) in
  let seconds_current := py_int (py_fmod current_time 60) in
  let minutes_total := py_int (py_floordiv total_duration 60) in
  let seconds_total := py_int (py_fmod total_duration 60) in
  fmt_d minutes_current +:+ ":" +:+ fmt_02d seconds_current +:+ " / "
  +:+ fmt_d minutes_total +:+ ":" +:+ fmt_02d seconds_total.

(** The first half of an iteration of [_monitor_playback]: the loop over
    [pygame.event.get()]. *)
Definition handle_event (event : Event) : M World unit :=
  music_end ← attr MUSIC_END;
  if type event =? music_end then
    active ← playing_and_not_paused;
    if active then
      g ← attr gui;
      if autoplay_checkbox g then _on_next else _on_stop
    else ret tt
  else ret tt.

(** The second half: the update of position and display.  It returns
    the new value of the local variable [start_time]. *)
Definition update_position (start_time : option Q) : M World (option Q) :=
  active ← playing_and_not_paused;
  if active then
    start_time' ←
      match start_time with
      | None => t ← time_time; pos ← attr current_position; ret (t - pos)%Q
      | Some t0 => ret t0
      end;
    t ← time_time;
    let current_time := (t - start_time')%Q in
    setattr (a_current_position (Some current_time));;
    files ← attr file_list;
    idx ← attr current_index;
    current_file' ← lift (py_index files idx);
    ds ← attr durations;
    let total_duration := default 0%Q (ds !! current_file') in
    if Qltb 0 total_duration then
      ratio ← lift (py_div current_time total_duration);
      let progress := py_min 100 (ratio * 100)%Q in
      set_widget (w_progress_bar progress);;
      set_widget (w_time_label (time_text current_time total_duration));;
      if Qle_bool total_duration current_time then
        g ← attr gui;
        if autoplay_checkbox g then _on_next;; ret None
        else ret (Some start_time')
      else ret (Some start_time')
    else ret (Some start_time')
  else
    paused ← attr is_paused;
    if paused then ret start_time else ret None.

(** One iteration of the [while] loop of [_monitor_playback], given the
    events the queue holds when it is drained. *)
Definition monitor_iteration (events : list Event) (start_time : option Q)
  : M World (option Q) :=
  for_each events handle_event;;
  start_time' ← update_position start_time;
  time_sleep (1 # 10);;
  ret start_time'.

(** The monitor thread is scheduled for one turn of its loop.  An
    exception that leaves the loop body ends the thread. *)
Definition monitor_turn (events : list Event) (w : World) : World :=
  match monitor w with
  | Running start_time =>
      match attr should_stop_monitor w with
      | (Ok true, w') => set_monitor Finished w'
      | (Ok false, w') =>
          match monitor_iteration events start_time w' with
          | (Ok start_time', w'') => set_monitor (Running start_time') w''
          | (Raise e, w'') => set_monitor (Crashed e) w''
          end
      | (Raise e, w') => set_monitor (Crashed e) w'
      end
  | _ => w
  end.

(** [start_monitor] *)
Definition start_monitor : M World unit :=
  w ← get;
  match monitor w with
  | Running _ => ret tt
  | _ =>
      setattr (a_should_stop_monitor (Some false));;
      modify (set_monitor (Running None))
  end.

(** [__init__(folder_path)] *)
Definition __init__ (folder : string) : M World unit :=
  call PygameInit;;
  call MixerInit;;
  setattr (a_folder_path (Some folder));;
  setattr (a_file_list (Some (sorted (glob_wav fs folder))));;
  files ← attr file_list;
  match files with
  | [] =>
      print ("フォルダ" +:+ folder +:+ "にWAVファイルが見つかりません")
  | _ =>
      setattr (a_current_index (Some 0));;
      setattr (a_is_playing (Some false));;
      setattr (a_is_paused (Some false));;
      setattr (a_volume (Some (7 # 10)));;
      setattr (a_current_file (Some ""));;
      setattr (a_current_position (Some 0%Q));;
      setattr (a_pause_time (Some None));;
      ds ← _get_wav_durations;
      setattr (a_durations (Some ds));;
      setattr (a_MUSIC_END (Some (USEREVENT pg + 1)));;
      music_end ← attr MUSIC_END;
      call (SetEndEvent music_end);;
      _create_gui;;
      setattr (a_should_stop_monitor (Some false));;
      start_monitor
  end.

(** The command surface: what the buttons, the dropdown, the slider and
    the checkbox do when the user operates them. *)
Inductive Command : Type :=
  | Play | Pause | Stop | Next | Prev
  | Select (index : Z)
  | SetVolume (v : Q)
  | SetAutoplay (b : bool).

Definition run_command (c : Command) : M World unit :=
  match c with
  | Play => _on_play
  | Pause => _on_pause
  | Stop => _on_stop
  | Next => _on_next
  | Prev => _on_prev
  | Select index => set_file_dropdown index
  | SetVolume v =>
      set_widget (w_volume_slider v);; _on_volume_change v
  | SetAutoplay b => set_widget (w_autoplay_checkbox b)
  end.
End Methods.

(** *** Vocabulary of the statements *)

(** Every attribute has been assigned: the constructor ran to its end. *)
Definition live (w : World) : Prop :=
  exists fp files idx playing paused vol cf pos pt ds me g ssm,
    self w = mkPlayer (Some fp) (Some files) (Some idx) (Some playing)
               (Some paused) (Some vol) (Some cf) (Some pos) (Some pt)
               (Some ds) (Some me) (Some g) (Some ssm).

Definition phase (w : World) : option Phase :=
  phase_of_flags (is_playing (self w)) (is_paused (self w)).

(** [0 <= current_index < len(file_list)] *)
Definition index_valid (w : World) : Prop :=
  exists files idx,
    file_list (self w) = Some files /\ current_index (self w) = Some idx
    /\ 0 <= idx < len files.

(** The dropdown offers exactly the indices of the playlist. *)
Definition options_match (w : World) : Prop :=
  exists files g,
    file_list (self w) = Some files /\ gui (self w) = Some g
    /\ (dropdown_options g).*2 = Z.of_nat <$> seq 0 (length files).

(** One atomic step of the running system: a command from the control
    surface, a turn of the monitor loop with the events then queued, or
    the passing of wall-clock time. *)
Inductive step (pg : Pygame) : World -> World -> Prop :=
  | step_command (c : Command) (w : World) :
      step pg w (state_after (run_command pg c) w)
  | step_monitor (events : list Event) (w : World) :
      step pg w (monitor_turn pg events w)
  | step_wait (d : Q) (w : World) :
      (0 <= d)%Q -> step pg w (set_now (now w + d)%Q w).

(** The invariant of a controller built over a non-empty playlist. *)
Definition Inv (w : World) : Prop :=
  live w /\ index_valid w /\ options_match w.

(** The display shows no track: empty label, empty bar, zero time. *)
Definition display_cleared (w : World) : Prop :=
  exists g, gui (self w) = Some g
    /\ current_file_label g = "<b>再生ファイル:</b> なし"
    /\ progress_bar g = 0%Q
    /\ time_label g = "0:00 / 0:00".

(** The progress bar shows a percentage. *)
Definition progress_in_range (w : World) : Prop :=
  exists g, gui (self w) = Some g /\ (0 <= progress_bar g <= 100)%Q.

(** The elapsed time the monitor is about to compute is not negative:
    its anchor [start_time] is not in the future, or, when the anchor is
    still to be armed, the stored position is not negative. *)
Definition elapsed_nonneg (start_time : option Q) (w : World) : Prop :=
  match start_time with
  | Some t0 => (t0 <= now w)%Q
  | None => exists pos, current_position (self w) = Some pos /\ (0 <= pos)%Q
  end.

(** An optional instant that, when present, is not later than [t]. *)
Definition not_after (o : option Q) (t : Q) : Prop :=
  match o with
  | Some x => (x <= t)%Q
  | None => True
  end.

(** The anchor [start_time] of a running monitor. *)
Definition anchor (th : Thread) : option Q :=
  match th with
  | Running start_time => start_time
  | _ => None
  end.

(** The clock readings the object keeps are sound: the stored position
    is not negative, and neither the instant of the last pause nor the
    monitor's anchor lies in the future. *)
Definition clock_sound (w : World) : Prop :=
  (exists pos, current_position (self w) = Some pos /\ (0 <= pos)%Q)
  /\ (exists pt, pause_time (self w) = Some pt /\ not_after pt (now w))
  /\ not_after (anchor (monitor w)) (now w).

(** The invariant together with a sound clock and a bar within range. *)
Definition Timed (w : World) : Prop :=
  Inv w /\ progress_in_range w /\ clock_sound w.

(** The track at the current index. *)
Definition current_track (w : World) (f : string) : Prop :=
  exists files idx,
    file_list (self w) = Some files /\ current_index (self w) = Some idx
    /\ 0 <= idx /\ files !! Z.to_nat idx = Some f.

(** The invariant and the current track as computations, for concrete
    worlds. *)
Definition Inv_b (w : World) : bool :=
  match self w with
  | mkPlayer (Some _) (Some files) (Some idx) (Some _) (Some _) (Some _)
      (Some _) (Some _) (Some _) (Some _) (Some _) (Some g) (Some _) =>
      (0 <=? idx) && (idx <? len files)
      && bool_decide ((dropdown_options g).*2
                      = Z.of_nat <$> seq 0 (length files))
  | _ => false
  end.

Definition track_at (w : World) : option string :=
  match file_list (self w), current_index (self w) with
  | Some files, Some idx =>
      if 0 <=? idx then files !! Z.to_nat idx else None
  | _, _ => None
  end.

(** The states a controller built over [folder] at time [t0] can reach. *)
Definition reachable (pg : Pygame) (fs : FileSystem) (folder : string)
    (t0 : Q) (w : World) : Prop :=
  rtc (step pg) (state_after (__init__ pg fs folder) (fresh t0)) w.

(** The exception that ends the [try] block of [_get_wav_durations] for
    a file, if any: what the [wave] module raises, or the division by a
    frame rate of 0. *)
Definition probe_error (fs : FileSystem) (wav_file : string) : option exn :=
  match wave_probe fs wav_file with
  | Raise e => Some e
  | Ok fr =>
      match py_div (inject_Z (Z.of_N fr.1)) (inject_Z (Z.of_N fr.2)) with
      | Raise e => Some e
      | Ok _ => None
      end
  end.

(** What the constructor sets once and for all: the folder, the
    playlist, the durations, the end event, the stop flag of the monitor
    and what the dropdown offers. *)
Definition config (w : World)
  : option string * option (list string) * option (gmap string Q)
    * option Z * option bool * option (list (string * Z)) :=
  (folder_path (self w), file_list (self w), durations (self w),
   MUSIC_END (self w), should_stop_monitor (self w),
   dropdown_options <$> gui (self w)).

(** The monitor thread has been started and has not left its loop
    through the loop condition. *)
Definition monitor_started (w : World) : Prop :=
  match monitor w with
  | Running _ | Crashed _ => True
  | NotStarted | Finished => False
  end.


(** The configuration and the monitor thread are those of [w]. *)
Definition kept (w w' : World) : Prop :=
  config w' = config w /\ monitor w' = monitor w.


End PygameResume.

(** ** [wav_player.py] *)

Module WavPlayer.

(** The widgets built by [_create_gui]; this variant has neither a time
    label nor an autoplay checkbox. *)
Record Widgets := mkWidgets {
  dropdown_options : list (string * Z);
  file_dropdown : Z;
  volume_slider : Q;
  current_file_label : string;
  progress_bar : Q;
}.

(** The attributes of a [WAVPlayer] object. *)
Record WAVPlayer := mkPlayer {
  folder_path : option string;
  file_list : option (list string);
  current_index : option Z;
  is_playing : option bool;
  is_paused : option bool;
  volume : option Q;
  current_file : option string;
  MUSIC_END : option Z;
  gui : option Widgets;
}.

(** The object with what surrounds it. *)
Record World := mkWorld {
  self : WAVPlayer;
  music_loaded : option string;
  mixer_calls : list MixerCall;
  stdout : list string;
  now : Q;
  monitor : Thread;
}.

(** Field updates. *)
Definition w_dropdown_options (x : list (string * Z)) (g : Widgets) : Widgets :=
  mkWidgets x (file_dropdown g) (volume_slider g) (current_file_label g) (progress_bar g).
Definition w_file_dropdown (x : Z) (g : Widgets) : Widgets :=
  mkWidgets (dropdown_options g) x (volume_slider g) (current_file_label g) (progress_bar g).
Definition w_volume_slider (x : Q) (g : Widgets) : Widgets :=
  mkWidgets (dropdown_options g) (file_dropdown g) x (current_file_label g) (progress_bar g).
Definition w_current_file_label (x : string) (g : Widgets) : Widgets :=
  mkWidgets (dropdown_options g) (file_dropdown g) (volume_slider g) x (progress_bar g).
Definition w_progress_bar (x : Q) (g : Widgets) : Widgets :=
  mkWidgets (dropdown_options g) (file_dropdown g) (volume_slider g) (current_file_label g) x.

Definition a_folder_path (x : option string) (o : WAVPlayer) : WAVPlayer :=
  mkPlayer x (file_list o) (current_index o) (is_playing o) (is_paused o) (volume o) (current_file o) (MUSIC_END o) (gui o).
Definition a_file_list (x : option (list string)) (o : WAVPlayer) : WAVPlayer :=
  mkPlayer (folder_path o) x (current_index o) (is_playing o) (is_paused o) (volume o) (current_file o) (MUSIC_END o) (gui o).
Definition a_current_index (x : option Z) (o : WAVPlayer) : WAVPlayer :=
  mkPlayer (folder_path o) (file_list o) x (is_playing o) (is_paused o) (volume o) (current_file o) (MUSIC_END o) (gui o).
Definition a_is_playing (x : option bool) (o : WAVPlayer) : WAVPlayer :=
  mkPlayer (folder_path o) (file_list o) (current_index o) x (is_paused o) (volume o) (current_file o) (MUSIC_END o) (gui o).
Definition a_is_paused (x : option bool) (o : WAVPlayer) : WAVPlayer :=
  mkPlayer (folder_path o) (file_list o) (current_index o) (is_playing o) x (volume o) (current_file o) (MUSIC_END o) (gui o).
Definition a_volume (x : option Q) (o : WAVPlayer) : WAVPlayer :=
  mkPlayer (folder_path o) (file_list o) (current_index o) (is_playing o) (is_paused o) x (current_file o) (MUSIC_END o) (gui o).
Definition a_current_file (x : option string) (o : WAVPlayer) : WAVPlayer :=
  mkPlayer (folder_path o) (file_list o) (current_index o) (is_playing o) (is_paused o) (volume o) x (MUSIC_END o) (gui o).
Definition a_MUSIC_END (x : option Z) (o : WAVPlayer) : WAVPlayer :=
  mkPlayer (folder_path o) (file_list o) (current_index o) (is_playing o) (is_paused o) (volume o) (current_file o) x (gui o).
Definition a_gui (x : option Widgets) (o : WAVPlayer) : WAVPlayer :=
  mkPlayer (folder_path o) (file_list o) (current_index o) (is_playing o) (is_paused o) (volume o) (current_file o) (MUSIC_END o) x.

Definition set_self (x : WAVPlayer) (w : World) : World :=
  mkWorld x (music_loaded w) (mixer_calls w) (stdout w) (now w) (monitor w).
Definition set_music_loaded (x : option string) (w : World) : World :=
  mkWorld (self w) x (mixer_calls w) (stdout w) (now w) (monitor w).
Definition set_mixer_calls (x : list MixerCall) (w : World) : World :=
  mkWorld (self w) (music_loaded w) x (stdout w) (now w) (monitor w).
Definition set_stdout (x : list string) (w : World) : World :=
  mkWorld (self w) (music_loaded w) (mixer_calls w) x (now w) (monitor w).
Definition set_now (x : Q) (w : World) : World :=
  mkWorld (self w) (music_loaded w) (mixer_calls w) (stdout w) x (monitor w).
Definition set_monitor (x : Thread) (w : World) : World :=
  mkWorld (self w) (music_loaded w) (mixer_calls w) (stdout w) (now w) x.

Definition blank : WAVPlayer :=
  mkPlayer None None None None None None None None None.

Definition fresh (t0 : Q) : World := mkWorld blank None [] [] t0 NotStarted.

Section Methods.
Variable pg : Pygame.
Variable fs : FileSystem.

Definition attr {A} (f : WAVPlayer -> option A) : M World A :=
  fun w => match f (self w) with
           | Some a => (Ok a, w)
           | None => (Raise AttributeError, w)
           end.

Definition setattr (upd : WAVPlayer -> WAVPlayer) : M World unit :=
  modify (fun w => set_self (upd (self w)) w).

Definition set_widget (upd : Widgets -> Widgets) : M World unit :=
  g ← attr gui; setattr (a_gui (Some (upd g))).

Definition print (line : string) : M World unit :=
  modify (fun w => set_stdout (stdout w ++ [line]) w).

Definition time_sleep (d : Q) : M World unit :=
  modify (fun w => set_now (now w + d)%Q w).

Definition call (c : MixerCall) : M World unit :=
  modify (fun w => set_mixer_calls (mixer_calls w ++ [c]) w).

Definition music_load (file : string) : M World unit :=
  call (MusicLoad file);;
  if load_ok pg file
  then modify (set_music_loaded (Some file))
  else raise PygameError.

Definition music_play : M World unit :=
  call MusicPlay;;
  w ← get;
  match music_loaded w with
  | Some file => if play_ok pg file then ret tt else raise PygameError
  | None => raise PygameError
  end.

(** [_create_gui] *)
Definition _create_gui : M World unit :=
  files ← attr file_list;
  let file_options := imap (fun i f => (basename f, Z.of_nat i)) files in
  vol ← attr volume;
  setattr (a_gui (Some (mkWidgets file_options 0 vol
                          "<b>再生ファイル:</b> なし" 0))).

(** [self.file_dropdown.value = v], with the observer to notify when
    the value changes. *)
Definition set_file_dropdown (observer : option Z -> M World unit) (v : Z)
  : M World unit :=
  g ← attr gui;
  if negb (bool_decide (v ∈ (dropdown_options g).*2)) then raise TraitError
  else if v =? file_dropdown g then ret tt
  else setattr (a_gui (Some (w_file_dropdown v g)));;
       observer (Some v).

(** The body of [_on_file_select(change)], given what
    [self._play_current()] stands for at the current call depth. *)
Definition on_file_select_with (play_current : M World unit)
    (new : option Z) : M World unit :=
  match new with
  | Some new_index =>
      setattr (a_current_index (Some new_index));;
      playing ← attr is_playing;
      if playing then play_current else ret tt
  | None => ret tt
  end.

(** [_play_current]: it assigns the dropdown, whose observer
    [_on_file_select] calls [_play_current] again; [depth] is the number
    of nested calls the interpreter still allows. *)
Fixpoint _play_current (depth : nat) : M World unit :=
  match depth with
  | O => raise RecursionError
  | S depth' =>
      idx ← attr current_index;
      files ← attr file_list;
      if (0 <=? idx) && (idx <? len files) then
        files ← attr file_list;
        idx ← attr current_index;
        current_file' ← lift (py_index files idx);
        started ←
          try_except
            (music_load current_file';;
             music_play;;
             setattr (a_is_playing (Some true));;
             setattr (a_is_paused (Some false));;
             setattr (a_current_file (Some (basename current_file')));;
             name ← attr current_file;
             set_widget
               (w_current_file_label ("<b>再生ファイル:</b> " +:+ name));;
             ret true)
            (fun e =>
               print ("ファイルの再生中にエラーが発生しました: "
                      +:+ exn_text fs e);;
               ret false);
        if started : bool then
          set_widget (w_progress_bar 0%Q);;
          idx ← attr current_index;
          set_file_dropdown (on_file_select_with (_play_current depth')) idx
        else ret tt
      else ret tt
  end.

(** The interpreter's default recursion limit. *)
Definition recursion_limit : nat := 1000.

Definition play_current : M World unit := _play_current recursion_limit.

(** [_on_file_select(change)] *)
Definition _on_file_select (new : option Z) : M World unit :=
  on_file_select_with play_current new.

(** [_on_play] *)
Definition _on_play : M World unit :=
  playing ← attr is_playing;
  if negb playing then play_current
  else
    paused ← attr is_paused;
    if paused then
      call MusicUnpause;;
      setattr (a_is_paused (Some false))
    else ret tt.

(** [_on_pause] *)
Definition _on_pause : M World unit :=
  playing ← attr is_playing;
  if playing then
    paused ← attr is_paused;
    if negb paused then
      call MusicPause;;
      setattr (a_is_paused (Some true))
    else ret tt
  else ret tt.

(** [_on_stop] *)
Definition _on_stop : M World unit :=
  playing ← attr is_playing;
  if playing then
    call MusicStop;;
    setattr (a_is_playing (Some false));;
    setattr (a_is_paused (Some false));;
    set_widget (w_current_file_label "<b>再生ファイル:</b> なし");;
    set_widget (w_progress_bar 0%Q)
  else ret tt.

(** [_on_prev] *)
Definition _on_prev : M World unit :=
  files ← attr file_list;
  if 0 <? len files then
    idx ← attr current_index;
    files ← attr file_list;
    i ← lift (py_mod (idx - 1) (len files));
    setattr (a_current_index (Some i));;
    playing ← attr is_playing;
    if playing then play_current
    else idx ← attr current_index; set_file_dropdown _on_file_select idx
  else ret tt.

(** [_on_next] *)
Definition _on_next : M World unit :=
  files ← attr file_list;
  if 0 <? len files then
    idx ← attr current_index;
    files ← attr file_list;
    i ← lift (py_mod (idx + 1) (len files));
    setattr (a_current_index (Some i));;
    playing ← attr is_playing;
    if playing then play_current
    else idx ← attr current_index; set_file_dropdown _on_file_select idx
  else ret tt.

(** [_on_volume_change(change)] *)
Definition _on_volume_change (new : Q) : M World unit :=
  setattr (a_volume (Some new));;
  vol ← attr volume;
  call (MusicSetVolume vol).

(** [self.is_playing and not self.is_paused] *)
Definition playing_and_not_paused : M World bool :=
  playing ← attr is_playing;
  if playing then paused ← attr is_paused; ret (negb paused)
  else ret false.

(** The loop over [pygame.event.get()] in [_monitor_playback]. *)
Definition handle_event (event : Event) : M World unit :=
  music_end ← attr MUSIC_END;
  if type event =? music_end then
    active ← playing_and_not_paused;
    if active then _on_next else ret tt
  else ret tt.

(** The update of the progress bar, given what
    [pygame.mixer.music.get_pos()] returns (milliseconds). *)
Definition update_progress (get_pos : Z) : M World unit :=
  active ← playing_and_not_paused;
  if active then
    let current_pos := get_pos in
    if 0 <? current_pos then
      try_except
        (files ← attr file_list;
         idx ← attr current_index;
         file ← lift (py_index files idx);
         rd ← lift (wavfile_read fs file);
         let rate := inject_Z (Z.of_N rd.1) in
         let len_data := inject_Z (Z.of_N rd.2) in
         seconds ← lift (py_div len_data rate);
         let duration := (seconds * 1000)%Q in
         ratio ← lift (py_div (inject_Z current_pos) duration);
         let progress := py_min 100 (ratio * 100)%Q in
         set_widget (w_progress_bar progress))
        (fun _ => ret tt)
    else ret tt
  else ret tt.

(** One iteration of the [while True] loop of [_monitor_playback]. *)
Definition monitor_iteration (events : list Event) (get_pos : Z)
  : M World unit :=
  time_sleep (1 # 10);;
  for_each events handle_event;;
  update_progress get_pos.

Definition monitor_turn (events : list Event) (get_pos : Z) (w : World)
  : World :=
  match monitor w with
  | Running start_time =>
      match monitor_iteration events get_pos w with
      | (Ok _, w') => w'
      | (Raise e, w') => set_monitor (Crashed e) w'
      end
  | _ => w
  end.

(** [start_monitor] *)
Definition start_monitor : M World unit :=
  w ← get;
  match monitor w with
  | Running _ => ret tt
  | _ => modify (set_monitor (Running None))
  end.

(** [__init__(folder_path)] *)
Definition __init__ (folder : string) : M World unit :=
  setattr (a_folder_path (Some folder));;
  setattr (a_file_list (Some (sorted (glob_wav fs folder))));;
  files ← attr file_list;
  match files with
  | [] =>
      print ("フォルダ" +:+ folder +:+ "にWAVファイルが見つかりません")
  | _ =>
      setattr (a_current_index (Some 0));;
      setattr (a_is_playing (Some false));;
      setattr (a_is_paused (Some false));;
      setattr (a_volume (Some (7 # 10)));;
      setattr (a_current_file (Some ""));;
      call MixerInit;;
      call PygameInit;;
      vol ← attr volume;
      call (MusicSetVolume vol);;
      setattr (a_MUSIC_END (Some (USEREVENT pg + 1)));;
      music_end ← attr MUSIC_END;
      call (SetEndEvent music_end);;
      _create_gui;;
      start_monitor
  end.
End Methods.

(** *** Vocabulary of the statements *)

Definition live (w : World) : Prop :=
  exists fp files idx playing paused vol cf me g,
    self w = mkPlayer (Some fp) (Some files) (Some idx) (Some playing)
               (Some paused) (Some vol) (Some cf) (Some me) (Some g).

Definition phase (w : World) : option Phase :=
  phase_of_flags (is_playing (self w)) (is_paused (self w)).

Definition index_valid (w : World) : Prop :=
  exists files idx,
    file_list (self w) = Some files /\ current_index (self w) = Some idx
    /\ 0 <= idx < len files.

Definition options_match (w : World) : Prop :=
  exists files g,
    file_list (self w) = Some files /\ gui (self w) = Some g
    /\ (dropdown_options g).*2 = Z.of_nat <$> seq 0 (length files).

Definition Inv (w : World) : Prop :=
  live w /\ index_valid w /\ options_match w.

Definition display_cleared (w : World) : Prop :=
  exists g, gui (self w) = Some g
    /\ current_file_label g = "<b>再生ファイル:</b> なし"
    /\ progress_bar g = 0%Q.

Definition progress_in_range (w : World) : Prop :=
  exists g, gui (self w) = Some g /\ (0 <= progress_bar g <= 100)%Q.

Definition current_track (w : World) (f : string) : Prop :=
  exists files idx,
    file_list (self w) = Some files /\ current_index (self w) = Some idx
    /\ 0 <= idx /\ files !! Z.to_nat idx = Some f.

Definition Inv_b (w : World) : bool :=
  match self w with
  | mkPlayer (Some _) (Some files) (Some idx) (Some _) (Some _) (Some _)
      (Some _) (Some _) (Some g) =>
      (0 <=? idx) && (idx <? len files)
      && bool_decide ((dropdown_options g).*2
                      = Z.of_nat <$> seq 0 (length files))
  | _ => false
  end.

Definition track_at (w : World) : option string :=
  match file_list (self w), current_index (self w) with
  | Some files, Some idx =>
      if 0 <=? idx then files !! Z.to_nat idx else None
  | _, _ => None
  end.

(** What [_play_current] never touches. *)
Definition same_playlist (w w' : World) : Prop :=
  file_list (self w') = file_list (self w)
  /\ current_index (self w') = current_index (self w)
  /\ monitor w' = monitor w.

End WavPlayer.

(** ** [vlc_wav_player.py]

    The transport handlers, the end-of-track callback and the display
    update of the monitor loop of the VLC variant.  The engine is driven
    through [list_player] and [player], whose calls return a status
    instead of raising. *)

Module Vlc.

(** Calls received by the VLC objects, oldest first. *)
Inductive VlcCall : Type :=
  | PlayItemAtIndex (i : Z)
  | SetPause (b : bool)
  | PlayerStop
  | AudioSetVolume (v : Z).

(** The widgets built by [_create_gui]. *)
Record Widgets := mkWidgets {
  dropdown_options : list (string * Z);
  file_dropdown : Z;
  volume_slider : Z;
  autoplay_checkbox : bool;
  current_file_label : string;
  progress_bar : Q;
  time_label : string;
}.

(** The attributes the handlers use; the volume is an integer 0..100. *)
Record WAVPlayer := mkPlayer {
  file_list : option (list string);
  current_index : option Z;
  is_playing : option bool;
  is_paused : option bool;
  volume : option Z;
  current_file : option string;
  gui : option Widgets;
}.

(** The object and the calls made to the engine. *)
Record World := mkWorld {
  self : WAVPlayer;
  vlc_calls : list VlcCall;
}.

(** Field updates. *)
Definition w_dropdown_options (x : list (string * Z)) (g : Widgets) : Widgets :=
  mkWidgets x (file_dropdown g) (volume_slider g) (autoplay_checkbox g) (current_file_label g) (progress_bar g) (time_label g).
Definition w_file_dropdown (x : Z) (g : Widgets) : Widgets :=
  mkWidgets (dropdown_options g) x (volume_slider g) (autoplay_checkbox g) (current_file_label g) (progress_bar g) (time_label g).
Definition w_volume_slider (x : Z) (g : Widgets) : Widgets :=
  mkWidgets (dropdown_options g) (file_dropdown g) x (autoplay_checkbox g) (current_file_label g) (progress_bar g) (time_label g).
Definition w_autoplay_checkbox (x : bool) (g : Widgets) : Widgets :=
  mkWidgets (dropdown_options g) (file_dropdown g) (volume_slider g) x (current_file_label g) (progress_bar g) (time_label g).
Definition w_current_file_label (x : string) (g : Widgets) : Widgets :=
  mkWidgets (dropdown_options g) (file_dropdown g) (volume_slider g) (autoplay_checkbox g) x (progress_bar g) (time_label g).
Definition w_progress_bar (x : Q) (g : Widgets) : Widgets :=
  mkWidgets (dropdown_options g) (file_dropdown g) (volume_slider g) (autoplay_checkbox g) (current_file_label g) x (time_label g).
Definition w_time_label (x : string) (g : Widgets) : Widgets :=
  mkWidgets (dropdown_options g) (file_dropdown g) (volume_slider g) (autoplay_checkbox g) (current_file_label g) (progress_bar g) x.

Definition a_file_list (x : option (list string)) (o : WAVPlayer) : WAVPlayer :=
  mkPlayer x (current_index o) (is_playing o) (is_paused o) (volume o) (current_file o) (gui o).
Definition a_current_index (x : option Z) (o : WAVPlayer) : WAVPlayer :=
  mkPlayer (file_list o) x (is_playing o) (is_paused o) (volume o) (current_file o) (gui o).
Definition a_is_playing (x : option bool) (o : WAVPlayer) : WAVPlayer :=
  mkPlayer (file_list o) (current_index o) x (is_paused o) (volume o) (current_file o) (gui o).
Definition a_is_paused (x : option bool) (o : WAVPlayer) : WAVPlayer :=
  mkPlayer (file_list o) (current_index o) (is_playing o) x (volume o) (current_file o) (gui o).
Definition a_volume (x : option Z) (o : WAVPlayer) : WAVPlayer :=
  mkPlayer (file_list o) (current_index o) (is_playing o) (is_paused o) x (current_file o) (gui o).
Definition a_current_file (x : option string) (o : WAVPlayer) : WAVPlayer :=
  mkPlayer (file_list o) (current_index o) (is_playing o) (is_paused o) (volume o) x (gui o).
Definition a_gui (x : option Widgets) (o : WAVPlayer) : WAVPlayer :=
  mkPlayer (file_list o) (current_index o) (is_playing o) (is_paused o) (volume o) (current_file o) x.

Definition set_self (x : WAVPlayer) (w : World) : World :=
  mkWorld x (vlc_calls w).
Definition set_vlc_calls (x : list VlcCall) (w : World) : World :=
  mkWorld (self w) x.

Definition attr {A} (f : WAVPlayer -> option A) : M World A :=
  fun w => match f (self w) with
           | Some a => (Ok a, w)
           | None => (Raise AttributeError, w)
           end.

Definition setattr (upd : WAVPlayer -> WAVPlayer) : M World unit :=
  modify (fun w => set_self (upd (self w)) w).

Definition set_widget (upd : Widgets -> Widgets) : M World unit :=
  g ← attr gui; setattr (a_gui (Some (upd g))).

Definition call (c : VlcCall) : M World unit :=
  modify (fun w => set_vlc_calls (vlc_calls w ++ [c]) w).

(** The four lines that every handler repeats after switching track:
    [self.current_file = os.path.basename(self.file_list[self.current_index])]
    and the update of the label. *)
Definition show_current_file : M World unit :=
  files ← attr file_list;
  idx ← attr current_index;
  file ← lift (py_index files idx);
  setattr (a_current_file (Some (basename file)));;
  name ← attr current_file;
  set_widget (w_current_file_label ("<b>再生ファイル:</b> " +:+ name)).

(** [_on_file_select(change)] *)
Definition _on_file_select (new : option Z) : M World unit :=
  match new with
  | Some new_index =>
      idx ← attr current_index;
      if negb (new_index =? idx) then
        setattr (a_current_index (Some new_index));;
        playing ← attr is_playing;
        if playing then
          idx ← attr current_index;
          call (PlayItemAtIndex idx);;
          show_current_file
        else ret tt
      else ret tt
  | None => ret tt
  end.

(** [self.file_dropdown.value = v] *)
Definition set_file_dropdown (v : Z) : M World unit :=
  g ← attr gui;
  if negb (bool_decide (v ∈ (dropdown_options g).*2)) then raise TraitError
  else if v =? file_dropdown g then ret tt
  else setattr (a_gui (Some (w_file_dropdown v g)));;
       _on_file_select (Some v).

(** [_on_play] *)
Definition _on_play : M World unit :=
  playing ← attr is_playing;
  if negb playing then
    idx ← attr current_index;
    call (PlayItemAtIndex idx);;
    setattr (a_is_playing (Some true));;
    setattr (a_is_paused (Some false));;
    show_current_file
  else
    paused ← attr is_paused;
    if paused then
      call (SetPause false);;
      setattr (a_is_paused (Some false))
    else ret tt.

(** [_on_pause] *)
Definition _on_pause : M World unit :=
  playing ← attr is_playing;
  if playing then
    paused ← attr is_paused;
    if negb paused then
      call (SetPause true);;
      setattr (a_is_paused (Some true))
    else ret tt
  else ret tt.

(** [_on_stop] *)
Definition _on_stop : M World unit :=
  playing ← attr is_playing;
  if playing then
    call PlayerStop;;
    setattr (a_is_playing (Some false));;
    setattr (a_is_paused (Some false));;
    set_widget (w_current_file_label "<b>再生ファイル:</b> なし");;
    set_widget (w_progress_bar 0%Q);;
    set_widget (w_time_label "0:00 / 0:00")
  else ret tt.

(** [_on_prev] *)
Definition _on_prev : M World unit :=
  files ← attr file_list;
  if 0 <? len files then
    idx ← attr current_index;
    files ← attr file_list;
    prev_index ← lift (py_mod (idx - 1) (len files));
    playing ← attr is_playing;
    if playing then
      call (PlayItemAtIndex prev_index);;
      setattr (a_current_index (Some prev_index));;
      show_current_file
    else
      setattr (a_current_index (Some prev_index));;
      idx ← attr current_index;
      set_file_dropdown idx
  else ret tt.

(** [_on_next] *)
Definition _on_next : M World unit :=
  files ← attr file_list;
  if 0 <? len files then
    idx ← attr current_index;
    files ← attr file_list;
    next_index ← lift (py_mod (idx + 1) (len files));
    playing ← attr is_playing;
    if playing then
      call (PlayItemAtIndex next_index);;
      setattr (a_current_index (Some next_index));;
      show_current_file
    else
      setattr (a_current_index (Some next_index));;
      idx ← attr current_index;
      set_file_dropdown idx
  else ret tt.

(** [on_end_reached(event)]: the engine's end-of-track callback.  It
    starts [_on_next] on a thread of its own; the embedding runs that
    thread to completion at once. *)
Definition on_end_reached : M World unit :=
  g ← attr gui;
  if autoplay_checkbox g then _on_next else ret tt.

(** The body of the [while] loop of [_monitor_playback], given what
    [self.player.get_position()] (a fraction of the track) and
    [self.player.get_length()] (milliseconds) return; the sleep that
    ends the iteration is left out, this variant keeping no clock. *)
Definition monitor_iteration (get_position : Q) (get_length : Z)
  : M World unit :=
  playing ← attr is_playing;
  if playing then
    try_except
      (let position := get_position in
       let length := (inject_Z get_length / 1000)%Q in
       if Qltb 0 length then
         set_widget (w_progress_bar (position * 100)%Q);;
         let current_time := (position * length)%Q in
         set_widget
           (w_time_label (PygameResume.time_text current_time length))
       else ret tt)
      (fun _ => ret tt)
  else ret tt.

(** *** Vocabulary of the statements *)

Definition live (w : World) : Prop :=
  exists files idx playing paused vol cf g,
    self w = mkPlayer (Some files) (Some idx) (Some playing) (Some paused)
               (Some vol) (Some cf) (Some g).

Definition phase (w : World) : option Phase :=
  phase_of_flags (is_playing (self w)) (is_paused (self w)).

Definition index_valid (w : World) : Prop :=
  exists files idx,
    file_list (self w) = Some files /\ current_index (self w) = Some idx
    /\ 0 <= idx < len files.

Definition Inv (w : World) : Prop := live w /\ index_valid w.

Definition Inv_b (w : World) : bool :=
  match self w with
  | mkPlayer (Some files) (Some idx) (Some _) (Some _) (Some _) (Some _)
      (Some _) =>
      (0 <=? idx) && (idx <? len files)
  | _ => false
  end.

Definition track_at (w : World) : option string :=
  match file_list (self w), current_index (self w) with
  | Some files, Some idx =>
      if 0 <=? idx then files !! Z.to_nat idx else None
  | _, _ => None
  end.

Definition display_cleared (w : World) : Prop :=
  exists g, gui (self w) = Some g
    /\ current_file_label g = "<b>再生ファイル:</b> なし"
    /\ progress_bar g = 0%Q
    /\ time_label g = "0:00 / 0:00".

Definition current_track (w : World) (f : string) : Prop :=
  exists files idx,
    file_list (self w) = Some files /\ current_index (self w) = Some idx
    /\ 0 <= idx /\ files !! Z.to_nat idx = Some f.

End Vlc.

(** ** Scenarios

    Concrete environments and runs, used to exercise the statements
    below. *)

Module Scenario.

(** An engine that opens and starts every file; no [paplay] binary. *)
Definition engine : Pygame :=
  {| USEREVENT := 24;
     load_ok := fun _ => true;
     play_ok := fun _ => true;
     paplay_present := false |}.

(** An engine that cannot open [b.wav]. *)
Definition engine_without_b : Pygame :=
  {| USEREVENT := 24;
     load_ok := fun f => negb (String.eqb f "outputs/b.wav");
     play_ok := fun _ => true;
     paplay_present := false |}.

(** A folder with [a.wav] (3 s) and [b.wav] (5 s), sampled at 44100 Hz. *)
Definition two_tracks : FileSystem :=
  {| glob_wav := fun _ => ["outputs/b.wav"; "outputs/a.wav"];
     wave_probe := fun f =>
       if String.eqb f "outputs/a.wav" then Ok (132300%N, 44100%N)
       else Ok (220500%N, 44100%N);
     wavfile_read := fun f =>
       if String.eqb f "outputs/a.wav" then Ok (44100%N, 132300%N)
       else Ok (44100%N, 220500%N);
     exn_text := fun _ => "error" |}.

(** A folder with the single track [a.wav] of one minute. *)
Definition one_minute : FileSystem :=
  {| glob_wav := fun _ => ["outputs/a.wav"];
     wave_probe := fun _ => Ok (2646000%N, 44100%N);
     wavfile_read := fun _ => Ok (44100%N, 2646000%N);
     exn_text := fun _ => "error" |}.

(** A folder whose only file cannot be read as a WAV file. *)
Definition unreadable : FileSystem :=
  {| glob_wav := fun _ => ["outputs/a.wav"; "outputs/broken.wav"];
     wave_probe := fun f =>
       if String.eqb f "outputs/a.wav" then Ok (132300%N, 44100%N)
       else Raise WaveError;
     wavfile_read := fun _ => Raise WaveError;
     exn_text := fun _ => "file does not start with RIFF id" |}.


(** [pygame_resume_player]: play the one-minute track at time 1000, let
    the monitor run until 2 s have elapsed, pause, and wait 10 s. *)
Definition paused_for_ten_seconds : PygameResume.World :=
  let w0 := state_after (PygameResume.__init__ engine one_minute "outputs")
              (PygameResume.fresh 1000) in
  let w1 := state_after (PygameResume._on_play engine) w0 in
  let w2 := PygameResume.monitor_turn engine [] w1 in
  let w3 := PygameResume.monitor_turn engine []
              (PygameResume.set_now 1002 w2) in
  let w4 := state_after PygameResume._on_pause w3 in
  PygameResume.set_now (PygameResume.now w4 + 10) w4.

(** [pygame_resume_player]: autoplay switched off, [a.wav] (3 s) playing
    since time 1000, and 3 s of waiting after the first monitor turn. *)
Definition track_over_without_autoplay : PygameResume.World :=
  let w0 := state_after (PygameResume.__init__ engine two_tracks "outputs")
              (PygameResume.fresh 1000) in
  let w1 := state_after
              (PygameResume.run_command engine (PygameResume.SetAutoplay false))
              w0 in
  let w2 := state_after (PygameResume.run_command engine PygameResume.Play)
              w1 in
  let w3 := PygameResume.monitor_turn engine [] w2 in
  PygameResume.set_now (PygameResume.now w3 + 3) w3.

(** [pygame_resume_player]: [a.wav] playing on the complete engine. *)
Definition playing_a : PygameResume.World :=
  let w0 := state_after (PygameResume.__init__ engine two_tracks "outputs")
              (PygameResume.fresh 1000) in
  state_after (PygameResume._on_play engine) w0.

(** [wav_player]: [a.wav] playing on the engine that cannot open
    [b.wav]. *)
Definition wav_playing_a : WavPlayer.World :=
  let w0 := state_after
              (WavPlayer.__init__ engine_without_b two_tracks "outputs")
              (WavPlayer.fresh 1000) in
  state_after (WavPlayer._on_play engine_without_b two_tracks) w0.

(** [wav_player]: the same after a [next()] that could not open
    [b.wav]: flagged Playing at index 1. *)
Definition wav_at_b : WavPlayer.World :=
  state_after (WavPlayer._on_next engine_without_b two_tracks) wav_playing_a.


(** [wav_player]: just constructed over the two tracks. *)
Definition wav_constructed : WavPlayer.World :=
  state_after (WavPlayer.__init__ engine two_tracks "outputs")
    (WavPlayer.fresh 1000).

(** [vlc_wav_player]: a controller over the two tracks, stopped, and the
    same playing [a.wav]. *)
Definition vlc_widgets : Vlc.Widgets :=
  Vlc.mkWidgets [("a.wav", 0); ("b.wav", 1)] 0 70 true
    "<b>再生ファイル:</b> なし" 0 "0:00 / 0:00".

Definition vlc_stopped : Vlc.World :=
  Vlc.mkWorld
    (Vlc.mkPlayer (Some ["outputs/a.wav"; "outputs/b.wav"]) (Some 0)
       (Some false) (Some false) (Some 70) (Some "") (Some vlc_widgets))
    [].

Definition vlc_playing_a : Vlc.World := state_after Vlc._on_play vlc_stopped.

(** [pygame_resume_player]: just constructed over the two tracks. *)
Definition pygame_constructed : PygameResume.World :=
  state_after (PygameResume.__init__ engine two_tracks "outputs")
    (PygameResume.fresh 1000).

(** [pygame_resume_player]: [a.wav] playing since time 1000, the monitor
    having armed its anchor, at time 1002. *)
Definition playing_two_seconds : PygameResume.World :=
  PygameResume.set_now 1002 (PygameResume.monitor_turn engine [] playing_a).


(** A folder with [a.wav] (3 s) and an empty track [b.wav]: a valid WAV
    file without frames, of duration 0. *)
Definition with_empty_track : FileSystem :=
  {| glob_wav := fun _ => ["outputs/a.wav"; "outputs/b.wav"];
     wave_probe := fun f =>
       if String.eqb f "outputs/a.wav" then Ok (132300%N, 44100%N)
       else Ok (0%N, 44100%N);
     wavfile_read := fun f =>
       if String.eqb f "outputs/a.wav" then Ok (44100%N, 132300%N)
       else Ok (44100%N, 0%N);
     exn_text := fun _ => "error" |}.

(** [pygame_resume_player] over that folder: [a.wav] played for 2.4 s
    (the bar at 80 %), then [next()] onto the empty track and one more
    turn of the monitor. *)
Definition on_empty_track : PygameResume.World :=
  let w0 := state_after
              (PygameResume.__init__ engine with_empty_track "outputs")
              (PygameResume.fresh 1000) in
  let w1 := state_after (PygameResume._on_play engine) w0 in
  let w2 := PygameResume.monitor_turn engine [] w1 in
  let w3 := PygameResume.monitor_turn engine []
              (PygameResume.set_now (10024 # 10) w2) in
  let w4 := state_after (PygameResume._on_next engine) w3 in
  PygameResume.monitor_turn engine [] w4.

(** [wav_player] over that folder, playing the empty track. *)
Definition wav_on_empty_track : WavPlayer.World :=
  let w0 := state_after
              (WavPlayer.__init__ engine with_empty_track "outputs")
              (WavPlayer.fresh 1000) in
  let w1 := state_after (WavPlayer._on_play engine with_empty_track) w0 in
  state_after (WavPlayer._on_next engine with_empty_track) w1.


End Scenario.


(** * Properties *)

#[local] Set Warnings "-clear-no-such-hyp".

#[local] Arguments Qplus : simpl never.
#[local] Arguments Qminus : simpl never.
#[local] Arguments Qmult : simpl never.
#[local] Arguments Qdiv : simpl never.
#[local] Arguments Qle_bool : simpl never.
#[local] Arguments Qeq_bool : simpl never.
#[local] Arguments Z.modulo : simpl never.
#[local] Arguments Z.add : simpl never.
#[local] Arguments Z.sub : simpl never.
#[local] Arguments Z.leb : simpl never.
#[local] Arguments Z.ltb : simpl never.
#[local] Arguments Z.eqb : simpl never.
#[local] Arguments len : simpl never.
#[local] Arguments basename : simpl never.
#[local] Arguments String.append : simpl never.

(** ** Facts about the prelude *)

Lemma len_pos {A} (l : list A) : l <> [] -> 0 < len l.
Proof. destruct l; [done|]. unfold len. simpl. lia. Qed.

Lemma len_nonneg {A} (l : list A) : 0 <= len l.
Proof. unfold len. lia. Qed.

Lemma py_index_valid {A} (l : list A) (i : Z) :
  0 <= i < len l ->
  exists x, py_index l i = Ok x /\ l !! Z.to_nat i = Some x.
Proof.
  intros H. unfold py_index, len in *.
  destruct (i <? 0) eqn:E; [lia|].
  destruct ((0 <=? i) && (i <? Z.of_nat (length l))) eqn:E2; [|lia].
  destruct (l !! Z.to_nat i) eqn:E3; [eauto|].
  apply lookup_ge_None in E3. lia.
Qed.

Lemma py_mod_pos (a n : Z) : 0 < n -> py_mod a n = Ok (a `mod` n).
Proof. intros H. unfold py_mod. destruct (n =? 0) eqn:E; [lia|done]. Qed.

Lemma elem_of_indices (v : Z) (n : nat) :
  v ∈ (Z.of_nat <$> seq 0 n) <-> 0 <= v < Z.of_nat n.
Proof.
  rewrite list_elem_of_fmap. split.
  - intros (k & -> & Hk). apply elem_of_seq in Hk. lia.
  - intros H. exists (Z.to_nat v). split; [lia|]. apply elem_of_seq. lia.
Qed.

Lemma insert_sorted_not_nil x l : insert_sorted x l <> [].
Proof. destruct l; simpl; [done|]. by destruct (String.leb x s). Qed.

Lemma sorted_nil_iff l : sorted l = [] <-> l = [].
Proof.
  split; [|by intros ->].
  destruct l as [|x l]; [done|]. unfold sorted. simpl.
  intros H. by apply insert_sorted_not_nil in H.
Qed.

Lemma for_each_preserves {S A} (P : S -> Prop) (body : A -> M S unit) xs :
  (forall x s, P s -> P (state_after (body x) s)) ->
  forall s, P s -> P (state_after (for_each xs body) s).
Proof.
  intros Hb. induction xs as [|x xs IH]; intros s Hs; [done|].
  unfold state_after in *. simpl. unfold bind.
  specialize (Hb x s Hs). destruct (body x s) as [[[]|e] s']; simpl in *; auto.
Qed.

Lemma options_indices (files : list string) : forall k : nat,
  (imap (fun i f => (basename f, Z.of_nat (k + i))) files).*2
  = Z.of_nat <$> seq k (length files).
Proof.
  induction files as [|f files IH]; intros k; [done|].
  rewrite imap_cons. change (length (f :: files)) with (S (length files)).
  change (seq k (S (length files))) with (k :: seq (S k) (length files)).
  rewrite !fmap_cons. simpl. rewrite Nat.add_0_r. f_equal.
  rewrite <- (IH (S k)). f_equal. apply imap_ext. intros i x _. simpl.
  do 2 f_equal. lia.
Qed.


Lemma Qltb_true (a b : Q) : Qltb a b = true <-> (a < b)%Q.
Proof.
  unfold Qltb. destruct (Qle_bool b a) eqn:E; simpl.
  - apply Qle_bool_iff in E. split; [done|]. intros H. lra.
  - split; [|done]. intros _. apply Qnot_le_lt. intros H.
    apply Qle_bool_iff in H. congruence.
Qed.

Lemma py_div_pos (a b : Q) : (0 < b)%Q -> py_div a b = Ok (a / b)%Q.
Proof.
  intros H. unfold py_div. destruct (Qeq_bool b 0) eqn:E; [|done].
  apply Qeq_bool_eq in E. lra.
Qed.

(** The percentage shown for a non-negative elapsed time. *)
Lemma percentage_in_range (elapsed total : Q) :
  (0 <= elapsed)%Q -> (0 < total)%Q ->
  (0 <= py_min 100 (elapsed / total * 100) <= 100)%Q.
Proof.
  intros He Ht.
  assert (H0 : (0 <= elapsed / total * 100)%Q).
  { apply Qmult_le_0_compat; [|lra]. unfold Qdiv.
    apply Qmult_le_0_compat; [done|]. apply Qlt_le_weak.
    by apply Qinv_lt_0_compat. }
  unfold py_min. destruct (Qltb (elapsed / total * 100) 100) eqn:E.
  - apply Qltb_true in E. lra.
  - lra.
Qed.


(** [sorted] gives an ordered rearrangement of its argument. *)
Lemma insert_sorted_perm x l : insert_sorted x l ≡ₚ x :: l.
Proof.
  induction l as [|y l IH]; simpl; [done|].
  destruct (String.leb x y); [done|]. rewrite IH. apply Permutation_swap.
Qed.

Lemma sorted_perm l : sorted l ≡ₚ l.
Proof.
  induction l as [|x l IH]; [done|]. unfold sorted in *. simpl.
  by rewrite insert_sorted_perm, IH.
Qed.

Lemma insert_sorted_Sorted x l :
  Sorted (fun a b => String.leb a b = true) l ->
  Sorted (fun a b => String.leb a b = true) (insert_sorted x l).
Proof.
  induction 1 as [|y l Hs IH Hd]; simpl.
  - by repeat constructor.
  - destruct (String.leb x y) eqn:E.
    + by repeat constructor.
    + constructor; [done|].
      assert (Hyx : String.leb y x = true)
        by (destruct (String.leb_total x y); congruence).
      destruct Hd as [|z l Hyz]; simpl; [by constructor|].
      destruct (String.leb x z); by constructor.
Qed.

Lemma sorted_Sorted l : Sorted (fun a b => String.leb a b = true) (sorted l).
Proof.
  induction l as [|x l IH]; [constructor|]. unfold sorted in *. simpl.
  by apply insert_sorted_Sorted.
Qed.

(** The floor of a rational is the one integer just below it. *)
Lemma Qfloor_unique (x : Q) (n : Z) :
  (inject_Z n <= x)%Q -> (x < inject_Z (n + 1))%Q -> Qfloor x = n.
Proof.
  intros Hl Hu.
  pose proof (Qfloor_le x) as H1. pose proof (Qlt_floor x) as H2.
  assert (Ha : (inject_Z n < inject_Z (Qfloor x + 1))%Q) by lra.
  assert (Hb : (inject_Z (Qfloor x) < inject_Z (n + 1))%Q) by lra.
  rewrite <- Zlt_Qlt in Ha, Hb. lia.
Qed.

Lemma py_int_nonneg (x : Q) : (0 <= x)%Q -> py_int x = Qfloor x.
Proof.
  intros H. unfold py_int. destruct (Qltb x 0) eqn:E; [|done].
  apply Qltb_true in E. lra.
Qed.

Lemma bounds60 (x y : Q) (q : Z) :
  (x == y * 60)%Q -> (inject_Z q <= y)%Q -> (y < inject_Z (q + 1))%Q ->
  (inject_Z (60 * q) <= x)%Q /\ (x < inject_Z (60 * q + 60))%Q.
Proof.
  intros E H1 H2. rewrite !inject_Z_plus, !inject_Z_mult in *.
  change (inject_Z 60) with 60%Q. change (inject_Z 1) with 1%Q in H2.
  split; lra.
Qed.

(** Minutes and seconds as the time text shows them. *)
Lemma minutes_seconds (x : Q) :
  (0 <= x)%Q ->
  let minutes := py_int (py_floordiv x 60) in
  let seconds := py_int (py_fmod x 60) in
  0 <= minutes /\ 0 <= seconds < 60 /\ 60 * minutes + seconds = Qfloor x.
Proof.
  intros Hx minutes seconds. subst minutes seconds.
  unfold py_floordiv, py_fmod.
  pose proof (Qfloor_le (x / 60)) as H1. pose proof (Qlt_floor (x / 60)) as H2.
  assert (Hq0 : 0 <= Qfloor (x / 60)).
  { change 0 with (Qfloor 0). apply Qfloor_resp_le.
    unfold Qdiv. apply Qmult_le_0_compat; [done|]. by vm_compute. }
  assert (Hx60 : (x == x / 60 * 60)%Q) by field.
  destruct (bounds60 x (x / 60) (Qfloor (x / 60)) Hx60 H1 H2) as [Hlo Hhi].
  revert Hq0 Hlo Hhi. generalize (Qfloor (x / 60)). clear H1 H2 Hx60.
  intros q Hq0 Hlo Hhi.
  assert (Hm : py_int (inject_Z q) = q).
  { rewrite py_int_nonneg.
    - apply Qfloor_Z.
    - change 0%Q with (inject_Z 0). by rewrite <- Zle_Qle. }
  assert (Hs : py_int (x - 60 * inject_Z q) = Qfloor x - 60 * q).
  { assert (Hnn : (0 <= x - 60 * inject_Z q)%Q).
    { rewrite inject_Z_mult in Hlo. change (inject_Z 60) with 60%Q in Hlo. lra. }
    rewrite py_int_nonneg by done.
    assert (Hsplit : forall k : Z,
               inject_Z (k - 60 * q) = (inject_Z k - 60 * inject_Z q)%Q).
    { intros k. replace (k - 60 * q) with (k + - (60 * q)) by lia.
      by rewrite inject_Z_plus, inject_Z_opp, inject_Z_mult. }
    apply Qfloor_unique.
    - rewrite Hsplit. pose proof (Qfloor_le x). lra.
    - replace (Qfloor x - 60 * q + 1) with (Qfloor x + 1 - 60 * q) by lia.
      rewrite Hsplit. pose proof (Qlt_floor x). lra. }
  assert (Hfx : 60 * q <= Qfloor x < 60 * q + 60).
  { split.
    - rewrite <- (Qfloor_Z (60 * q)). by apply Qfloor_resp_le.
    - assert (Hc : (inject_Z (Qfloor x) < inject_Z (60 * q + 60))%Q).
      { pose proof (Qfloor_le x). lra. }
      by rewrite <- Zlt_Qlt in Hc. }
  rewrite Hm, Hs. lia.
Qed.

(** The seconds field is always two characters wide. *)
Lemma fmt_02d_width (n : Z) : 0 <= n < 60 -> String.length (fmt_02d n) = 2%nat.
Proof.
  intros H.
  assert (Hin : Z.to_nat n ∈ seq 0 60) by (apply elem_of_seq; lia).
  replace n with (Z.of_nat (Z.to_nat n)) by lia.
  revert Hin. generalize (Z.to_nat n). clear. intros k Hk.
  assert (Hall : forallb (fun k => Nat.eqb (String.length (fmt_02d (Z.of_nat k))) 2)
                   (seq 0 60) = true) by (vm_compute; reflexivity).
  rewrite forallb_forall in Hall. apply Nat.eqb_eq, Hall.
  by apply list_elem_of_In.
Qed.


(** ** [pygame_resume_player.py] *)

Section PygameResumeFacts.
Import PygameResume.
Variable pg : Pygame.
Variable fs : FileSystem.

(** Symbolic execution of a method on a world given by its fields. *)
Ltac run :=
  cbv beta iota zeta delta
    [
     negb bind ret raise try_except get modify lift state_after outcome
     for_each folder_path file_list current_index is_playing is_paused
     volume current_file current_position pause_time durations MUSIC_END
     gui should_stop_monitor dropdown_options file_dropdown
     volume_slider autoplay_checkbox current_file_label progress_bar
     time_label self music_loaded mixer_calls stdout now monitor
     a_folder_path a_file_list a_current_index a_is_playing a_is_paused
     a_volume a_current_file a_current_position a_pause_time a_durations
     a_MUSIC_END a_gui a_should_stop_monitor w_dropdown_options
     w_file_dropdown w_volume_slider w_autoplay_checkbox
     w_current_file_label w_progress_bar w_time_label set_self
     set_music_loaded set_mixer_calls set_stdout set_now set_monitor
     attr setattr set_widget print time_time time_sleep call music_load
     music_play music_stop music_set_volume _stop_external_player
     _play_with_external_player playing_and_not_paused].

Ltac open_world w HL :=
  destruct HL as (?fp & ?files & ?idx & ?playing & ?paused & ?vol & ?cf
                  & ?pos & ?pt & ?ds & ?me & ?g & ?ssm & HL);
  destruct w as [?o ?ml ?mc ?so ?t ?mon]; simpl in HL; subst; simpl in *;
  simplify_eq;
  try match goal with g : Widgets |- _ =>
    destruct g as [?opts ?fd ?vs ?ap ?lbl ?bar ?tl]; simpl in * end.

Ltac open_inv w H :=
  let HL := fresh "HL" in
  let Hi := fresh "Hi" in
  let Ho := fresh "Ho" in
  destruct H as (HL & (?files & ?idx & ?Hf & ?Hidx & Hi)
                 & (?files & ?g & ?Hf & ?Hg & Ho));
  open_world w HL.

Ltac live_done := unfold live; simpl; do 13 eexists; reflexivity.

Lemma Inv_explicit fp files idx playing paused vol cf pos pt ds me g ssm
    ml mc so t mon :
  0 <= idx < len files ->
  (dropdown_options g).*2 = Z.of_nat <$> seq 0 (length files) ->
  Inv (mkWorld (mkPlayer (Some fp) (Some files) (Some idx) (Some playing)
                  (Some paused) (Some vol) (Some cf) (Some pos) (Some pt)
                  (Some ds) (Some me) (Some g) (Some ssm)) ml mc so t mon).
Proof.
  intros Hi Ho. split; [live_done|]. split.
  - exists files, idx. done.
  - exists files, g. done.
Qed.

Ltac inv_done := (by apply Inv_explicit) || (apply Inv_explicit; simpl; (done || lia)).

(** [_play_current] leaves the playlist, the index and the dropdown
    alone. *)
Lemma play_current_frame position w :
  live w ->
  let w' := state_after (_play_current pg position) w in
  live w'
  /\ file_list (self w') = file_list (self w)
  /\ current_index (self w') = current_index (self w)
  /\ (dropdown_options <$> gui (self w')) = (dropdown_options <$> gui (self w))
  /\ monitor w' = monitor w.
Proof.
  intros HL w'. subst w'. open_world w HL.
  unfold _play_current. run.
  destruct ((0 <=? idx) && (idx <? len files)) eqn:E; run.
  2:{ split; [live_done|done]. }
  destruct (py_index files idx) as [f|e] eqn:Ei; run.
  2:{ split; [live_done|done]. }
  destruct (load_ok pg f); run.
  2:{ split; [live_done|done]. }
  destruct (play_ok pg f); run.
  2:{ split; [live_done|done]. }
  destruct (paplay_present pg); run.
  all: split; [live_done|done].
Qed.

Lemma play_current_Inv position w :
  Inv w -> Inv (state_after (_play_current pg position) w).
Proof.
  intros (HL & (files & idx & Hf & Hidx & Hi) & (files' & g & Hf' & Hg & Ho)).
  destruct (play_current_frame position w HL) as (HL' & Ef & Ei & Eo & _).
  split; [done|]. split.
  - exists files, idx. by rewrite Ef, Ei.
  - rewrite Hg in Eo.
    destruct (gui (self (state_after (_play_current pg position) w)))
      as [g'|] eqn:Eg; [|done].
    simpl in Eo. exists files', g'. rewrite Ef. split; [done|]. split; [done|congruence].
Qed.

(** The observer of the dropdown does nothing when the new value is the
    current index. *)
Lemma file_select_same v w :
  current_index (self w) = Some v -> _on_file_select pg (Some v) w = (Ok tt, w).
Proof.
  intros H. unfold _on_file_select, bind, attr. rewrite H.
  by rewrite Z.eqb_refl.
Qed.

Lemma set_file_dropdown_current w v :
  Inv w -> current_index (self w) = Some v ->
  let w' := state_after (set_file_dropdown pg v) w in
  Inv w' /\ current_index (self w') = Some v
  /\ file_list (self w') = file_list (self w)
  /\ is_playing (self w') = is_playing (self w)
  /\ is_paused (self w') = is_paused (self w).
Proof.
  intros H Hv w'. subst w'. open_inv w H.
  unfold set_file_dropdown. run.
  match goal with |- context [bool_decide ?P] => destruct (bool_decide P) end;
    run.
  2:{ split; [inv_done|done]. }
  match goal with |- context [?a =? fd] => destruct (a =? fd) eqn:E end; run.
  { split; [inv_done|done]. }
  rewrite file_select_same by reflexivity. run.
  split; [inv_done|done].
Qed.

Lemma Inv_b_sound w : Inv_b w = true -> Inv w.
Proof.
  destruct w as [o ml mc so t mon]. unfold Inv_b. simpl.
  destruct o as [a1 a2 a3 a4 a5 a6 a7 a8 a9 a10 a11 a12 a13].
  destruct a1; [|done]. destruct a2 as [files|]; [|done].
  destruct a3 as [idx|]; [|done]. destruct a4; [|done]. destruct a5; [|done].
  destruct a6; [|done]. destruct a7; [|done]. destruct a8; [|done].
  destruct a9; [|done]. destruct a10; [|done]. destruct a11; [|done].
  destruct a12 as [gw|]; [|done]. destruct a13; [|done].
  intros H. apply andb_prop in H as [H Ho]. apply bool_decide_eq_true in Ho.
  apply Inv_explicit; [lia|done].
Qed.

Lemma track_at_sound w f : track_at w = Some f -> current_track w f.
Proof.
  unfold track_at, current_track.
  destruct (file_list (self w)) as [files|]; [|done].
  destruct (current_index (self w)) as [idx|]; [|done].
  destruct (0 <=? idx) eqn:E; [|done]. intros H.
  exists files, idx. repeat split; [lia|done].
Qed.

(** *** The index under [_on_next] and [_on_prev] *)

Lemma play_current_keeps_playing position w :
  live w -> is_playing (self w) = Some true ->
  is_playing (self (state_after (_play_current pg position) w)) = Some true.
Proof.
  intros HL Hp. open_world w HL.
  unfold _play_current. run.
  repeat (match goal with
          | |- context [if ?b then _ else _] => destruct b
          | |- context [match py_index ?l ?i with _ => _ end] =>
              destruct (py_index l i)
          end; run); done.
Qed.

Lemma on_next_effect w :
  Inv w ->
  let w' := state_after (_on_next pg) w in
  Inv w'
  /\ is_playing (self w') = is_playing (self w)
  /\ exists files idx,
       file_list (self w) = Some files /\ current_index (self w) = Some idx
       /\ file_list (self w') = Some files
       /\ current_index (self w') = Some ((idx + 1) `mod` len files).
Proof.
  intros H w'. subst w'. open_inv w H.
  unfold _on_next. run.
  destruct (0 <? len files) eqn:E; [|lia]. run.
  rewrite py_mod_pos by lia. run.
  assert (Hm : 0 <= (idx + 1) `mod` len files < len files)
    by (apply Z.mod_pos_bound; lia).
  destruct playing; run.
  - match goal with |- context [_play_current pg ?p ?W] =>
      assert (HI : Inv W) by inv_done;
      pose proof (play_current_Inv p W HI) as HI';
      pose proof (play_current_keeps_playing p W (proj1 HI) eq_refl) as Hp;
      destruct (play_current_frame p W (proj1 HI)) as (_ & Ef & Ei & _)
    end.
    unfold state_after in *. split; [done|]. split; [done|].
    exists files, idx. done.
  - match goal with |- context [set_file_dropdown pg ?v ?W] =>
      assert (HI : Inv W) by inv_done;
      destruct (set_file_dropdown_current W v HI eq_refl)
        as (HI' & Ei & Ef & Ep & _)
    end.
    unfold state_after in *. split; [done|]. split; [done|].
    exists files, idx. done.
Qed.

Lemma on_prev_effect w :
  Inv w ->
  let w' := state_after (_on_prev pg) w in
  Inv w'
  /\ is_playing (self w') = is_playing (self w)
  /\ exists files idx,
       file_list (self w) = Some files /\ current_index (self w) = Some idx
       /\ file_list (self w') = Some files
       /\ current_index (self w') = Some ((idx - 1) `mod` len files).
Proof.
  intros H w'. subst w'. open_inv w H.
  unfold _on_prev. run.
  destruct (0 <? len files) eqn:E; [|lia]. run.
  rewrite py_mod_pos by lia. run.
  assert (Hm : 0 <= (idx - 1) `mod` len files < len files)
    by (apply Z.mod_pos_bound; lia).
  destruct playing; run.
  - match goal with |- context [_play_current pg ?p ?W] =>
      assert (HI : Inv W) by inv_done;
      pose proof (play_current_Inv p W HI) as HI';
      pose proof (play_current_keeps_playing p W (proj1 HI) eq_refl) as Hp;
      destruct (play_current_frame p W (proj1 HI)) as (_ & Ef & Ei & _)
    end.
    unfold state_after in *. split; [done|]. split; [done|].
    exists files, idx. done.
  - match goal with |- context [set_file_dropdown pg ?v ?W] =>
      assert (HI : Inv W) by inv_done;
      destruct (set_file_dropdown_current W v HI eq_refl)
        as (HI' & Ei & Ef & Ep & _)
    end.
    unfold state_after in *. split; [done|]. split; [done|].
    exists files, idx. done.
Qed.

Lemma on_next_iterated w files idx (k : nat) :
  Inv w ->
  file_list (self w) = Some files -> current_index (self w) = Some idx ->
  let w' := Nat.iter k (state_after (_on_next pg)) w in
  Inv w' /\ file_list (self w') = Some files
  /\ current_index (self w') = Some ((idx + Z.of_nat k) `mod` len files).
Proof.
  intros H Hf Hi. induction k as [|k IH]; simpl.
  - split; [done|]. split; [done|]. rewrite Hi. f_equal.
    destruct H as (_ & (fl & i & ? & ? & ?) & _).
    assert (fl = files) as -> by congruence.
    assert (i = idx) as -> by congruence.
    rewrite Z.add_0_r, Z.mod_small; done.
  - destruct IH as (Hk & Hfk & Hik).
    destruct (on_next_effect _ Hk) as (Hn & _ & fl & i & ? & ? & Hf' & Hi').
    assert (fl = files) as -> by congruence.
    assert (i = (idx + Z.of_nat k) `mod` len files) as -> by congruence.
    split; [done|]. split; [done|]. rewrite Hi'. f_equal.
    assert (0 < len files).
    { destruct H as (_ & (fl' & i' & ? & ? & ?) & _).
      assert (fl' = files) as -> by congruence. lia. }
    rewrite Zplus_mod_idemp_l. f_equal. lia.
Qed.

Lemma next_closure w files idx :
  Inv w ->
  file_list (self w) = Some files -> current_index (self w) = Some idx ->
  current_index
    (self (Nat.iter (length files) (state_after (_on_next pg)) w)) = Some idx
  /\ (idx = len files - 1 ->
      current_index (self (state_after (_on_next pg) w)) = Some 0)
  /\ (idx = 0 ->
      current_index (self (state_after (_on_prev pg) w))
      = Some (len files - 1)).
Proof.
  intros H Hf Hi.
  assert (Hr : 0 <= idx < len files).
  { destruct H as (_ & (fl & i & ? & ? & ?) & _).
    assert (fl = files) as -> by congruence.
    by assert (i = idx) as -> by congruence. }
  split; [|split].
  - destruct (on_next_iterated w files idx (length files) H Hf Hi)
      as (_ & _ & ->).
    f_equal. fold (len files).
    rewrite <- (Z.mul_1_l (len files)) at 1. rewrite Z.mod_add by lia.
    by apply Z.mod_small.
  - intros ->. destruct (on_next_effect w H) as (_ & _ & fl & i & ? & ? & _ & ->).
    assert (fl = files) as -> by congruence.
    assert (i = len files - 1) as -> by congruence.
    f_equal. replace (len files - 1 + 1) with (len files) by lia.
    apply Z.mod_same. lia.
  - intros ->. destruct (on_prev_effect w H) as (_ & _ & fl & i & ? & ? & _ & ->).
    assert (fl = files) as -> by congruence.
    assert (i = 0) as -> by congruence.
    f_equal.
    replace (0 - 1) with (len files - 1 + (-1) * len files) by lia.
    rewrite Z.mod_add by lia. apply Z.mod_small. lia.
Qed.


(** *** Every command and every monitor turn preserves the invariant *)

Ltac use_play_current_Inv :=
  match goal with |- context [_play_current pg ?p ?W] =>
    let HI := fresh "HI" in
    assert (HI : Inv W) by inv_done;
    apply (play_current_Inv p W) in HI; unfold state_after in HI; exact HI
  end.

Lemma on_play_Inv w : Inv w -> Inv (state_after (_on_play pg) w).
Proof.
  intros H. open_inv w H. unfold _on_play. run.
  destruct playing; run; [|use_play_current_Inv].
  destruct paused; run; [|inv_done].
  destruct pt as [t0|]; run; [|use_play_current_Inv].
  destruct (Qeq_bool t0 0); run; use_play_current_Inv.
Qed.

Lemma on_pause_Inv w : Inv w -> Inv (state_after _on_pause w).
Proof.
  intros H. open_inv w H. unfold _on_pause. run.
  destruct playing; run; [|inv_done].
  destruct paused; run; inv_done.
Qed.

Lemma on_stop_Inv w : Inv w -> Inv (state_after _on_stop w).
Proof.
  intros H. open_inv w H. unfold _on_stop. run.
  destruct playing; run; inv_done.
Qed.

Lemma select_Inv v w : Inv w -> Inv (state_after (set_file_dropdown pg v) w).
Proof.
  intros H. open_inv w H. unfold set_file_dropdown. run.
  destruct (bool_decide (v ∈ opts.*2)) eqn:Ev; run; [|inv_done].
  apply bool_decide_eq_true in Ev. rewrite Ho in Ev.
  apply elem_of_indices in Ev. fold (len files) in Ev.
  destruct (v =? fd) eqn:E; run; [inv_done|].
  unfold _on_file_select. run.
  destruct (v =? idx) eqn:E'; run; [inv_done|].
  destruct playing; run; [use_play_current_Inv|inv_done].
Qed.

Lemma on_volume_change_Inv v w :
  Inv w -> Inv (state_after (_on_volume_change v) w).
Proof. intros H. open_inv w H. unfold _on_volume_change. run. inv_done. Qed.

Lemma run_command_Inv c w : Inv w -> Inv (state_after (run_command pg c) w).
Proof.
  intros H. destruct c; simpl.
  - by apply on_play_Inv.
  - by apply on_pause_Inv.
  - by apply on_stop_Inv.
  - by apply on_next_effect.
  - by apply on_prev_effect.
  - by apply select_Inv.
  - open_inv w H. unfold _on_volume_change. run. inv_done.
  - open_inv w H. run. inv_done.
Qed.

Lemma handle_event_Inv event w :
  Inv w -> Inv (state_after (handle_event pg event) w).
Proof.
  intros H. pose proof (on_next_effect w H) as (Hn & _).
  pose proof (on_stop_Inv w H) as Hs.
  unfold state_after in *.
  open_inv w H. unfold handle_event. run.
  destruct (type event =? me); run; [|inv_done].
  destruct playing; run; [|inv_done].
  destruct paused; run; [inv_done|].
  destruct ap; run; done.
Qed.

Lemma update_position_Inv start_time w :
  Inv w -> Inv (state_after (update_position pg start_time) w).
Proof.
  intros H. open_inv w H. unfold update_position. run.
  destruct playing; run.
  2:{ destruct paused; run; inv_done. }
  destruct paused; run; [inv_done|].
  destruct (py_index_valid files idx Hi) as (f & Ef & _).
  destruct start_time as [t0|]; run; rewrite Ef; run.
  all: destruct (Qltb 0 (default 0%Q (ds !! f))); run; [|inv_done].
  all: match goal with |- context [py_div ?a ?b] =>
         destruct (py_div a b) end; run; [|inv_done].
  all: match goal with |- context [Qle_bool ?a ?b] =>
         destruct (Qle_bool a b) end; run; [|inv_done].
  all: destruct ap; run; [|inv_done].
  all: match goal with |- context [_on_next pg ?W] =>
         assert (HI : Inv W) by inv_done;
         destruct (on_next_effect W HI) as (HI' & _);
         unfold state_after in HI';
         destruct (_on_next pg W) as [[[]|e] w']; done
       end.
Qed.

Lemma monitor_iteration_Inv events start_time w :
  Inv w -> Inv (state_after (monitor_iteration pg events start_time) w).
Proof.
  intros H. unfold monitor_iteration, state_after, bind.
  pose proof (for_each_preserves Inv (handle_event pg) events
                (fun x s => handle_event_Inv x s) w H) as H1.
  unfold state_after in H1.
  destruct (for_each events (handle_event pg) w) as [[[]|e] w1]; [|done].
  pose proof (update_position_Inv start_time w1 H1) as H2.
  unfold state_after in H2.
  destruct (update_position pg start_time w1) as [[st|e] w2]; [|done].
  simpl in *. open_inv w2 H2. run. inv_done.
Qed.

Lemma set_monitor_Inv th w : Inv w -> Inv (set_monitor th w).
Proof. intros H. open_inv w H. run. inv_done. Qed.

Lemma monitor_turn_Inv events w : Inv w -> Inv (monitor_turn pg events w).
Proof.
  intros H. unfold monitor_turn.
  destruct (monitor w) as [|start_time| |]; try done.
  pose proof (monitor_iteration_Inv events start_time w H) as Hm.
  unfold state_after in Hm.
  assert (Hs : exists b, attr should_stop_monitor w = (Ok b, w)).
  { destruct H as (HL & _). open_world w HL. run. eauto. }
  destruct Hs as (b & ->). destruct b.
  - by apply set_monitor_Inv.
  - destruct (monitor_iteration pg events start_time w) as [[st|e] w'];
      by apply set_monitor_Inv.
Qed.

Lemma step_Inv w w' : step pg w w' -> Inv w -> Inv w'.
Proof.
  intros Hs H. destruct Hs.
  - by apply run_command_Inv.
  - by apply monitor_turn_Inv.
  - open_inv w H. run. inv_done.
Qed.


(** *** The durations index and the constructor *)

Lemma probe_duration_total x ds0 w :
  exists d lines,
    probe_duration fs x ds0 w
    = (Ok (<[x:=d]> ds0), set_stdout (stdout w ++ lines) w)
    /\ (forall e, wave_probe fs x = Raise e -> d = 0%Q)
    /\ (forall frames, wave_probe fs x = Ok (frames, 0%N) -> d = 0%Q)
    /\ (forall frames rate, wave_probe fs x = Ok (frames, rate) ->
        rate <> 0%N ->
        d = (inject_Z (Z.of_N frames) / inject_Z (Z.of_N rate))%Q
        /\ lines = []).
Proof.
  unfold probe_duration. run.
  destruct (wave_probe fs x) as [[frames rate]|e] eqn:Ep; simpl.
  - unfold py_div. destruct (Qeq_bool (inject_Z (Z.of_N rate)) 0) eqn:Ed.
    + eexists 0%Q, [_]. split; [done|]. split; [done|]. split; [done|].
      intros fr rt ? Hrt. simplify_eq. exfalso. apply Hrt.
      apply Qeq_bool_eq in Ed. unfold Qeq in Ed. simpl in Ed. lia.
    + eexists _, []. split.
      { destruct w; simpl. by rewrite app_nil_r. }
      split; [done|]. split.
      * intros fr Hfr. by simplify_eq.
      * intros fr rt ? _. by simplify_eq.
  - eexists 0%Q, [_]. split; [done|]. split; [done|]. done.
Qed.

Lemma durations_loop_total files : forall ds0 w,
  exists ds lines,
    durations_loop fs files ds0 w = (Ok ds, set_stdout (stdout w ++ lines) w)
    /\ dom ds = dom ds0 ∪ list_to_set files
    /\ (forall f, f ∉ files -> ds !! f = ds0 !! f)
    /\ (forall f e, f ∈ files -> wave_probe fs f = Raise e -> ds !! f = Some 0%Q)
    /\ (forall f frames, f ∈ files -> wave_probe fs f = Ok (frames, 0%N) ->
        ds !! f = Some 0%Q)
    /\ (forall f frames rate, f ∈ files ->
        wave_probe fs f = Ok (frames, rate) -> rate <> 0%N ->
        ds !! f = Some (inject_Z (Z.of_N frames) / inject_Z (Z.of_N rate))%Q).
Proof.
  induction files as [|x files IH]; intros ds0 w.
  - exists ds0, []. simpl. run. destruct w; simpl. rewrite app_nil_r.
    split; [done|]. split; [set_solver|]. split; [done|].
    repeat split; intros; set_solver.
  - destruct (probe_duration_total x ds0 w)
      as (d & line & E1 & Hd1 & Hd2 & Hd3).
    destruct (IH (<[x:=d]> ds0) (set_stdout (stdout w ++ line) w))
      as (ds & lines & E & Hdom & Hout & Hfail & Hzero & Hgood).
    exists ds, (line ++ lines). simpl. unfold bind. rewrite E1, E.
    split. { destruct w; run. by rewrite app_assoc. }
    split. { rewrite Hdom, dom_insert_L. set_solver. }
    split. { intros f Hf. rewrite Hout by set_solver.
             apply lookup_insert_ne. set_solver. }
    split; [|split].
    + intros f e Hf Hp. destruct (decide (f ∈ files)) as [Hin|Hin]; [eauto|].
      rewrite Hout by done. apply elem_of_cons in Hf as [->|]; [|done].
      rewrite lookup_insert_eq. f_equal. eauto.
    + intros f frames Hf Hp.
      destruct (decide (f ∈ files)) as [Hin|Hin]; [eauto|].
      rewrite Hout by done. apply elem_of_cons in Hf as [->|]; [|done].
      rewrite lookup_insert_eq. f_equal. eauto.
    + intros f frames rate Hf Hp Hr.
      destruct (decide (f ∈ files)) as [Hin|Hin]; [eauto|].
      rewrite Hout by done. apply elem_of_cons in Hf as [->|]; [|done].
      rewrite lookup_insert_eq. f_equal. by destruct (Hd3 frames rate Hp Hr).
Qed.

Lemma get_wav_durations_total w files :
  file_list (self w) = Some files ->
  exists ds,
    outcome (_get_wav_durations fs) w = Ok ds
    /\ dom ds = list_to_set files
    /\ (forall f, f ∈ files -> is_Some (ds !! f))
    /\ (forall f e, f ∈ files -> wave_probe fs f = Raise e -> ds !! f = Some 0%Q)
    /\ (forall f frames, f ∈ files -> wave_probe fs f = Ok (frames, 0%N) ->
        ds !! f = Some 0%Q)
    /\ (forall f frames rate, f ∈ files ->
        wave_probe fs f = Ok (frames, rate) -> rate <> 0%N ->
        ds !! f = Some (inject_Z (Z.of_N frames) / inject_Z (Z.of_N rate))%Q).
Proof.
  intros Hf.
  destruct (durations_loop_total files ∅ w)
    as (ds & lines & E & Hdom & _ & Hfail & Hzero & Hgood).
  exists ds. unfold outcome, _get_wav_durations, bind, attr. rewrite Hf, E.
  split; [done|]. split; [set_solver|]. split; [|done].
  intros f Hin. apply elem_of_dom. rewrite Hdom. set_solver.
Qed.

Lemma init_Inv folder t0 :
  glob_wav fs folder <> [] ->
  Inv (state_after (__init__ pg fs folder) (fresh t0)).
Proof.
  intros Hne. unfold __init__, fresh, blank. run.
  destruct (sorted (glob_wav fs folder)) as [|f files] eqn:Es.
  { apply (proj1 (sorted_nil_iff _)) in Es. contradiction. }
  unfold _get_wav_durations. run.
  match goal with |- context [durations_loop fs ?l ?d ?W] =>
    destruct (durations_loop_total l d W) as (ds' & lines & -> & _) end.
  run. unfold _create_gui, start_monitor. run.
  apply Inv_explicit.
  - unfold len. simpl. lia.
  - apply (options_indices (f :: files) 0).
Qed.

Lemma reachable_Inv folder t0 w :
  glob_wav fs folder <> [] -> reachable pg fs folder t0 w -> Inv w.
Proof.
  intros Hne Hr. unfold reachable in Hr.
  eapply (rtc_ind_r (fun w => Inv w)); [| |exact Hr].
  - by apply init_Inv.
  - intros w1 w2 _ Hs IH. by eapply step_Inv.
Qed.

(** *** Stop, then play *)

Lemma on_stop_stopped w :
  is_playing (self w) = Some false -> _on_stop w = (Ok tt, w).
Proof. intros H. unfold _on_stop, bind, attr. by rewrite H. Qed.

Lemma on_stop_effect w :
  Inv w -> is_playing (self w) = Some true ->
  let w' := state_after _on_stop w in
  Inv w' /\ outcome _on_stop w = Ok tt
  /\ phase w' = Some Stopped
  /\ current_position (self w') = Some 0%Q
  /\ display_cleared w'
  /\ current_index (self w') = current_index (self w)
  /\ file_list (self w') = file_list (self w)
  /\ mixer_calls w' = mixer_calls w ++ [MusicStop].
Proof.
  intros H Hp w'. subst w'. open_inv w H. unfold _on_stop. run.
  split; [inv_done|]. do 3 (split; [done|]).
  split; [|done]. eexists. split; [reflexivity|]. simpl. done.
Qed.

Lemma play_current_effect position w f :
  Inv w -> current_track w f ->
  let w' := state_after (_play_current pg position) w in
  exists rest,
    mixer_calls w' = mixer_calls w ++ MusicStop :: MusicLoad f :: rest
    /\ (load_ok pg f = true -> play_ok pg f = true ->
        outcome (_play_current pg position) w = Ok tt
        /\ phase w' = Some Playing
        /\ current_position (self w') = Some position
        /\ current_file (self w') = Some (basename f))
    /\ (load_ok pg f = false \/ play_ok pg f = false ->
        outcome (_play_current pg position) w = Raise PygameError
        /\ phase w' = phase w
        /\ current_position (self w') = current_position (self w)).
Proof.
  intros H (files' & idx' & Hf' & Hi' & Hge & Hl) w'. subst w'. open_inv w H.
  unfold _play_current. run.
  destruct ((0 <=? idx) && (idx <? len files)) eqn:E; [|lia]. run.
  destruct (py_index_valid files idx Hi) as (f' & -> & Hl').
  assert (f' = f) as -> by congruence. run.
  destruct (load_ok pg f) eqn:El; run.
  2:{ eexists. split; [simpl; rewrite <- ?app_assoc; reflexivity|].
      split; [done|]. intros _. done. }
  destruct (play_ok pg f) eqn:Ep; run.
  2:{ eexists. split; [simpl; rewrite <- ?app_assoc; reflexivity|].
      split; [done|]. intros _. done. }
  destruct (paplay_present pg); run.
  all: eexists; (split; [simpl; rewrite <- ?app_assoc; reflexivity|]); split;
    [done | by intros [?|?]].
Qed.

Lemma stop_then_play w f :
  Inv w -> is_playing (self w) = Some true -> current_track w f ->
  let w1 := state_after _on_stop w in
  let w2 := state_after (_on_play pg) w1 in
  phase w1 = Some Stopped
  /\ current_position (self w1) = Some 0%Q
  /\ display_cleared w1
  /\ current_index (self w1) = current_index (self w)
  /\ (exists rest,
        mixer_calls w2 = mixer_calls w1 ++ MusicStop :: MusicLoad f :: rest)
  /\ (load_ok pg f = true -> play_ok pg f = true ->
      phase w2 = Some Playing /\ current_track w2 f
      /\ current_file (self w2) = Some (basename f)
      /\ current_index (self w2) = current_index (self w)).
Proof.
  intros H Hp Ht w1 w2.
  destruct (on_stop_effect w H Hp) as (H1 & _ & Hph & Hpos & Hd & Hi & Hfl & _).
  fold w1 in H1, Hph, Hpos, Hd, Hi, Hfl.
  assert (Ht1 : current_track w1 f).
  { destruct Ht as (files & idx & ? & ? & ? & ?). exists files, idx.
    rewrite Hfl, Hi. done. }
  assert (Hw2 : w2 = state_after (_play_current pg 0) w1).
  { subst w2. unfold state_after, _on_play, bind, attr.
    unfold phase in Hph. destruct (is_playing (self w1)) as [[]|]; try done.
    destruct (is_paused (self w1)) as [[]|]; done. }
  destruct (play_current_effect 0 w1 f H1 Ht1) as (rest & Hc & Hok & _).
  destruct (play_current_frame 0 w1 (proj1 H1)) as (_ & Ef & Ei & _).
  rewrite <- Hw2 in *.
  do 4 (split; [done|]). split; [eauto|].
  intros Hl Hpl. destruct (Hok Hl Hpl) as (_ & ? & _ & ?).
  split; [done|]. split; [|split; [done | congruence]].
  destruct Ht1 as (files & idx & ? & ? & ? & ?). exists files, idx.
  rewrite Ef, Ei. done.
Qed.

(** *** End of track *)

Lemma play_current_keeps_Playing position w :
  live w -> phase w = Some Playing ->
  phase (state_after (_play_current pg position) w) = Some Playing.
Proof.
  intros HL Hp. open_world w HL. unfold phase in *. simpl in Hp.
  destruct playing, paused; try done.
  unfold _play_current. run.
  repeat (match goal with
          | |- context [if ?b then _ else _] => destruct b
          | |- context [match py_index ?l ?i with _ => _ end] =>
              destruct (py_index l i)
          end; run); done.
Qed.

Lemma on_next_Playing w :
  Inv w -> phase w = Some Playing ->
  phase (state_after (_on_next pg) w) = Some Playing.
Proof.
  intros H Hp. open_inv w H. unfold phase in Hp. simpl in Hp.
  destruct playing, paused; try done.
  unfold _on_next. run.
  destruct (0 <? len files) eqn:E; [|lia]. run.
  rewrite py_mod_pos by lia. run.
  match goal with |- context [_play_current pg ?p ?W] =>
    apply (play_current_keeps_Playing p W); [live_done|done] end.
Qed.

(** The elapsed-time path of the monitor: the position computed from the
    anchor has reached the duration of the current track. *)
Lemma update_position_track_over t0 w f total files idx g ds :
  Inv w -> phase w = Some Playing -> current_track w f ->
  durations (self w) = Some ds -> ds !! f = Some total ->
  (0 < total)%Q -> (total <= now w - t0)%Q ->
  file_list (self w) = Some files -> current_index (self w) = Some idx ->
  gui (self w) = Some g ->
  let w' := state_after (update_position pg (Some t0)) w in
  phase w' = Some Playing
  /\ current_index (self w')
     = Some (if autoplay_checkbox g then (idx + 1) `mod` len files else idx).
Proof.
  intros H Hp (fl & i & Hfl & Hi' & Hge & Hl) Hds Hlk Hpos Hover Hf Hi Hg w'.
  subst w'. assert (fl = files) as -> by congruence.
  assert (i = idx) as -> by congruence.
  destruct g as [opts fd vs ap lbl bar tl]. simpl.
  open_inv w H. unfold phase in Hp. simpl in Hp.
  destruct playing, paused; try done.
  unfold update_position. run.
  match goal with Hr : 0 <= ?i < len ?l |- _ =>
    destruct (py_index_valid l i Hr) as (f' & -> & Hl') end.
  assert (f' = f) as -> by congruence. run. rewrite Hlk. simpl.
  assert (Hlt : Qltb 0 total = true).
  { unfold Qltb. destruct (Qle_bool total 0) eqn:E; [|done].
    apply Qle_bool_iff in E. lra. }
  rewrite Hlt. run.
  assert (Hdiv : py_div (t - t0) total = Ok ((t - t0) / total)%Q).
  { unfold py_div. destruct (Qeq_bool total 0) eqn:E; [|done].
    apply Qeq_bool_eq in E. lra. }
  rewrite Hdiv. run.
  assert (Hle : Qle_bool total (t - t0) = true) by by apply Qle_bool_iff.
  rewrite Hle. run.
  destruct ap; run; [|done].
  match goal with |- context [_on_next pg ?W] =>
    assert (HI : Inv W) by inv_done;
    pose proof (on_next_Playing W HI eq_refl) as Hnp;
    destruct (on_next_effect W HI) as (_ & _ & fl & i & Hf' & Hi' & _ & Hn)
  end.
  simpl in Hf', Hi'. simplify_eq. unfold state_after in *.
  match goal with |- context [_on_next pg ?W] =>
    destruct (_on_next pg W) as [[[]|e] w'] end; done.
Qed.

(** *** The progress bar *)

Lemma play_current_progress position w :
  live w ->
  (progress_bar <$> gui (self (state_after (_play_current pg position) w)))
  = (progress_bar <$> gui (self w))
  /\ (outcome (_play_current pg position) w = Ok tt
      \/ outcome (_play_current pg position) w = Raise PygameError).
Proof.
  intros HL. open_world w HL. unfold _play_current. run.
  destruct ((0 <=? idx) && (idx <? len files)) eqn:E; run; [|auto].
  assert (Hi : 0 <= idx < len files) by lia.
  destruct (py_index_valid files idx Hi) as (f & -> & _). run.
  destruct (load_ok pg f); run; [|auto].
  destruct (play_ok pg f); run; [|auto].
  destruct (paplay_present pg); run; auto.
Qed.

Lemma update_position_progress start_time w :
  Inv w -> progress_in_range w -> elapsed_nonneg start_time w ->
  progress_in_range (state_after (update_position pg start_time) w)
  /\ outcome (update_position pg start_time) w <> Raise ZeroDivisionError.
Proof.
  intros H (g' & Hg' & Hbar) He. open_inv w H. simplify_eq. simpl in Hbar.
  assert (Hpos : match start_time with
                 | Some t0 => (0 <= t - t0)%Q
                 | None => (0 <= t - (t - pos))%Q
                 end).
  { destruct start_time as [t0|]; simpl in He; [lra|].
    destruct He as (p & Hp & Hp0). simplify_eq. lra. }
  clear He.
  assert (Hkeep : forall W r,
            gui (self W) = Some (mkWidgets opts fd vs ap lbl bar tl) ->
            r <> Raise (A:=option Q) ZeroDivisionError ->
            progress_in_range W /\ r <> Raise ZeroDivisionError).
  { intros W r HW Hr. split; [|done]. by eexists. }
  unfold update_position. run.
  destruct playing; run.
  2:{ destruct paused; run; by apply Hkeep. }
  destruct paused; run; [by apply Hkeep|].
  destruct (py_index_valid files idx Hi) as (f & Ef & _).
  destruct start_time as [t0|]; run; rewrite Ef; run.
  all: destruct (Qltb 0 (default 0%Q (ds !! f))) eqn:Elt; run;
    [|by apply Hkeep].
  all: apply Qltb_true in Elt; rewrite py_div_pos by done; run.
  all: pose proof (percentage_in_range _ _ Hpos Elt) as Hpc.
  all: match goal with |- context [Qle_bool ?a ?b] =>
         destruct (Qle_bool a b) end; run;
    [|split; [by eexists|done]].
  all: destruct ap; run; [|split; [by eexists|done]].
  all: unfold _on_next; run.
  all: destruct (0 <? len files) eqn:E; [|lia]; run.
  all: rewrite py_mod_pos by lia; run.
  all: match goal with |- context [_play_current pg ?p ?W] =>
         assert (HL : live W) by live_done;
         destruct (play_current_progress p W HL) as (Hb & Ho');
         unfold state_after, outcome in Hb, Ho';
         destruct (_play_current pg p W) as [[[]|e] w']
       end; simpl in *.
  all: destruct (gui (self w')) as [g2|] eqn:Eg; [|done]; simpl in Hb.
  all: injection Hb as Hb.
  all: split; [exists g2; split; [done|by rewrite Hb] |].
  all: try done.
  all: destruct Ho' as [?|?]; congruence.
Qed.

(** With a duration of 0 (or none recorded) for the current track the
    display is left as it is. *)
Lemma update_position_unknown_duration start_time w f ds :
  Inv w -> current_track w f ->
  durations (self w) = Some ds -> (default 0 (ds !! f) <= 0)%Q ->
  let r := update_position pg start_time w in
  gui (self r.2) = gui (self w) /\ exists st, r.1 = Ok st.
Proof.
  intros H (files' & idx' & Hf' & Hi' & Hge & Hl) Hds Hz. open_inv w H.
  unfold update_position. run.
  destruct playing; run; cbn [fst snd].
  2:{ destruct paused; run; cbn [fst snd]; eauto. }
  destruct paused; run; cbn [fst snd]; [eauto|].
  destruct (py_index_valid files idx Hi) as (f' & Ef & Hl').
  assert (f' = f) as -> by congruence.
  assert (Hlt : Qltb 0 (default 0%Q (ds !! f)) = false).
  { destruct (Qltb 0 (default 0%Q (ds !! f))) eqn:E; [|done].
    apply Qltb_true in E. lra. }
  destruct start_time as [t0|]; run; rewrite Ef; run; rewrite Hlt; run;
    cbn [fst snd]; eauto.
Qed.


(** *** Pause and resume *)

Lemma play_current_position position w :
  live w -> current_position (self w) = Some position ->
  current_position (self (state_after (_play_current pg position) w))
  = Some position.
Proof.
  intros HL Hp. open_world w HL. unfold _play_current. run.
  repeat (match goal with
          | |- context [if ?b then _ else _] => destruct b
          | |- context [match py_index ?l ?i with _ => _ end] =>
              destruct (py_index l i)
          end; run); done.
Qed.

Lemma on_pause_effect w :
  Inv w -> phase w = Some Playing ->
  let w' := state_after _on_pause w in
  phase w' = Some Paused
  /\ pause_time (self w') = Some (Some (now w))
  /\ current_position (self w') = current_position (self w)
  /\ now w' = now w.
Proof.
  intros H Hp. open_inv w H. unfold phase in Hp. simpl in Hp.
  destruct playing, paused; try done.
Qed.

Lemma on_play_resume w d0 tp :
  Inv w -> phase w = Some Paused ->
  current_position (self w) = Some d0 ->
  pause_time (self w) = Some (Some tp) -> Qeq_bool tp 0 = false ->
  current_position (self (state_after (_on_play pg) w))
  = Some (d0 + (now w - tp))%Q.
Proof.
  intros H Hp Hd Hpt Hnz. open_inv w H. unfold phase in Hp. simpl in Hp.
  destruct playing, paused; try done.
  unfold _on_play. run. rewrite Hnz. run.
  match goal with |- context [_play_current pg ?p ?W] =>
    apply (play_current_position p W); [live_done|done] end.
Qed.

(** *** The constructor over an empty folder *)



(** *** The clock invariant *)

Lemma not_after_mono o t t' : not_after o t -> (t <= t')%Q -> not_after o t'.
Proof. destruct o; simpl; [|done]. intros. lra. Qed.

Lemma Timed_explicit fp files idx playing paused vol cf pos pt ds me
    opts fd vs ap lbl bar tl ssm ml mc so t mon :
  0 <= idx < len files ->
  opts.*2 = Z.of_nat <$> seq 0 (length files) ->
  (0 <= bar <= 100)%Q -> (0 <= pos)%Q ->
  not_after pt t -> not_after (anchor mon) t ->
  Timed (mkWorld (mkPlayer (Some fp) (Some files) (Some idx) (Some playing)
                    (Some paused) (Some vol) (Some cf) (Some pos) (Some pt)
                    (Some ds) (Some me)
                    (Some (mkWidgets opts fd vs ap lbl bar tl)) (Some ssm))
           ml mc so t mon).
Proof.
  intros Hi Ho Hb Hp Hpt Hm. split; [by apply Inv_explicit|]. split.
  - eexists. split; [reflexivity|done].
  - split; [by eexists|]. split; [by eexists|done].
Qed.

Ltac open_timed w H :=
  let HI := fresh "HI" in
  let Hb := fresh "Hb" in
  let Hp := fresh "Hp" in
  let Hpt := fresh "Hpt" in
  let Hm := fresh "Hm" in
  destruct H as (HI & (?g & ?Hg & Hb)
                 & (?pos & ?Hpos & Hp) & (?pt & ?Hpt' & Hpt) & Hm);
  open_inv w HI; simplify_eq; simpl in Hb, Hpt, Hm.

Ltac timed_done :=
  apply Timed_explicit; simpl; try done;
  try (eapply not_after_mono; [eassumption|lra]);
  unfold not_after in *; try done; try lra.

(** [_play_current] moves neither the bar nor the clock readings, and
    sets the position to its argument or leaves it. *)
Lemma play_current_Timed position w :
  Timed w -> (0 <= position)%Q ->
  Timed (state_after (_play_current pg position) w).
Proof.
  intros H Hpos. open_timed w H. unfold _play_current. run.
  destruct ((0 <=? idx) && (idx <? len files)) eqn:E; run; [|timed_done].
  destruct (py_index_valid files idx Hi) as (f & -> & _). run.
  destruct (load_ok pg f); run; [|timed_done].
  destruct (play_ok pg f); run; [|timed_done].
  destruct (paplay_present pg); run; timed_done.
Qed.

Ltac use_play_current_Timed :=
  match goal with |- context [_play_current pg ?p ?W] =>
    let HT := fresh "HT" in
    assert (HT : Timed W) by timed_done;
    apply (play_current_Timed p W) in HT; [|unfold not_after in *; lra];
    unfold state_after in HT; exact HT
  end.

Lemma on_next_Timed w : Timed w -> Timed (state_after (_on_next pg) w).
Proof.
  intros H. open_timed w H. unfold _on_next. run.
  destruct (0 <? len files) eqn:E; [|lia]. run.
  rewrite py_mod_pos by lia. run.
  assert (Hmod : 0 <= (idx + 1) `mod` len files < len files)
    by (apply Z.mod_pos_bound; lia).
  destruct playing; run; [use_play_current_Timed|].
  unfold set_file_dropdown. run.
  match goal with |- context [bool_decide ?P] => destruct (bool_decide P) end;
    run; [|timed_done].
  match goal with |- context [?a =? fd] => destruct (a =? fd) end; run;
    [timed_done|].
  rewrite file_select_same by reflexivity. run. timed_done.
Qed.

Lemma on_prev_Timed w : Timed w -> Timed (state_after (_on_prev pg) w).
Proof.
  intros H. open_timed w H. unfold _on_prev. run.
  destruct (0 <? len files) eqn:E; [|lia]. run.
  rewrite py_mod_pos by lia. run.
  assert (Hmod : 0 <= (idx - 1) `mod` len files < len files)
    by (apply Z.mod_pos_bound; lia).
  destruct playing; run; [use_play_current_Timed|].
  unfold set_file_dropdown. run.
  match goal with |- context [bool_decide ?P] => destruct (bool_decide P) end;
    run; [|timed_done].
  match goal with |- context [?a =? fd] => destruct (a =? fd) end; run;
    [timed_done|].
  rewrite file_select_same by reflexivity. run. timed_done.
Qed.

Lemma on_play_Timed w : Timed w -> Timed (state_after (_on_play pg) w).
Proof.
  intros H. open_timed w H. unfold _on_play. run.
  destruct playing; run; [|use_play_current_Timed].
  destruct paused; run; [|timed_done].
  destruct pt as [tp|]; run; [|use_play_current_Timed].
  destruct (Qeq_bool tp 0); run; use_play_current_Timed.
Qed.

Lemma on_pause_Timed w : Timed w -> Timed (state_after _on_pause w).
Proof.
  intros H. open_timed w H. unfold _on_pause. run.
  destruct playing; run; [|timed_done].
  destruct paused; run; timed_done.
Qed.

Lemma on_stop_Timed w : Timed w -> Timed (state_after _on_stop w).
Proof.
  intros H. open_timed w H. unfold _on_stop. run.
  destruct playing; run; timed_done.
Qed.

Lemma select_Timed v w :
  Timed w -> Timed (state_after (set_file_dropdown pg v) w).
Proof.
  intros H. open_timed w H. unfold set_file_dropdown. run.
  destruct (bool_decide (v ∈ opts.*2)) eqn:Ev; run; [|timed_done].
  apply bool_decide_eq_true in Ev. rewrite Ho in Ev.
  apply elem_of_indices in Ev. fold (len files) in Ev.
  destruct (v =? fd) eqn:E; run; [timed_done|].
  unfold _on_file_select. run.
  destruct (v =? idx) eqn:E'; run; [timed_done|].
  destruct playing; run; [use_play_current_Timed|timed_done].
Qed.

Lemma run_command_Timed c w :
  Timed w -> Timed (state_after (run_command pg c) w).
Proof.
  intros H. destruct c; simpl.
  - by apply on_play_Timed.
  - by apply on_pause_Timed.
  - by apply on_stop_Timed.
  - by apply on_next_Timed.
  - by apply on_prev_Timed.
  - by apply select_Timed.
  - open_timed w H. unfold _on_volume_change. run. timed_done.
  - open_timed w H. run. timed_done.
Qed.

Lemma handle_event_Timed event w :
  Timed w -> Timed (state_after (handle_event pg event) w).
Proof.
  intros H. pose proof (on_next_Timed w H) as Hn.
  pose proof (on_stop_Timed w H) as Hs.
  unfold state_after in *.
  open_timed w H. unfold handle_event. run.
  destruct (type event =? me); run; [|timed_done].
  destruct playing; run; [|timed_done].
  destruct paused; run; [timed_done|].
  destruct ap; run; done.
Qed.

(** The position update keeps the invariant when its anchor is sound,
    and returns a sound anchor. *)
Lemma update_position_Timed start_time w :
  Timed w -> elapsed_nonneg start_time w ->
  let r := update_position pg start_time w in
  Timed r.2
  /\ match r.1 with
     | Ok (Some t0) => (t0 <= now r.2)%Q
     | _ => True
     end.
Proof.
  intros H He. open_timed w H.
  assert (Hst : not_after start_time t).
  { destruct start_time; [exact He|done]. }
  clear He.
  unfold update_position. run. cbn [fst snd].
  destruct playing; run; cbn [fst snd].
  2:{ destruct paused; run; cbn [fst snd]; (split; [timed_done|]); [|done].
      destruct start_time; done. }
  destruct paused; run; cbn [fst snd].
  { split; [timed_done|]. destruct start_time; done. }
  destruct (py_index_valid files idx Hi) as (f & Ef & _).
  destruct start_time as [t0|]; simpl in Hst; run; cbn [fst snd]; rewrite Ef;
    run; cbn [fst snd].
  all: destruct (Qltb 0 (default 0%Q (ds !! f))) eqn:Elt; run; cbn [fst snd];
    [|split; [timed_done|lra]].
  all: apply Qltb_true in Elt; rewrite py_div_pos by done; run; cbn [fst snd].
  all: match goal with |- context [py_min 100 (?ct / ?td * 100)] =>
         assert (Hct : (0 <= ct)%Q) by lra;
         pose proof (percentage_in_range ct td Hct Elt) as Hpc
       end.
  all: match goal with |- context [Qle_bool ?a ?b] =>
         destruct (Qle_bool a b) end; run; cbn [fst snd];
    [|split; [timed_done|lra]].
  all: destruct ap; run; cbn [fst snd]; [|split; [timed_done|lra]].
  all: match goal with |- context [_on_next pg ?W] =>
         assert (HT : Timed W) by timed_done;
         apply on_next_Timed in HT; unfold state_after in HT;
         destruct (_on_next pg W) as [[[]|e] w']; done
       end.
Qed.

Lemma monitor_turn_Timed events w :
  Timed w -> Timed (monitor_turn pg events w).
Proof.
  intros H. unfold monitor_turn.
  destruct (monitor w) as [|start_time| |] eqn:Em; try done.
  assert (He : elapsed_nonneg start_time w).
  { destruct H as (_ & _ & Hp & _ & Hm). rewrite Em in Hm.
    destruct start_time as [t0|]; simpl; [exact Hm|exact Hp]. }
  assert (Hset : forall th W,
            Timed W -> not_after (anchor th) (now W) ->
            Timed (set_monitor th W)).
  { intros th W HW Hth. open_timed W HW. run. timed_done. }
  assert (Hs : exists b, attr should_stop_monitor w = (Ok b, w)).
  { destruct H as ((HL & _) & _). open_world w HL. run. eauto. }
  destruct Hs as (b & ->). destruct b; [by apply Hset|].
  unfold monitor_iteration, bind.
  pose proof (for_each_preserves
                (fun s => Timed s /\ now s = now w /\ monitor s = monitor w
                          /\ current_position (self s)
                             = current_position (self s))
                (handle_event pg) events) as Hloop.
  assert (H1 : Timed (for_each events (handle_event pg) w).2
               /\ (start_time = None \/
                   exists t0, start_time = Some t0
                              /\ (t0 <= now (for_each events (handle_event pg) w).2)%Q)).
  { clear Hloop Hset He.
    assert (Hgen : forall s,
              Timed s /\ (forall t0, start_time = Some t0 -> (t0 <= now s)%Q) ->
              Timed (for_each events (handle_event pg) s).2
              /\ (forall t0, start_time = Some t0 ->
                  (t0 <= now (for_each events (handle_event pg) s).2)%Q)).
    { induction events as [|ev evs IH]; intros s (Hs & Hn); [done|].
      simpl. unfold bind.
      pose proof (handle_event_Timed ev s Hs) as Hev.
      assert (Hnow : now (handle_event pg ev s).2 = now s).
      { clear -Hs. unfold handle_event.
        destruct Hs as (HI & _).
        destruct (on_next_effect s HI) as (_ & _).
        open_inv s HI. run.
        destruct (type ev =? me); run; [|done].
        destruct playing; run; [|done].
        destruct paused; run; [done|].
        destruct ap; run; [|done].
        unfold _on_next. run.
        destruct (0 <? len files) eqn:E; [|lia]. run.
        rewrite py_mod_pos by lia. run.
        unfold _play_current. run.
        repeat (match goal with
                | |- context [if ?b then _ else _] => destruct b
                | |- context [match py_index ?l ?i with _ => _ end] =>
                    destruct (py_index l i)
                end; run); done. }
      unfold state_after in Hev.
      destruct (handle_event pg ev s) as [[[]|e] s']; simpl in *.
      - apply IH. split; [done|]. intros t0 E. rewrite Hnow. by apply Hn.
      - split; [done|]. intros t0 E. rewrite Hnow. by apply Hn. }
    destruct (Hgen w) as (Ha & Hb).
    { split; [done|]. intros t0 ->. destruct H as (_ & _ & _ & _ & Hm).
      by rewrite Em in Hm. }
    split; [done|]. destruct start_time as [t0|]; [right|by left].
    exists t0. split; [done|]. by apply Hb. }
  destruct H1 as (H1 & Hanchor).
  destruct (for_each events (handle_event pg) w) as [[[]|e] w1]; simpl in *.
  2:{ by apply Hset. }
  assert (He1 : elapsed_nonneg start_time w1).
  { destruct Hanchor as [->|(t0 & -> & ?)]; simpl; [|done].
    by destruct H1 as (_ & _ & Hp & _). }
  destruct (update_position_Timed start_time w1 H1 He1) as (H2 & Hst).
  destruct (update_position pg start_time w1) as [[st|e] w2]; simpl in *.
  2:{ by apply Hset. }
  assert (H3 : Timed (time_sleep (1 # 10) w2).2
               /\ (now w2 <= now (time_sleep (1 # 10) w2).2)%Q).
  { open_timed w2 H2. run. split; [timed_done|lra]. }
  destruct H3 as (H3 & Hle).
  replace (time_sleep (1 # 10) w2) with (Ok tt, (time_sleep (1 # 10) w2).2)
    by reflexivity.
  apply Hset; [done|]. destruct st as [t0|]; simpl; [lra|done].
Qed.

Lemma step_Timed w w' : step pg w w' -> Timed w -> Timed w'.
Proof.
  intros Hs H. destruct Hs.
  - by apply run_command_Timed.
  - by apply monitor_turn_Timed.
  - open_timed w H. run. timed_done.
Qed.

Lemma init_Timed folder t0 :
  glob_wav fs folder <> [] ->
  Timed (state_after (__init__ pg fs folder) (fresh t0)).
Proof.
  intros Hne. unfold __init__, fresh, blank. run.
  destruct (sorted (glob_wav fs folder)) as [|f files] eqn:Es.
  { apply (proj1 (sorted_nil_iff _)) in Es. contradiction. }
  unfold _get_wav_durations. run.
  match goal with |- context [durations_loop fs ?l ?d ?W] =>
    destruct (durations_loop_total l d W) as (ds' & lines & -> & _) end.
  run. unfold _create_gui, start_monitor. run.
  apply Timed_explicit.
  - unfold len. simpl. lia.
  - apply (options_indices (f :: files) 0).
  - lra.
  - lra.
  - done.
  - done.
Qed.

Lemma reachable_Timed folder t0 w :
  glob_wav fs folder <> [] -> reachable pg fs folder t0 w -> Timed w.
Proof.
  intros Hne Hr. unfold reachable in Hr.
  eapply (rtc_ind_r (fun w => Timed w)); [| |exact Hr].
  - by apply init_Timed.
  - intros w1 w2 _ Hs IH. by eapply step_Timed.
Qed.

(** *** Further behaviour of the handlers *)

Lemma on_pause_playing w :
  Inv w -> phase w = Some Playing ->
  let w' := state_after _on_pause w in
  outcome _on_pause w = Ok tt
  /\ phase w' = Some Paused
  /\ pause_time (self w') = Some (Some (now w))
  /\ current_position (self w') = current_position (self w)
  /\ current_index (self w') = current_index (self w)
  /\ gui (self w') = gui (self w)
  /\ mixer_calls w' = mixer_calls w ++ [MusicStop]
  /\ now w' = now w.
Proof.
  intros H Hp. open_inv w H. unfold phase in Hp. simpl in Hp.
  destruct playing, paused; try done.
Qed.

Lemma on_pause_not_playing w :
  phase w = Some Stopped \/ phase w = Some Paused ->
  _on_pause w = (Ok tt, w).
Proof.
  intros H. unfold phase in H.
  destruct (is_playing (self w)) as [[]|] eqn:E1;
    [|unfold _on_pause, bind, attr; by rewrite E1|by destruct H].
  destruct (is_paused (self w)) as [[]|] eqn:E2; [|by destruct H..].
  unfold _on_pause, bind, attr. rewrite E1. simpl. by rewrite E2.
Qed.

Lemma on_play_playing w :
  phase w = Some Playing -> _on_play pg w = (Ok tt, w).
Proof.
  intros H. unfold phase in H.
  destruct (is_playing (self w)) as [[]|] eqn:E1; try done.
  destruct (is_paused (self w)) as [[]|] eqn:E2; try done.
  unfold _on_play, bind, attr. rewrite E1. simpl. by rewrite E2.
Qed.

(** Resuming asks the engine for the current track again, from its
    start. *)
Lemma on_play_resume_calls w f :
  Inv w -> phase w = Some Paused -> current_track w f ->
  exists rest,
    mixer_calls (state_after (_on_play pg) w)
    = mixer_calls w ++ MusicStop :: MusicLoad f :: rest
    /\ (load_ok pg f = true -> play_ok pg f = true ->
        phase (state_after (_on_play pg) w) = Some Playing
        /\ exists vol, volume (self w) = Some vol
             /\ rest = [MusicSetVolume vol; MusicPlay]).
Proof.
  intros H Hp (files' & idx' & Hf' & Hi' & Hge & Hl). open_inv w H.
  unfold phase in Hp. simpl in Hp. destruct playing, paused; try done.
  unfold _on_play. run.
  assert (Hgoal : forall position W,
    W = mkWorld (mkPlayer (Some fp) (Some files) (Some idx) (Some true)
                   (Some false) (Some vol) (Some cf) (Some position)
                   (Some pt) (Some ds) (Some me)
                   (Some (mkWidgets opts fd vs ap lbl bar tl)) (Some ssm))
          ml mc so t mon ->
    exists rest,
      mixer_calls (_play_current pg position W).2
      = mc ++ MusicStop :: MusicLoad f :: rest
      /\ (load_ok pg f = true -> play_ok pg f = true ->
          phase (_play_current pg position W).2 = Some Playing
          /\ exists vol0, Some vol = Some vol0
               /\ rest = [MusicSetVolume vol0; MusicPlay])).
  { intros position W ->. unfold _play_current. run.
    destruct ((0 <=? idx) && (idx <? len files)) eqn:E; [|lia]. run.
    destruct (py_index_valid files idx Hi) as (f' & -> & Hl').
    assert (f' = f) as -> by congruence. run.
    destruct (load_ok pg f) eqn:El; run.
    2:{ eexists. split; [simpl; rewrite <- ?app_assoc; reflexivity|]. done. }
    destruct (play_ok pg f) eqn:Ep; run.
    2:{ eexists. split; [simpl; rewrite <- ?app_assoc; reflexivity|]. done. }
    destruct (paplay_present pg); run.
    all: eexists; split; [simpl; rewrite <- ?app_assoc; reflexivity|].
    all: intros _ _; split; [done|]; by eexists. }
  destruct pt as [tp|]; run.
  - destruct (Qeq_bool tp 0); run; by eapply Hgoal.
  - by eapply Hgoal.
Qed.

(** *** Selecting a track *)

Lemma select_switches v w files idx g f :
  Inv w ->
  file_list (self w) = Some files -> current_index (self w) = Some idx ->
  gui (self w) = Some g ->
  0 <= v < len files -> v <> idx -> v <> file_dropdown g ->
  files !! Z.to_nat v = Some f ->
  let w' := state_after (set_file_dropdown pg v) w in
  current_index (self w') = Some v
  /\ (file_dropdown <$> gui (self w')) = Some v
  /\ (phase w = Some Stopped ->
      outcome (set_file_dropdown pg v) w = Ok tt
      /\ phase w' = Some Stopped /\ mixer_calls w' = mixer_calls w)
  /\ (is_playing (self w) = Some true ->
      exists rest,
        mixer_calls w' = mixer_calls w ++ MusicStop :: MusicLoad f :: rest).
Proof.
  intros H Hf Hi Hg Hv Hne Hfd Hl w'. subst w'. open_inv w H.
  unfold set_file_dropdown. run.
  destruct (bool_decide (v ∈ opts.*2)) eqn:Ev; run.
  2:{ apply bool_decide_eq_false in Ev. exfalso. apply Ev. rewrite Ho.
      by apply elem_of_indices. }
  destruct (v =? _) eqn:E; [lia|]. run.
  unfold _on_file_select. run.
  match goal with |- context [if ?a =? ?b then false else true] =>
    destruct (a =? b) eqn:E'; [lia|] end.
  run.
  destruct playing; run.
  2:{ cbn [fst snd]. split; [done|]. split; [done|].
      split; [intros _; done | intros ?; discriminate]. }
  match goal with |- context [_play_current pg ?p ?W] =>
    assert (HI : Inv W) by inv_done;
    assert (Ht : current_track W f)
      by (eexists _, _; split; [reflexivity|]; split; [reflexivity|];
          split; [lia|done]);
    destruct (play_current_frame p W (proj1 HI)) as (_ & _ & Ei & Eo & _);
    destruct (play_current_effect p W f HI Ht) as (rest & Hc & _);
    assert (Hgui : file_dropdown <$> gui (self (state_after (_play_current pg p) W))
                   = Some v)
  end.
  { clear Hc Ei Eo. unfold _play_current. run.
    repeat (match goal with
            | |- context [if ?b then _ else _] => destruct b
            | |- context [match py_index ?l ?i with _ => _ end] =>
                destruct (py_index l i)
            end; run); done. }
  unfold state_after in *. split; [done|]. split; [done|].
  split; [intros Hp; unfold phase in Hp; simpl in Hp; by destruct paused|].
  intros _. eauto.
Qed.

(** *** Stepping through the playlist *)

Lemma on_next_stopped w files idx :
  Inv w -> phase w = Some Stopped ->
  file_list (self w) = Some files -> current_index (self w) = Some idx ->
  let w' := state_after (_on_next pg) w in
  outcome (_on_next pg) w = Ok tt
  /\ Inv w'
  /\ phase w' = Some Stopped
  /\ mixer_calls w' = mixer_calls w
  /\ current_index (self w') = Some ((idx + 1) `mod` len files)
  /\ (file_dropdown <$> gui (self w')) = Some ((idx + 1) `mod` len files).
Proof.
  intros H Hp Hf Hi w'. subst w'.
  destruct (on_next_effect w H) as (HI & _).
  open_inv w H. unfold phase in Hp. simpl in Hp.
  destruct playing; [by destruct paused|].
  unfold state_after in HI. revert HI.
  unfold _on_next. run.
  destruct (0 <? len _) eqn:E; [|lia]. run.
  rewrite py_mod_pos by lia. run.
  unfold set_file_dropdown. run.
  match goal with |- context [bool_decide ?P] =>
    destruct (bool_decide P) eqn:Ev end; run.
  2:{ apply bool_decide_eq_false in Ev. exfalso. apply Ev. rewrite Ho.
      apply elem_of_indices. apply Z.mod_pos_bound. unfold len in *. lia. }
  match goal with |- context [?a =? fd] => destruct (a =? fd) eqn:Efd end;
    run.
  { apply Z.eqb_eq in Efd. subst fd. intros HI. done. }
  rewrite file_select_same by reflexivity. run. done.
Qed.

Lemma on_prev_after_next w idx :
  Inv w -> current_index (self w) = Some idx ->
  current_index
    (self (state_after (_on_prev pg) (state_after (_on_next pg) w)))
  = Some idx
  /\ current_index
       (self (state_after (_on_next pg) (state_after (_on_prev pg) w)))
     = Some idx.
Proof.
  intros H Hi.
  assert (Hr : exists files, file_list (self w) = Some files
                             /\ 0 <= idx < len files).
  { destruct H as (_ & (fl & i & ? & ? & ?) & _). exists fl.
    split; [done|]. by assert (i = idx) as <- by congruence. }
  destruct Hr as (files & Hf & Hr).
  split.
  - destruct (on_next_effect w H) as (H1 & _ & fl & i & ? & ? & Hf1 & Hi1).
    assert (fl = files) as -> by congruence.
    assert (i = idx) as -> by congruence.
    destruct (on_prev_effect _ H1) as (_ & _ & fl & i & ? & ? & _ & ->).
    assert (fl = files) as -> by congruence.
    assert (i = (idx + 1) `mod` len files) as -> by congruence.
    f_equal. rewrite Zminus_mod_idemp_l.
    replace (idx + 1 - 1) with idx by lia. by apply Z.mod_small.
  - destruct (on_prev_effect w H) as (H1 & _ & fl & i & ? & ? & Hf1 & Hi1).
    assert (fl = files) as -> by congruence.
    assert (i = idx) as -> by congruence.
    destruct (on_next_effect _ H1) as (_ & _ & fl & i & ? & ? & _ & ->).
    assert (fl = files) as -> by congruence.
    assert (i = (idx - 1) `mod` len files) as -> by congruence.
    f_equal. rewrite Zplus_mod_idemp_l.
    replace (idx - 1 + 1) with idx by lia. by apply Z.mod_small.
Qed.

(** *** The monitor outside of Playing *)

Lemma handle_event_not_playing event w :
  Inv w -> phase w = Some Stopped \/ phase w = Some Paused ->
  handle_event pg event w = (Ok tt, w).
Proof.
  intros H Hp. open_inv w H. unfold phase in Hp. simpl in Hp.
  unfold handle_event. run.
  destruct (type event =? me); run; [|done].
  destruct playing; run; [|done].
  destruct paused; run; [done|]. by destruct Hp.
Qed.

Lemma for_each_noop {S A} (body : A -> M S unit) xs s :
  (forall x, body x s = (Ok tt, s)) -> for_each xs body s = (Ok tt, s).
Proof.
  intros Hb. induction xs as [|x xs IH]; [done|].
  simpl. unfold bind. by rewrite Hb.
Qed.

(** *** The elapsed position while Playing *)

Lemma update_position_running t0 w f ds :
  Inv w -> phase w = Some Playing -> current_track w f ->
  durations (self w) = Some ds ->
  (now w - t0 < default 0 (ds !! f))%Q \/ (default 0 (ds !! f) <= 0)%Q ->
  let r := update_position pg (Some t0) w in
  r.1 = Ok (Some t0)
  /\ current_position (self r.2) = Some (now w - t0)%Q
  /\ phase r.2 = Some Playing
  /\ current_index (self r.2) = current_index (self w)
  /\ mixer_calls r.2 = mixer_calls w
  /\ now r.2 = now w.
Proof.
  intros H Hp (files' & idx' & Hf' & Hi' & Hge & Hl) Hds Hcase.
  open_inv w H. unfold phase in Hp. simpl in Hp.
  destruct playing, paused; try done.
  unfold update_position. run.
  match goal with Hr : 0 <= ?i < len ?l |- _ =>
    destruct (py_index_valid l i Hr) as (f' & -> & Hl') end.
  assert (f' = f) as -> by congruence. run.
  destruct (Qltb 0 (default 0%Q (ds !! f))) eqn:Elt; run; cbn [fst snd];
    [|done].
  apply Qltb_true in Elt. rewrite py_div_pos by done. run.
  destruct Hcase as [Hlt|Hle]; [|lra].
  assert (Hnle : Qle_bool (default 0%Q (ds !! f)) (t - t0) = false).
  { destruct (Qle_bool (default 0%Q (ds !! f)) (t - t0)) eqn:E; [|done].
    apply Qle_bool_iff in E. lra. }
  rewrite Hnle. run. cbn [fst snd]. done.
Qed.

(** *** An engine failure inside the monitor *)

Lemma monitor_turn_crash event rest start_time w files idx g f :
  Inv w -> phase w = Some Playing -> monitor w = Running start_time ->
  should_stop_monitor (self w) = Some false ->
  MUSIC_END (self w) = Some (type event) ->
  file_list (self w) = Some files -> current_index (self w) = Some idx ->
  gui (self w) = Some g -> autoplay_checkbox g = true ->
  files !! Z.to_nat ((idx + 1) `mod` len files) = Some f ->
  load_ok pg f = false ->
  let w' := monitor_turn pg (event :: rest) w in
  monitor w' = Crashed PygameError
  /\ phase w' = Some Playing
  /\ current_index (self w') = Some ((idx + 1) `mod` len files)
  /\ forall events, monitor_turn pg events w' = w'.
Proof.
  intros H Hp Hm Hs Hme Hf Hi Hg Ha Hl Hload w'. subst w'.
  destruct g as [opts' fd' vs' ap' lbl' bar' tl']. simpl in Ha. subst ap'.
  open_inv w H. unfold phase in Hp. simpl in Hp.
  destruct playing, paused; try done.
  unfold monitor_turn. simpl monitor. cbv beta iota.
  unfold monitor_iteration. run.
  unfold handle_event. run. rewrite Z.eqb_refl. run.
  unfold _on_next. run.
  destruct (0 <? len _) eqn:E; [|lia]. run.
  rewrite py_mod_pos by lia. run.
  unfold _play_current. run.
  match goal with |- context [(0 <=? ?a) && (?a <? ?b)] =>
    assert (Hm : 0 <= a < b) by (apply Z.mod_pos_bound; lia);
    destruct ((0 <=? a) && (a <? b)) eqn:E2; [|lia];
    destruct (py_index_valid _ a Hm) as (f' & Ef & Hl')
  end.
  run. rewrite Ef. assert (f' = f) as -> by congruence. run.
  rewrite Hload. run. done.
Qed.

(** *** What the constructor leaves behind *)

Lemma duration_nonneg (frames rate : N) :
  (0 <= inject_Z (Z.of_N frames) / inject_Z (Z.of_N rate))%Q.
Proof.
  unfold Qdiv. apply Qmult_le_0_compat.
  - change 0%Q with (inject_Z 0). rewrite <- Zle_Qle. lia.
  - apply Qinv_le_0_compat. change 0%Q with (inject_Z 0).
    rewrite <- Zle_Qle. lia.
Qed.

Lemma probe_duration_lines x ds0 w :
  exists d,
    probe_duration fs x ds0 w
    = (Ok (<[x:=d]> ds0),
       set_stdout
         (stdout w ++
          omap (fun f =>
                  (fun e => "ファイル " +:+ f +:+ " の長さを取得できませんでした: "
                            +:+ exn_text fs e) <$> probe_error fs f) [x]) w)
    /\ (0 <= d)%Q.
Proof.
  unfold probe_duration, probe_error. run. simpl.
  destruct (wave_probe fs x) as [[frames rate]|e] eqn:Ep; simpl.
  - unfold py_div. destruct (Qeq_bool (inject_Z (Z.of_N rate)) 0) eqn:Ed; simpl.
    + by exists 0%Q.
    + eexists. split; [|apply duration_nonneg].
      destruct w; simpl. by rewrite app_nil_r.
  - by exists 0%Q.
Qed.

Lemma durations_loop_lines files : forall ds0 w,
  map_Forall (fun _ d => (0 <= d)%Q) ds0 ->
  exists ds,
    durations_loop fs files ds0 w
    = (Ok ds,
       set_stdout
         (stdout w ++
          omap (fun f =>
                  (fun e => "ファイル " +:+ f +:+ " の長さを取得できませんでした: "
                            +:+ exn_text fs e) <$> probe_error fs f) files) w)
    /\ map_Forall (fun _ d => (0 <= d)%Q) ds.
Proof.
  induction files as [|x files IH]; intros ds0 w Hds0.
  - exists ds0. simpl. run. destruct w; simpl. by rewrite app_nil_r.
  - destruct (probe_duration_lines x ds0 w) as (d & E1 & Hd).
    edestruct (IH (<[x:=d]> ds0)) as (ds & E & Hds).
    { by apply map_Forall_insert_2. }
    exists ds. split; [|done].
    cbn [durations_loop]. unfold bind. rewrite E1, E.
    f_equal. destruct w; run. f_equal. rewrite <- app_assoc. f_equal.
    change (x :: files) with ([x] ++ files). by rewrite omap_app.
Qed.

Lemma init_state folder t0 :
  glob_wav fs folder <> [] ->
  let files := sorted (glob_wav fs folder) in
  exists ds,
    __init__ pg fs folder (fresh t0)
    = (Ok tt,
       mkWorld
         (mkPlayer (Some folder) (Some files) (Some 0) (Some false)
            (Some false) (Some (7 # 10)) (Some "") (Some 0%Q) (Some None)
            (Some ds) (Some (USEREVENT pg + 1))
            (Some (mkWidgets
                     (imap (fun i f => (basename f, Z.of_nat i)) files)
                     0 (7 # 10) true "<b>再生ファイル:</b> なし" 0
                     "0:00 / 0:00"))
            (Some false))
         None [PygameInit; MixerInit; SetEndEvent (USEREVENT pg + 1)]
         (omap (fun f =>
                  (fun e => "ファイル " +:+ f +:+ " の長さを取得できませんでした: "
                            +:+ exn_text fs e) <$> probe_error fs f) files)
         t0 (Running None))
    /\ dom ds = list_to_set files.
Proof.
  intros Hne files. subst files. unfold __init__, fresh, blank. run.
  destruct (sorted (glob_wav fs folder)) as [|f files] eqn:Es.
  { apply (proj1 (sorted_nil_iff _)) in Es. contradiction. }
  unfold _get_wav_durations. run.
  match goal with |- context [durations_loop fs ?l ?d ?W] =>
    destruct (durations_loop_lines l d W) as (ds' & E & _);
      [apply map_Forall_empty|];
    destruct (durations_loop_total l d W) as (ds'' & lines & E' & Hdom & _)
  end.
  rewrite E in E'. simplify_eq. rewrite E. run.
  unfold _create_gui, start_monitor. run.
  exists ds''. split; [done|]. rewrite Hdom. set_solver.
Qed.


(** *** What no step changes *)

Lemma kept_refl w : kept w w.
Proof. done. Qed.

Lemma kept_trans w1 w2 w3 : kept w1 w2 -> kept w2 w3 -> kept w1 w3.
Proof. intros [? ?] [? ?]. split; congruence. Qed.

Lemma play_current_kept position w :
  live w -> kept w (state_after (_play_current pg position) w).
Proof.
  intros HL. open_world w HL. unfold _play_current. run.
  repeat (match goal with
          | |- context [if ?b then _ else _] => destruct b
          | |- context [match py_index ?l ?i with _ => _ end] =>
              destruct (py_index l i)
          end; run); done.
Qed.

Ltac use_play_current_kept :=
  match goal with |- context [_play_current pg ?p ?W] =>
    let HK := fresh "HK" in
    assert (HK : live W) by live_done;
    apply (play_current_kept p W) in HK; unfold state_after in HK;
    destruct HK as [HK1 HK2]; split; [rewrite HK1|rewrite HK2]; done
  end.

Lemma on_play_kept w : Inv w -> kept w (state_after (_on_play pg) w).
Proof.
  intros H. open_inv w H. unfold _on_play. run.
  destruct playing; run; [|use_play_current_kept].
  destruct paused; run; [|done].
  destruct pt as [t0|]; run; [|use_play_current_kept].
  destruct (Qeq_bool t0 0); run; use_play_current_kept.
Qed.

Lemma on_pause_kept w : Inv w -> kept w (state_after _on_pause w).
Proof.
  intros H. open_inv w H. unfold _on_pause. run.
  destruct playing; run; [|done]. destruct paused; run; done.
Qed.

Lemma on_stop_kept w : Inv w -> kept w (state_after _on_stop w).
Proof.
  intros H. open_inv w H. unfold _on_stop. run. destruct playing; run; done.
Qed.

Lemma select_kept v w :
  Inv w -> kept w (state_after (set_file_dropdown pg v) w).
Proof.
  intros H. open_inv w H. unfold set_file_dropdown. run.
  destruct (bool_decide (v ∈ opts.*2)) eqn:Ev; run; [|done].
  destruct (v =? fd) eqn:E; run; [done|].
  unfold _on_file_select. run.
  destruct (v =? idx) eqn:E'; run; [done|].
  destruct playing; run; [use_play_current_kept|done].
Qed.

Lemma on_next_kept w : Inv w -> kept w (state_after (_on_next pg) w).
Proof.
  intros H. open_inv w H. unfold _on_next. run.
  destruct (0 <? len files) eqn:E; [|lia]. run.
  rewrite py_mod_pos by lia. run.
  assert (Hm : 0 <= (idx + 1) `mod` len files < len files)
    by (apply Z.mod_pos_bound; lia).
  destruct playing; run; [use_play_current_kept|].
  match goal with |- context [set_file_dropdown pg ?v ?W] =>
    assert (HI : Inv W) by inv_done;
    destruct (select_kept v W HI) as [HK1 HK2]
  end.
  unfold state_after in *. split; [rewrite HK1|rewrite HK2]; done.
Qed.

Lemma on_prev_kept w : Inv w -> kept w (state_after (_on_prev pg) w).
Proof.
  intros H. open_inv w H. unfold _on_prev. run.
  destruct (0 <? len files) eqn:E; [|lia]. run.
  rewrite py_mod_pos by lia. run.
  assert (Hm : 0 <= (idx - 1) `mod` len files < len files)
    by (apply Z.mod_pos_bound; lia).
  destruct playing; run; [use_play_current_kept|].
  match goal with |- context [set_file_dropdown pg ?v ?W] =>
    assert (HI : Inv W) by inv_done;
    destruct (select_kept v W HI) as [HK1 HK2]
  end.
  unfold state_after in *. split; [rewrite HK1|rewrite HK2]; done.
Qed.

Lemma run_command_kept c w :
  Inv w -> kept w (state_after (run_command pg c) w).
Proof.
  intros H. destruct c; simpl.
  - by apply on_play_kept.
  - by apply on_pause_kept.
  - by apply on_stop_kept.
  - by apply on_next_kept.
  - by apply on_prev_kept.
  - by apply select_kept.
  - open_inv w H. unfold _on_volume_change. run. done.
  - open_inv w H. run. done.
Qed.

Lemma handle_event_kept event w :
  Inv w -> kept w (state_after (handle_event pg event) w).
Proof.
  intros H. pose proof (on_next_kept w H) as Hn.
  pose proof (on_stop_kept w H) as Hs.
  unfold state_after in *.
  open_inv w H. unfold handle_event. run.
  destruct (type event =? me); run; [|done].
  destruct playing; run; [|done].
  destruct paused; run; [done|].
  destruct ap; run; done.
Qed.

Lemma update_position_kept start_time w :
  Inv w -> kept w (state_after (update_position pg start_time) w).
Proof.
  intros H. open_inv w H. unfold update_position. run.
  destruct playing; run.
  2:{ destruct paused; run; done. }
  destruct paused; run; [done|].
  destruct (py_index_valid files idx Hi) as (f & Ef & _).
  destruct start_time as [t0|]; run; rewrite Ef; run.
  all: destruct (Qltb 0 (default 0%Q (ds !! f))); run; [|done].
  all: match goal with |- context [py_div ?a ?b] =>
         destruct (py_div a b) end; run; [|done].
  all: match goal with |- context [Qle_bool ?a ?b] =>
         destruct (Qle_bool a b) end; run; [|done].
  all: destruct ap; run; [|done].
  all: match goal with |- context [_on_next pg ?W] =>
         assert (HI : Inv W) by inv_done;
         destruct (on_next_kept W HI) as [HK1 HK2];
         unfold state_after in HK1, HK2;
         destruct (_on_next pg W) as [[[]|e] w']; done
       end.
Qed.

Lemma monitor_iteration_kept events start_time w :
  Inv w -> kept w (state_after (monitor_iteration pg events start_time) w).
Proof.
  intros H. unfold monitor_iteration, state_after, bind.
  pose proof (for_each_preserves (fun s => Inv s /\ kept w s)
                (handle_event pg) events) as H1.
  unfold state_after in H1. specialize (H1 ltac:(
    intros x s [HI HK]; split;
      [apply (handle_event_Inv x s HI)
      |exact (kept_trans _ _ _ HK (handle_event_kept x s HI))]) w
    (conj H (kept_refl w))).
  destruct (for_each events (handle_event pg) w) as [[[]|e] w1];
    [|by destruct H1].
  destruct H1 as [H1 K1].
  pose proof (update_position_Inv start_time w1 H1) as H2.
  pose proof (update_position_kept start_time w1 H1) as K2.
  unfold state_after in H2, K2.
  destruct (update_position pg start_time w1) as [[st|e] w2];
    [|exact (kept_trans _ _ _ K1 K2)].
  simpl in *. apply (kept_trans _ _ _ K1). apply (kept_trans _ _ _ K2).
  open_inv w2 H2. run. done.
Qed.

Lemma monitor_turn_config events w :
  Inv w ->
  config (monitor_turn pg events w) = config w
  /\ (should_stop_monitor (self w) = Some false -> monitor_started w ->
      monitor_started (monitor_turn pg events w)).
Proof.
  intros H. unfold monitor_turn, monitor_started.
  destruct (monitor w) as [|start_time| |] eqn:Em; try (rewrite ?Em; done).
  destruct (monitor_iteration_kept events start_time w H) as [Hm _].
  unfold state_after in Hm.
  assert (Hs : exists b, attr should_stop_monitor w = (Ok b, w)
                         /\ should_stop_monitor (self w) = Some b).
  { destruct H as (HL & _). open_world w HL. run. eauto. }
  destruct Hs as (b & -> & Hb). destruct b.
  - split; [done|]. intros ?. congruence.
  - destruct (monitor_iteration pg events start_time w) as [[st|e] w'];
      simpl in *; done.
Qed.

Lemma step_config w w' :
  step pg w w' -> Inv w ->
  config w' = config w
  /\ (should_stop_monitor (self w) = Some false -> monitor_started w ->
      monitor_started w').
Proof.
  intros Hs H. destruct Hs.
  - destruct (run_command_kept c w H) as [Hc Hm]. split; [done|].
    unfold monitor_started. by rewrite Hm.
  - by apply monitor_turn_config.
  - done.
Qed.

Lemma reachable_config folder t0 w :
  glob_wav fs folder <> [] -> reachable pg fs folder t0 w ->
  config w = config (state_after (__init__ pg fs folder) (fresh t0))
  /\ monitor_started w.
Proof.
  intros Hne Hr. unfold reachable in Hr.
  eapply (rtc_ind_r (fun w => Inv w
            /\ config w = config (state_after (__init__ pg fs folder) (fresh t0))
            /\ monitor_started w)) in Hr.
  - by destruct Hr as (_ & ? & ?).
  - split; [by apply init_Inv|]. split; [done|].
    destruct (init_state folder t0 Hne) as (ds & E & _).
    unfold state_after. by rewrite E.
  - intros w1 w2 _ Hs (HI & Hc & Hm).
    destruct (step_config w1 w2 Hs HI) as [Hc' Hm'].
    split; [by eapply step_Inv|]. split; [congruence|].
    apply Hm'; [|done].
    destruct (init_state folder t0 Hne) as (ds & E & _).
    unfold state_after in Hc. rewrite E in Hc. unfold config in Hc.
    simpl in Hc. congruence.
Qed.


(** *** Pausing again, later *)

Lemma on_pause_again_later w d :
  let w1 := state_after _on_pause w in
  state_after _on_pause (set_now (now w1 + d)%Q w1)
  = set_now (now w1 + d)%Q w1.
Proof.
  destruct w as [[a1 a2 a3 a4 a5 a6 a7 a8 a9 a10 a11 a12 a13] ml mc so t mon].
  destruct a4 as [[]|], a5 as [[]|]; reflexivity.
Qed.

(** *** Turns of the monitor *)

Lemma monitor_turn_idle events st w :
  Inv w -> monitor w = Running st ->
  should_stop_monitor (self w) = Some false ->
  phase w = Some Stopped \/ phase w = Some Paused ->
  exists st',
    monitor_turn pg events w
    = set_monitor (Running st') (set_now (now w + (1 # 10))%Q w)
    /\ (phase w = Some Paused -> st' = st).
Proof.
  intros H Hm Hs Hp. unfold monitor_turn. rewrite Hm.
  unfold attr at 1. rewrite Hs.
  unfold monitor_iteration, bind.
  rewrite for_each_noop by (intros; apply handle_event_not_playing; auto).
  open_inv w H. unfold phase in *. simpl in *.
  unfold update_position. run.
  destruct playing, paused; run; try (by destruct Hp); eexists; split;
    try reflexivity; done.
Qed.

Lemma monitor_turn_running t0 w f ds :
  Inv w -> phase w = Some Playing -> monitor w = Running (Some t0) ->
  should_stop_monitor (self w) = Some false ->
  current_track w f -> durations (self w) = Some ds ->
  (now w - t0 < default 0 (ds !! f))%Q \/ (default 0 (ds !! f) <= 0)%Q ->
  let w' := monitor_turn pg [] w in
  current_position (self w') = Some (now w - t0)%Q
  /\ monitor w' = Running (Some t0)
  /\ phase w' = Some Playing
  /\ current_index (self w') = current_index (self w)
  /\ mixer_calls w' = mixer_calls w
  /\ now w' = (now w + (1 # 10))%Q.
Proof.
  intros H Hp Hm Hs Ht Hds Hcase w'. subst w'.
  destruct (update_position_running t0 w f ds H Hp Ht Hds Hcase)
    as (E1 & E2 & E3 & E4 & E5 & E6).
  assert (Ea : attr should_stop_monitor w = (Ok false, w))
    by (unfold attr; by rewrite Hs).
  unfold monitor_turn. rewrite Hm, Ea.
  unfold monitor_iteration, bind. cbn [for_each]. unfold ret.
  destruct (update_position pg (Some t0) w) as [r w1]. simpl in *. subst r.
  unfold phase in *. destruct w1. simpl in *. subst. done.
Qed.

(** *** The volume *)

Lemma volume_then_play v w f :
  Inv w -> phase w = Some Stopped -> current_track w f ->
  load_ok pg f = true -> play_ok pg f = true ->
  let w1 := state_after (_on_volume_change v) w in
  let w2 := state_after (_on_play pg) w1 in
  volume (self w1) = Some v
  /\ phase w1 = Some Stopped
  /\ mixer_calls w1 = mixer_calls w ++ [MusicSetVolume v]
  /\ mixer_calls w2
     = mixer_calls w1 ++ [MusicStop; MusicLoad f; MusicSetVolume v; MusicPlay]
  /\ phase w2 = Some Playing.
Proof.
  intros H Hp (files' & idx' & Hf' & Hi' & Hge & Hl) Hlo Hpl w1 w2.
  subst w1 w2. open_inv w H. unfold phase in Hp. simpl in Hp.
  destruct playing; [by destruct paused|].
  unfold _on_volume_change. run. cbn [fst snd].
  unfold _on_play. run. unfold _play_current. run.
  destruct ((0 <=? idx) && (idx <? len files)) eqn:E; [|lia]. run.
  destruct (py_index_valid files idx Hi) as (f' & -> & Hl').
  assert (f' = f) as -> by congruence. run.
  rewrite Hlo. run. rewrite Hpl. run.
  destruct (paplay_present pg); run; cbn [fst snd];
    rewrite <- ?app_assoc; done.
Qed.

(** *** The dropdown while a track plays *)

Lemma play_current_dropdown position w :
  live w ->
  gui (self (state_after (_play_current pg position) w)) = gui (self w)
  \/ exists g name,
       gui (self w) = Some g
       /\ gui (self (state_after (_play_current pg position) w))
          = Some (w_current_file_label name g).
Proof.
  intros HL. open_world w HL. unfold _play_current. run.
  repeat (match goal with
          | |- context [if ?b then _ else _] => destruct b
          | |- context [match py_index ?l ?i with _ => _ end] =>
              destruct (py_index l i)
          end; run); cbn [fst snd]; (by left) || (right; by eexists _, _).
Qed.

Lemma on_next_playing_dropdown w :
  Inv w -> is_playing (self w) = Some true ->
  file_dropdown <$> gui (self (state_after (_on_next pg) w))
  = file_dropdown <$> gui (self w).
Proof.
  intros H Hp. open_inv w H. unfold _on_next. run.
  destruct (0 <? len files) eqn:E; [|lia]. run.
  rewrite py_mod_pos by lia. run.
  match goal with |- context [_play_current pg ?p ?W] =>
    assert (HL : live W) by live_done;
    destruct (play_current_dropdown p W HL) as [Eg|(g' & name & Eg & Eg')]
  end; unfold state_after in *.
  - apply (f_equal (fmap file_dropdown)) in Eg. exact Eg.
  - simpl in Eg. simplify_eq.
    apply (f_equal (fmap file_dropdown)) in Eg'. exact Eg'.
Qed.

Lemma select_starts_track v w files idx g f :
  Inv w ->
  file_list (self w) = Some files -> current_index (self w) = Some idx ->
  gui (self w) = Some g ->
  0 <= v < len files -> v <> idx -> v <> file_dropdown g ->
  files !! Z.to_nat v = Some f ->
  is_playing (self w) = Some true ->
  load_ok pg f = true -> play_ok pg f = true ->
  let w' := state_after (set_file_dropdown pg v) w in
  outcome (set_file_dropdown pg v) w = Ok tt
  /\ phase w' = Some Playing
  /\ current_position (self w') = Some 0%Q
  /\ current_file (self w') = Some (basename f).
Proof.
  intros H Hf Hi Hg Hv Hne Hfd Hl Hp Hlo Hpl w'. subst w'. open_inv w H.
  unfold set_file_dropdown. run.
  destruct (bool_decide (v ∈ opts.*2)) eqn:Ev; run.
  2:{ apply bool_decide_eq_false in Ev. exfalso. apply Ev. rewrite Ho.
      by apply elem_of_indices. }
  destruct (v =? _) eqn:E; [lia|]. run.
  unfold _on_file_select. run.
  match goal with |- context [if ?a =? ?b then false else true] =>
    destruct (a =? b) eqn:E'; [lia|] end.
  run.
  match goal with |- context [_play_current pg ?p ?W] =>
    assert (HI : Inv W) by inv_done;
    assert (Ht : current_track W f)
      by (eexists _, _; split; [reflexivity|]; split; [reflexivity|];
          split; [lia|done]);
    destruct (play_current_effect p W f HI Ht) as (rest & _ & Hok & _);
    destruct (Hok Hlo Hpl) as (E1 & E2 & E3 & E4)
  end.
  unfold state_after, outcome in *. done.
Qed.


(** *** The time text *)

Lemma minutes_seconds_floor (x : Q) :
  (0 <= x)%Q ->
  py_int (py_floordiv x 60) = Qfloor x `div` 60
  /\ py_int (py_fmod x 60) = Qfloor x `mod` 60.
Proof.
  intros Hx. destruct (minutes_seconds x Hx) as (Hm & Hs & E).
  split.
  - apply (Z.div_unique_pos (Qfloor x) 60 _ (py_int (py_fmod x 60))); lia.
  - apply (Z.mod_unique_pos (Qfloor x) 60 (py_int (py_floordiv x 60))); lia.
Qed.

Lemma time_text_floor (current total : Q) :
  (0 <= current)%Q -> (0 <= total)%Q ->
  time_text current total
  = fmt_d (Qfloor current `div` 60) +:+ ":"
    +:+ fmt_02d (Qfloor current `mod` 60) +:+ " / "
    +:+ fmt_d (Qfloor total `div` 60) +:+ ":"
    +:+ fmt_02d (Qfloor total `mod` 60).
Proof.
  intros Hc Ht. unfold time_text.
  destruct (minutes_seconds_floor current Hc) as [-> ->].
  destruct (minutes_seconds_floor total Ht) as [-> ->].
  reflexivity.
Qed.

(** *** Play from Stopped *)

Lemma on_play_stopped w :
  phase w = Some Stopped -> _on_play pg w = _play_current pg 0 w.
Proof.
  intros H. unfold phase in H.
  destruct (is_playing (self w)) as [[]|] eqn:E1; try done.
  - by destruct (is_paused (self w)) as [[]|].
  - unfold _on_play, bind, attr. by rewrite E1.
Qed.

Lemma get_wav_durations_lines w files :
  file_list (self w) = Some files ->
  exists ds,
    _get_wav_durations fs w
    = (Ok ds,
       set_stdout
         (stdout w ++
          omap (fun f =>
                  (fun e => "ファイル " +:+ f +:+ " の長さを取得できませんでした: "
                            +:+ exn_text fs e) <$> probe_error fs f) files) w)
    /\ map_Forall (fun _ d => (0 <= d)%Q) ds.
Proof.
  intros Hf. unfold _get_wav_durations, bind, attr. rewrite Hf.
  apply durations_loop_lines. apply map_Forall_empty.
Qed.


(** *** The end of a track, seen by a whole turn of the monitor *)

Lemma Qle_bool_false (a b : Q) : (b < a)%Q -> Qle_bool a b = false.
Proof.
  intros H. destruct (Qle_bool a b) eqn:E; [|done].
  apply Qle_bool_iff in E. lra.
Qed.

Lemma monitor_turn_notification_advance event start_time w files idx g f ds :
  Inv w -> phase w = Some Playing -> monitor w = Running start_time ->
  should_stop_monitor (self w) = Some false ->
  MUSIC_END (self w) = Some (type event) ->
  file_list (self w) = Some files -> current_index (self w) = Some idx ->
  gui (self w) = Some g -> autoplay_checkbox g = true ->
  files !! Z.to_nat ((idx + 1) `mod` len files) = Some f ->
  durations (self w) = Some ds ->
  match start_time with
  | None => True
  | Some t0 =>
      (now w - t0 < default 0 (ds !! f))%Q \/ (default 0 (ds !! f) <= 0)%Q
  end ->
  let w' := monitor_turn pg [event] w in
  current_index (self w') = Some ((idx + 1) `mod` len files)
  /\ phase w' = Some Playing.
Proof.
  intros H Hp Hm Hs Hme Hf Hi Hg Ha Hl Hds Hfresh w'. subst w'.
  destruct g as [opts' fd' vs' ap' lbl' bar' tl']. simpl in Ha. subst ap'.
  open_inv w H. unfold phase in Hp. simpl in Hp.
  destruct playing, paused; try done.
  unfold monitor_turn. simpl monitor. cbv beta iota.
  unfold monitor_iteration. run.
  unfold handle_event. run. rewrite Z.eqb_refl. run.
  unfold _on_next. run.
  destruct (0 <? len _) eqn:E; [|lia]. run.
  rewrite py_mod_pos by lia. run.
  unfold _play_current. run.
  match goal with |- context [(0 <=? ?a) && (?a <? ?b)] =>
    assert (Hm : 0 <= a < b) by (apply Z.mod_pos_bound; lia);
    destruct ((0 <=? a) && (a <? b)) eqn:E2; [|lia];
    destruct (py_index_valid _ a Hm) as (f' & Ef & Hl')
  end.
  run. rewrite Ef. assert (f' = f) as -> by congruence. run.
  destruct (load_ok pg f); run; [|done].
  destruct (play_ok pg f); run; [|done].
  unfold update_position.
  destruct (paplay_present pg); run.
  all: destruct start_time as [t0|]; run; rewrite Ef; run.
  all: destruct (Qltb 0 (default 0%Q (_ !! f))) eqn:Elt; run; [|done].
  all: apply Qltb_true in Elt; rewrite py_div_pos by done; run.
  all: rewrite Qle_bool_false; [run; done|].
  all: try (destruct Hfresh as [Hlt|Hle]; [exact Hlt|lra]).
  all: lra.
Qed.

Lemma monitor_turn_notification_stop event start_time w idx g :
  Inv w -> phase w = Some Playing -> monitor w = Running start_time ->
  should_stop_monitor (self w) = Some false ->
  MUSIC_END (self w) = Some (type event) ->
  current_index (self w) = Some idx ->
  gui (self w) = Some g -> autoplay_checkbox g = false ->
  let w' := monitor_turn pg [event] w in
  current_index (self w') = Some idx
  /\ phase w' = Some Stopped
  /\ monitor w' = Running None.
Proof.
  intros H Hp Hm Hs Hme Hi Hg Ha w'. subst w'.
  destruct g as [opts' fd' vs' ap' lbl' bar' tl']. simpl in Ha. subst ap'.
  open_inv w H. unfold phase in Hp. simpl in Hp.
  destruct playing, paused; try done.
  unfold monitor_turn. simpl monitor. cbv beta iota.
  unfold monitor_iteration. run.
  unfold handle_event. run. rewrite Z.eqb_refl. run.
  unfold _on_stop. run. unfold update_position. run. done.
Qed.

Lemma monitor_turn_track_over t0 w f total files idx g ds :
  Inv w -> phase w = Some Playing -> monitor w = Running (Some t0) ->
  should_stop_monitor (self w) = Some false ->
  current_track w f ->
  durations (self w) = Some ds -> ds !! f = Some total ->
  (0 < total)%Q -> (total <= now w - t0)%Q ->
  file_list (self w) = Some files -> current_index (self w) = Some idx ->
  gui (self w) = Some g ->
  let w' := monitor_turn pg [] w in
  phase w' = Some Playing
  /\ current_index (self w')
     = Some (if autoplay_checkbox g then (idx + 1) `mod` len files else idx).
Proof.
  intros H Hp Hm Hs Ht Hds Hlk Hpos Hover Hf Hi Hg w'. subst w'.
  pose proof (update_position_track_over t0 w f total files idx g ds
                H Hp Ht Hds Hlk Hpos Hover Hf Hi Hg) as (E1 & E2).
  assert (Ea : attr should_stop_monitor w = (Ok false, w))
    by (unfold attr; by rewrite Hs).
  unfold monitor_turn. rewrite Hm, Ea.
  unfold monitor_iteration, bind. cbn [for_each]. unfold ret.
  unfold state_after in E1, E2.
  destruct (update_position pg (Some t0) w) as [[st|e] w1]; simpl in *;
    unfold phase in *; destruct w1; simpl in *; done.
Qed.


End PygameResumeFacts.

(** ** [wav_player.py] *)

Section WavPlayerFacts.
Import WavPlayer.
Variable pg : Pygame.
Variable fs : FileSystem.

Ltac run :=
  cbv beta iota zeta delta
    [
     negb bind ret raise try_except get modify lift state_after outcome
     for_each folder_path file_list current_index is_playing is_paused
     volume current_file MUSIC_END gui dropdown_options file_dropdown
     volume_slider current_file_label progress_bar self music_loaded
     mixer_calls stdout now monitor a_folder_path a_file_list
     a_current_index a_is_playing a_is_paused a_volume a_current_file
     a_MUSIC_END a_gui w_dropdown_options w_file_dropdown
     w_volume_slider w_current_file_label w_progress_bar set_self
     set_music_loaded set_mixer_calls set_stdout set_now set_monitor
     attr setattr set_widget print time_sleep call music_load music_play
     playing_and_not_paused].

Ltac open_world w HL :=
  destruct HL as (?fp & ?files & ?idx & ?playing & ?paused & ?vol & ?cf
                  & ?me & ?g & HL);
  destruct w as [?o ?ml ?mc ?so ?t ?mon]; simpl in HL; subst; simpl in *;
  simplify_eq;
  try match goal with g : Widgets |- _ =>
    destruct g as [?opts ?fd ?vs ?lbl ?bar]; simpl in * end.

Ltac open_inv w H :=
  let HL := fresh "HL" in
  let Hi := fresh "Hi" in
  let Ho := fresh "Ho" in
  destruct H as (HL & (?files & ?idx & ?Hf & ?Hidx & Hi)
                 & (?files & ?g & ?Hf & ?Hg & Ho));
  open_world w HL.

Ltac live_done := unfold live; simpl; do 9 eexists; reflexivity.

Lemma wav_Inv_explicit fp files idx playing paused vol cf me g ml mc so t mon :
  0 <= idx < len files ->
  (dropdown_options g).*2 = Z.of_nat <$> seq 0 (length files) ->
  Inv (mkWorld (mkPlayer (Some fp) (Some files) (Some idx) (Some playing)
                  (Some paused) (Some vol) (Some cf) (Some me) (Some g))
         ml mc so t mon).
Proof.
  intros Hi Ho. split; [live_done|]. split.
  - exists files, idx. done.
  - exists files, g. done.
Qed.

Ltac inv_done :=
  (by apply wav_Inv_explicit) || (apply wav_Inv_explicit; simpl; (done || lia)).

Lemma wav_Inv_b_sound w : Inv_b w = true -> Inv w.
Proof.
  destruct w as [o ml mc so t mon]. unfold Inv_b. simpl.
  destruct o as [a1 a2 a3 a4 a5 a6 a7 a8 a9].
  destruct a1; [|done]. destruct a2 as [files|]; [|done].
  destruct a3 as [idx|]; [|done]. destruct a4; [|done]. destruct a5; [|done].
  destruct a6; [|done]. destruct a7; [|done]. destruct a8; [|done].
  destruct a9 as [gw|]; [|done].
  intros H. apply andb_prop in H as [H Ho]. apply bool_decide_eq_true in Ho.
  apply wav_Inv_explicit; [lia|done].
Qed.

Lemma wav_track_at_sound w f : track_at w = Some f -> current_track w f.
Proof.
  unfold track_at, current_track.
  destruct (file_list (self w)) as [files|]; [|done].
  destruct (current_index (self w)) as [idx|]; [|done].
  destruct (0 <=? idx) eqn:E; [|done]. intros H.
  exists files, idx. repeat split; [lia|done].
Qed.

Lemma wav_play_current_synced depth w :
  Inv w ->
  (file_dropdown <$> gui (self w)) = current_index (self w) ->
  let w' := state_after (_play_current pg fs (S depth)) w in
  Inv w' /\ same_playlist w w'
  /\ outcome (_play_current pg fs (S depth)) w = Ok tt
  /\ (file_dropdown <$> gui (self w')) = current_index (self w')
  /\ (is_playing (self w) = Some true -> is_playing (self w') = Some true).
Proof.
  intros H Hs w'. subst w'. open_inv w H.
  simpl _play_current. run.
  destruct ((0 <=? fd) && (fd <? len files)) eqn:E; [|lia]. run.
  destruct (py_index_valid files fd Hi) as (f & -> & _). run.
  destruct (load_ok pg f); run.
  2:{ split; [inv_done|done]. }
  destruct (play_ok pg f); run.
  2:{ split; [inv_done|done]. }
  unfold set_file_dropdown. run.
  destruct (bool_decide (fd ∈ opts.*2)) eqn:Ev; run.
  2:{ apply bool_decide_eq_false in Ev. exfalso. apply Ev. rewrite Ho.
      by apply elem_of_indices. }
  rewrite Z.eqb_refl. split; [inv_done|done].
Qed.
(** Two nested calls are all [_play_current] ever needs: the second one
    finds the dropdown already showing the current index. *)
Lemma wav_play_current_deep depth w :
  Inv w ->
  let w' := state_after (_play_current pg fs (S (S depth))) w in
  Inv w' /\ same_playlist w w'
  /\ outcome (_play_current pg fs (S (S depth))) w = Ok tt
  /\ (is_playing (self w) = Some true -> is_playing (self w') = Some true).
Proof.
  intros H w'. subst w'. open_inv w H.
  simpl _play_current. run.
  destruct ((0 <=? idx) && (idx <? len files)) eqn:E; [|lia]. run.
  destruct (py_index_valid files idx Hi) as (f & Ef & _). rewrite Ef. run.
  destruct (load_ok pg f) eqn:El; run.
  2:{ split; [inv_done|done]. }
  destruct (play_ok pg f) eqn:Ep; run.
  2:{ split; [inv_done|done]. }
  unfold set_file_dropdown. run.
  destruct (bool_decide (idx ∈ opts.*2)) eqn:Ev; run.
  2:{ apply bool_decide_eq_false in Ev. exfalso. apply Ev. rewrite Ho.
      by apply elem_of_indices. }
  destruct (idx =? fd) eqn:Efd; run.
  { split; [inv_done|done]. }
  unfold on_file_select_with. run.
  rewrite E. run. rewrite Ef. run. rewrite El. run. rewrite Ep. run.
  rewrite Ev. run. rewrite Z.eqb_refl. run.
  split; [inv_done|done].
Qed.

Lemma wav_play_current_spec w :
  Inv w ->
  let w' := state_after (play_current pg fs) w in
  Inv w' /\ same_playlist w w'
  /\ outcome (play_current pg fs) w = Ok tt
  /\ (is_playing (self w) = Some true -> is_playing (self w') = Some true).
Proof. apply (wav_play_current_deep 998). Qed.

Lemma wav_file_select_same v w :
  Inv w -> current_index (self w) = Some v ->
  is_playing (self w) = Some false ->
  _on_file_select pg fs (Some v) w = (Ok tt, w).
Proof.
  intros H Hv Hp. open_inv w H.
  unfold _on_file_select, on_file_select_with. run. done.
Qed.

Lemma wav_on_next_effect w :
  Inv w ->
  let w' := state_after (_on_next pg fs) w in
  Inv w'
  /\ outcome (_on_next pg fs) w = Ok tt
  /\ is_playing (self w') = is_playing (self w)
  /\ monitor w' = monitor w
  /\ exists files idx,
       file_list (self w) = Some files /\ current_index (self w) = Some idx
       /\ file_list (self w') = Some files
       /\ current_index (self w') = Some ((idx + 1) `mod` len files).
Proof.
  intros H w'. subst w'. open_inv w H.
  unfold _on_next. run.
  destruct (0 <? len files) eqn:E; [|lia]. run.
  rewrite py_mod_pos by lia. run.
  assert (Hm : 0 <= (idx + 1) `mod` len files < len files)
    by (apply Z.mod_pos_bound; lia).
  destruct playing; run.
  - match goal with |- context [play_current pg fs ?W] =>
      assert (HI : Inv W) by inv_done;
      destruct (wav_play_current_spec W HI) as (HI' & (Ef & Ei & Em) & Eo & Ep)
    end.
    unfold state_after, outcome in *. split; [done|]. split; [done|].
    split; [by apply Ep|]. split; [done|]. exists files, idx. done.
  - unfold set_file_dropdown. run.
    match goal with |- context [bool_decide ?P] =>
      destruct (bool_decide P) eqn:Ev end; run.
    2:{ apply bool_decide_eq_false in Ev. exfalso. apply Ev. rewrite Ho.
        by apply elem_of_indices. }
    match goal with |- context [?a =? fd] => destruct (a =? fd) eqn:Efd end;
      run.
    { split; [inv_done|]. do 3 (split; [done|]).
      exists files, idx. done. }
    rewrite wav_file_select_same; [| inv_done | done | done]. run.
    split; [inv_done|]. do 3 (split; [done|]).
    exists files, idx. done.
Qed.

Lemma wav_on_prev_effect w :
  Inv w ->
  let w' := state_after (_on_prev pg fs) w in
  Inv w'
  /\ outcome (_on_prev pg fs) w = Ok tt
  /\ is_playing (self w') = is_playing (self w)
  /\ monitor w' = monitor w
  /\ exists files idx,
       file_list (self w) = Some files /\ current_index (self w) = Some idx
       /\ file_list (self w') = Some files
       /\ current_index (self w') = Some ((idx - 1) `mod` len files).
Proof.
  intros H w'. subst w'. open_inv w H.
  unfold _on_prev. run.
  destruct (0 <? len files) eqn:E; [|lia]. run.
  rewrite py_mod_pos by lia. run.
  assert (Hm : 0 <= (idx - 1) `mod` len files < len files)
    by (apply Z.mod_pos_bound; lia).
  destruct playing; run.
  - match goal with |- context [play_current pg fs ?W] =>
      assert (HI : Inv W) by inv_done;
      destruct (wav_play_current_spec W HI) as (HI' & (Ef & Ei & Em) & Eo & Ep)
    end.
    unfold state_after, outcome in *. split; [done|]. split; [done|].
    split; [by apply Ep|]. split; [done|]. exists files, idx. done.
  - unfold set_file_dropdown. run.
    match goal with |- context [bool_decide ?P] =>
      destruct (bool_decide P) eqn:Ev end; run.
    2:{ apply bool_decide_eq_false in Ev. exfalso. apply Ev. rewrite Ho.
        by apply elem_of_indices. }
    match goal with |- context [?a =? fd] => destruct (a =? fd) eqn:Efd end;
      run.
    { split; [inv_done|]. do 3 (split; [done|]).
      exists files, idx. done. }
    rewrite wav_file_select_same; [| inv_done | done | done]. run.
    split; [inv_done|]. do 3 (split; [done|]).
    exists files, idx. done.
Qed.

Lemma wav_on_next_iterated w files idx (k : nat) :
  Inv w ->
  file_list (self w) = Some files -> current_index (self w) = Some idx ->
  let w' := Nat.iter k (state_after (_on_next pg fs)) w in
  Inv w' /\ file_list (self w') = Some files
  /\ current_index (self w') = Some ((idx + Z.of_nat k) `mod` len files).
Proof.
  intros H Hf Hi. induction k as [|k IH]; simpl.
  - split; [done|]. split; [done|]. rewrite Hi. f_equal.
    destruct H as (_ & (fl & i & ? & ? & ?) & _).
    assert (fl = files) as -> by congruence.
    assert (i = idx) as -> by congruence.
    rewrite Z.add_0_r, Z.mod_small; done.
  - destruct IH as (Hk & Hfk & Hik).
    destruct (wav_on_next_effect _ Hk)
      as (Hn & _ & _ & _ & fl & i & ? & ? & Hf' & Hi').
    assert (fl = files) as -> by congruence.
    assert (i = (idx + Z.of_nat k) `mod` len files) as -> by congruence.
    split; [done|]. split; [done|]. rewrite Hi'. f_equal.
    assert (0 < len files).
    { destruct H as (_ & (fl' & i' & ? & ? & ?) & _).
      assert (fl' = files) as -> by congruence. lia. }
    rewrite Zplus_mod_idemp_l. f_equal. lia.
Qed.

Lemma wav_next_closure w files idx :
  Inv w ->
  file_list (self w) = Some files -> current_index (self w) = Some idx ->
  current_index
    (self (Nat.iter (length files) (state_after (_on_next pg fs)) w))
  = Some idx
  /\ (idx = len files - 1 ->
      current_index (self (state_after (_on_next pg fs) w)) = Some 0)
  /\ (idx = 0 ->
      current_index (self (state_after (_on_prev pg fs) w))
      = Some (len files - 1)).
Proof.
  intros H Hf Hi.
  assert (Hr : 0 <= idx < len files).
  { destruct H as (_ & (fl & i & ? & ? & ?) & _).
    assert (fl = files) as -> by congruence.
    by assert (i = idx) as -> by congruence. }
  split; [|split].
  - destruct (wav_on_next_iterated w files idx (length files) H Hf Hi)
      as (_ & _ & ->).
    f_equal. fold (len files).
    rewrite <- (Z.mul_1_l (len files)) at 1. rewrite Z.mod_add by lia.
    by apply Z.mod_small.
  - intros ->.
    destruct (wav_on_next_effect w H)
      as (_ & _ & _ & _ & fl & i & ? & ? & _ & ->).
    assert (fl = files) as -> by congruence.
    assert (i = len files - 1) as -> by congruence.
    f_equal. replace (len files - 1 + 1) with (len files) by lia.
    apply Z.mod_same. lia.
  - intros ->.
    destruct (wav_on_prev_effect w H)
      as (_ & _ & _ & _ & fl & i & ? & ? & _ & ->).
    assert (fl = files) as -> by congruence.
    assert (i = 0) as -> by congruence.
    f_equal.
    replace (0 - 1) with (len files - 1 + (-1) * len files) by lia.
    rewrite Z.mod_add by lia. apply Z.mod_small. lia.
Qed.


(** *** Stop, then play *)

Lemma wav_on_stop_stopped w :
  is_playing (self w) = Some false -> _on_stop w = (Ok tt, w).
Proof. intros H. unfold _on_stop, bind, attr. by rewrite H. Qed.

Lemma wav_on_stop_effect w :
  Inv w -> is_playing (self w) = Some true ->
  let w' := state_after _on_stop w in
  Inv w' /\ outcome _on_stop w = Ok tt
  /\ phase w' = Some Stopped
  /\ display_cleared w'
  /\ current_index (self w') = current_index (self w)
  /\ file_list (self w') = file_list (self w)
  /\ mixer_calls w' = mixer_calls w ++ [MusicStop].
Proof.
  intros H Hp w'. subst w'. open_inv w H. unfold _on_stop. run.
  split; [inv_done|]. do 2 (split; [done|]).
  split; [|done]. eexists. split; [reflexivity|]. simpl. done.
Qed.

(** What one call of [_play_current] does first, whatever follows. *)
Lemma wav_play_current_effect_deep depth w f :
  Inv w -> current_track w f ->
  let w' := state_after (_play_current pg fs (S (S depth))) w in
  exists rest,
    mixer_calls w' = mixer_calls w ++ MusicLoad f :: rest
    /\ (load_ok pg f = true -> play_ok pg f = true ->
        phase w' = Some Playing
        /\ current_file (self w') = Some (basename f)
        /\ stdout w' = stdout w)
    /\ (load_ok pg f = false \/ play_ok pg f = false ->
        phase w' = phase w
        /\ exists e, stdout w' = stdout w ++
             ["ファイルの再生中にエラーが発生しました: " +:+ exn_text fs e]).
Proof.
  intros H (files' & idx' & Hf' & Hi' & Hge & Hl) w'. subst w'. open_inv w H.
  simpl _play_current. run.
  destruct ((0 <=? idx) && (idx <? len files)) eqn:E; [|lia]. run.
  destruct (py_index_valid files idx Hi) as (f' & Ef & Hl').
  assert (f' = f) as -> by congruence. rewrite Ef. run.
  destruct (load_ok pg f) eqn:El; run.
  2:{ eexists. split; [simpl; rewrite <- ?app_assoc; reflexivity|].
      split; [done|]. intros _. split; [done|]. by eexists. }
  destruct (play_ok pg f) eqn:Ep; run.
  2:{ eexists. split; [simpl; rewrite <- ?app_assoc; reflexivity|].
      split; [done|]. intros _. split; [done|]. by eexists. }
  unfold set_file_dropdown. run.
  destruct (bool_decide (idx ∈ opts.*2)) eqn:Ev; run.
  2:{ apply bool_decide_eq_false in Ev. exfalso. apply Ev. rewrite Ho.
      by apply elem_of_indices. }
  destruct (idx =? fd) eqn:Efd; run.
  { eexists. split; [simpl; rewrite <- ?app_assoc; reflexivity|].
    split; [done|]. by intros [?|?]. }
  unfold on_file_select_with. run.
  rewrite E. run. rewrite Ef. run. rewrite El. run. rewrite Ep. run.
  rewrite Ev. run. rewrite Z.eqb_refl. run.
  eexists. split; [simpl; rewrite <- ?app_assoc; reflexivity|].
  split; [done|]. by intros [?|?].
Qed.

Lemma wav_play_current_effect w f :
  Inv w -> current_track w f ->
  let w' := state_after (play_current pg fs) w in
  exists rest,
    mixer_calls w' = mixer_calls w ++ MusicLoad f :: rest
    /\ (load_ok pg f = true -> play_ok pg f = true ->
        phase w' = Some Playing
        /\ current_file (self w') = Some (basename f)
        /\ stdout w' = stdout w)
    /\ (load_ok pg f = false \/ play_ok pg f = false ->
        phase w' = phase w
        /\ exists e, stdout w' = stdout w ++
             ["ファイルの再生中にエラーが発生しました: " +:+ exn_text fs e]).
Proof. apply (wav_play_current_effect_deep 998). Qed.

Lemma wav_stop_then_play w f :
  Inv w -> is_playing (self w) = Some true -> current_track w f ->
  let w1 := state_after _on_stop w in
  let w2 := state_after (_on_play pg fs) w1 in
  phase w1 = Some Stopped
  /\ display_cleared w1
  /\ current_index (self w1) = current_index (self w)
  /\ (exists rest, mixer_calls w2 = mixer_calls w1 ++ MusicLoad f :: rest)
  /\ (load_ok pg f = true -> play_ok pg f = true ->
      phase w2 = Some Playing /\ current_track w2 f
      /\ current_file (self w2) = Some (basename f)
      /\ current_index (self w2) = current_index (self w)).
Proof.
  intros H Hp Ht w1 w2.
  destruct (wav_on_stop_effect w H Hp) as (H1 & _ & Hph & Hd & Hi & Hfl & _).
  fold w1 in H1, Hph, Hd, Hi, Hfl.
  assert (Ht1 : current_track w1 f).
  { destruct Ht as (files & idx & ? & ? & ? & ?). exists files, idx.
    rewrite Hfl, Hi. done. }
  assert (Hw2 : w2 = state_after (play_current pg fs) w1).
  { subst w2. unfold state_after, _on_play, bind, attr.
    unfold phase in Hph. destruct (is_playing (self w1)) as [[]|]; try done.
    destruct (is_paused (self w1)) as [[]|]; done. }
  destruct (wav_play_current_effect w1 f H1 Ht1) as (rest & Hc & Hok & _).
  destruct (wav_play_current_spec w1 H1) as (_ & (Ef & Ei & _) & _).
  rewrite <- Hw2 in *.
  do 3 (split; [done|]). split; [eauto|].
  intros Hl Hpl. destruct (Hok Hl Hpl) as (? & ? & _).
  split; [done|]. split; [|split; [done | congruence]].
  destruct Ht1 as (files & idx & ? & ? & ? & ?). exists files, idx.
  rewrite Ef, Ei. done.
Qed.

(** *** The monitor loop *)

Lemma wav_play_current_keeps_Playing w :
  Inv w -> phase w = Some Playing ->
  phase (state_after (play_current pg fs) w) = Some Playing.
Proof.
  intros H Hp.
  destruct H as (HL & (files & idx & Hf & Hi & Hr) & Ho).
  destruct (py_index_valid files idx Hr) as (f & _ & Hl).
  assert (Ht : current_track w f) by (exists files, idx; repeat split; [done..|lia|done]).
  destruct (wav_play_current_effect w f (conj HL (conj (ex_intro _ files (ex_intro _ idx (conj Hf (conj Hi Hr)))) Ho)) Ht)
    as (rest & _ & Hok & Hfail).
  destruct (load_ok pg f) eqn:El; [|rewrite <- Hp; apply Hfail; auto].
  destruct (play_ok pg f) eqn:Ep; [|rewrite <- Hp; apply Hfail; auto].
  by apply Hok.
Qed.

Lemma wav_handle_event_spec event w :
  Inv w ->
  let w' := state_after (handle_event pg fs event) w in
  Inv w' /\ outcome (handle_event pg fs event) w = Ok tt
  /\ monitor w' = monitor w.
Proof.
  intros H w'. subst w'.
  destruct (wav_on_next_effect w H) as (Hn & Ho & _ & Hm & _).
  unfold state_after, outcome in *.
  open_inv w H. unfold handle_event. run.
  destruct (type event =? me); run; [|split; [inv_done|done]].
  destruct playing; run; [|split; [inv_done|done]].
  destruct paused; run; [split; [inv_done|done]|].
  done.
Qed.

(** A [MUSIC_END] event taken from the queue while Playing: this variant
    has no autoplay switch and always advances. *)
Lemma wav_handle_event_music_end event w files idx :
  Inv w -> phase w = Some Playing ->
  MUSIC_END (self w) = Some (type event) ->
  file_list (self w) = Some files -> current_index (self w) = Some idx ->
  let w' := state_after (handle_event pg fs event) w in
  current_index (self w') = Some ((idx + 1) `mod` len files)
  /\ phase w' = Some Playing.
Proof.
  intros H Hp Hme Hf Hi w'. subst w'.
  destruct (wav_on_next_effect w H) as (_ & _ & _ & _ & fl & i & ? & ? & _ & Hn).
  assert (fl = files) as -> by congruence. assert (i = idx) as -> by congruence.
  assert (Hnp : phase (state_after (_on_next pg fs) w) = Some Playing).
  { clear Hn. open_inv w H. unfold phase in Hp. simpl in Hp.
    destruct playing, paused; try done.
    unfold _on_next. run.
    destruct (0 <? len _) eqn:E; [|lia]. run.
    rewrite py_mod_pos by lia. run.
    match goal with |- context [play_current pg fs ?W] =>
      apply (wav_play_current_keeps_Playing W); [|done] end.
    apply wav_Inv_explicit; [|done]. apply Z.mod_pos_bound. lia. }
  unfold state_after in *.
  open_inv w H. unfold phase in Hp. simpl in Hp.
  destruct playing, paused; try done.
  unfold handle_event. run. rewrite Z.eqb_refl. run. done.
Qed.



(** *** The constructor over an empty folder *)



Lemma wav_init_Inv folder t0 :
  glob_wav fs folder <> [] ->
  Inv (state_after (__init__ pg fs folder) (fresh t0)).
Proof.
  intros Hne. unfold __init__, fresh, blank. run.
  destruct (sorted (glob_wav fs folder)) as [|f files] eqn:Es.
  { apply (proj1 (sorted_nil_iff _)) in Es. contradiction. }
  run. unfold _create_gui, start_monitor. run.
  apply wav_Inv_explicit.
  - unfold len. simpl. lia.
  - apply (options_indices (f :: files) 0).
Qed.

(** *** Pause and resume *)

Lemma wav_pause_then_play w :
  phase w = Some Playing ->
  _on_pause w = (Ok tt,
                 set_self (a_is_paused (Some true) (self w))
                   (set_mixer_calls (mixer_calls w ++ [MusicPause]) w))
  /\ _on_play pg fs (state_after _on_pause w)
     = (Ok tt, set_mixer_calls (mixer_calls w ++ [MusicPause; MusicUnpause]) w).
Proof.
  intros Hp. unfold phase in Hp.
  destruct w as [[a1 a2 a3 a4 a5 a6 a7 a8 a9] ml mc so t mon]. simpl in Hp.
  destruct a4 as [[]|], a5 as [[]|]; try done.
  unfold _on_pause, _on_play. run. cbn [fst snd]. run.
  by rewrite <- app_assoc.
Qed.

Lemma wav_on_play_playing w :
  phase w = Some Playing -> _on_play pg fs w = (Ok tt, w).
Proof.
  intros H. unfold phase in H.
  destruct (is_playing (self w)) as [[]|] eqn:E1; try done.
  destruct (is_paused (self w)) as [[]|] eqn:E2; try done.
  unfold _on_play, bind, attr. rewrite E1. simpl. by rewrite E2.
Qed.

Lemma wav_on_pause_not_playing w :
  phase w = Some Stopped \/ phase w = Some Paused ->
  _on_pause w = (Ok tt, w).
Proof.
  intros H. unfold phase in H.
  destruct (is_playing (self w)) as [[]|] eqn:E1;
    [|unfold _on_pause, bind, attr; by rewrite E1|by destruct H].
  destruct (is_paused (self w)) as [[]|] eqn:E2; [|by destruct H..].
  unfold _on_pause, bind, attr. rewrite E1. simpl. by rewrite E2.
Qed.

(** *** How often [_play_current] asks the engine for the track *)

Lemma wav_play_current_loads depth w files idx g f :
  Inv w ->
  file_list (self w) = Some files -> current_index (self w) = Some idx ->
  gui (self w) = Some g -> files !! Z.to_nat idx = Some f ->
  load_ok pg f = true -> play_ok pg f = true ->
  let w' := state_after (_play_current pg fs (S (S depth))) w in
  mixer_calls w'
  = mixer_calls w ++
    (if file_dropdown g =? idx then [MusicLoad f; MusicPlay]
     else [MusicLoad f; MusicPlay; MusicLoad f; MusicPlay])
  /\ (file_dropdown <$> gui (self w')) = Some idx
  /\ phase w' = Some Playing
  /\ current_file (self w') = Some (basename f).
Proof.
  intros H Hf Hi' Hg Hl Hlo Hpl w'. subst w'. open_inv w H.
  simpl _play_current. run.
  match goal with Hr : 0 <= ?i < len ?l |- _ =>
    destruct ((0 <=? i) && (i <? len l)) eqn:E; [|lia];
    destruct (py_index_valid l i Hr) as (f' & Ef & Hl')
  end.
  run. assert (f' = f) as -> by congruence. rewrite Ef. run.
  rewrite Hlo. run. rewrite Hpl. run.
  unfold set_file_dropdown. run.
  match goal with |- context [bool_decide ?P] =>
    destruct (bool_decide P) eqn:Ev end; run.
  2:{ apply bool_decide_eq_false in Ev. exfalso. apply Ev. rewrite Ho.
      by apply elem_of_indices. }
  match goal with |- context [if ?a =? fd then _ else _] =>
    rewrite (Z.eqb_sym fd a); destruct (a =? fd) eqn:Efd end; run.
  { apply Z.eqb_eq in Efd. subst fd. cbn [fst snd].
    rewrite <- !app_assoc. done. }
  unfold on_file_select_with. run.
  rewrite E. run. rewrite Ef. run. rewrite Hlo. run. rewrite Hpl. run.
  rewrite Ev. run. rewrite Z.eqb_refl. run. cbn [fst snd].
  rewrite <- !app_assoc. done.
Qed.

(** *** What the constructor leaves behind *)

Lemma wav_init_state folder t0 :
  glob_wav fs folder <> [] ->
  let files := sorted (glob_wav fs folder) in
  __init__ pg fs folder (fresh t0)
  = (Ok tt,
     mkWorld
       (mkPlayer (Some folder) (Some files) (Some 0) (Some false)
          (Some false) (Some (7 # 10)) (Some "")
          (Some (USEREVENT pg + 1))
          (Some (mkWidgets
                   (imap (fun i f => (basename f, Z.of_nat i)) files)
                   0 (7 # 10) "<b>再生ファイル:</b> なし" 0)))
       None
       [MixerInit; PygameInit; MusicSetVolume (7 # 10);
        SetEndEvent (USEREVENT pg + 1)]
       [] t0 (Running None)).
Proof.
  intros Hne files. subst files. unfold __init__, fresh, blank. run.
  destruct (sorted (glob_wav fs folder)) as [|f files] eqn:Es.
  { apply (proj1 (sorted_nil_iff _)) in Es. contradiction. }
  run. unfold _create_gui, start_monitor. run. done.
Qed.

(** *** Previous after next *)

Lemma wav_on_prev_after_next w idx :
  Inv w -> current_index (self w) = Some idx ->
  current_index
    (self (state_after (_on_prev pg fs) (state_after (_on_next pg fs) w)))
  = Some idx
  /\ current_index
       (self (state_after (_on_next pg fs) (state_after (_on_prev pg fs) w)))
     = Some idx.
Proof.
  intros H Hi.
  assert (Hr : exists files, file_list (self w) = Some files
                             /\ 0 <= idx < len files).
  { destruct H as (_ & (fl & i & ? & ? & ?) & _). exists fl.
    split; [done|]. by assert (i = idx) as <- by congruence. }
  destruct Hr as (files & Hf & Hr).
  split.
  - destruct (wav_on_next_effect w H)
      as (H1 & _ & _ & _ & fl & i & ? & ? & Hf1 & Hi1).
    assert (fl = files) as -> by congruence.
    assert (i = idx) as -> by congruence.
    destruct (wav_on_prev_effect _ H1) as (_ & _ & _ & _ & fl & i & ? & ? & _ & ->).
    assert (fl = files) as -> by congruence.
    assert (i = (idx + 1) `mod` len files) as -> by congruence.
    f_equal. rewrite Zminus_mod_idemp_l.
    replace (idx + 1 - 1) with idx by lia. by apply Z.mod_small.
  - destruct (wav_on_prev_effect w H)
      as (H1 & _ & _ & _ & fl & i & ? & ? & Hf1 & Hi1).
    assert (fl = files) as -> by congruence.
    assert (i = idx) as -> by congruence.
    destruct (wav_on_next_effect _ H1) as (_ & _ & _ & _ & fl & i & ? & ? & _ & ->).
    assert (fl = files) as -> by congruence.
    assert (i = (idx - 1) `mod` len files) as -> by congruence.
    f_equal. rewrite Zplus_mod_idemp_l.
    replace (idx - 1 + 1) with idx by lia. by apply Z.mod_small.
Qed.


(** *** The update of the progress bar, and a whole turn of the monitor *)

Lemma wav_update_progress_effect get_pos w :
  Inv w ->
  let r := update_progress fs get_pos w in
  r.1 = Ok tt
  /\ current_index (self r.2) = current_index (self w)
  /\ is_playing (self r.2) = is_playing (self w)
  /\ is_paused (self r.2) = is_paused (self w)
  /\ (r.2 = w \/ progress_in_range r.2)
  /\ (forall f rate n, current_track w f ->
        wavfile_read fs f = Ok (rate, n) -> rate = 0%N \/ n = 0%N -> r.2 = w)
  /\ (forall f e, current_track w f -> wavfile_read fs f = Raise e ->
        r.2 = w).
Proof.
  intros H r. subst r. open_inv w H. unfold update_progress. run.
  destruct playing; run; [|by repeat split; auto].
  destruct paused; run; [by repeat split; auto|].
  destruct (0 <? get_pos) eqn:Epos; run; [|by repeat split; auto].
  match goal with Hr : 0 <= ?i < len ?l |- _ =>
    destruct (py_index_valid l i Hr) as (f & Ef & Hl) end.
  rewrite Ef. run.
  assert (Htrack : forall f' (P : Prop),
            current_track
              (mkWorld (mkPlayer (Some fp) (Some files) (Some idx) (Some true)
                          (Some false) (Some vol) (Some cf) (Some me)
                          (Some (mkWidgets opts fd vs lbl bar)))
                 ml mc so t mon) f' ->
            (f' = f -> P) -> P).
  { intros f' P (fl & i & Hfl & Hi' & _ & Hl') HP. simpl in *. simplify_eq.
    apply HP. congruence. }
  destruct (wavfile_read fs f) as [[rate n]|e] eqn:Er; run.
  2:{ cbn [fst snd]. do 4 (split; [done|]). split; [by left|].
      split; intros; done. }
  simpl.
  destruct (py_div (inject_Z (Z.of_N n)) (inject_Z (Z.of_N rate)))
    as [seconds|e] eqn:Es; run.
  2:{ cbn [fst snd]. do 4 (split; [done|]). split; [by left|].
      split; intros; done. }
  destruct (py_div (inject_Z get_pos) (seconds * 1000)) as [ratio|e] eqn:Eq;
    run.
  2:{ cbn [fst snd]. do 4 (split; [done|]). split; [by left|].
      split; intros; done. }
  cbn [fst snd]. do 4 (split; [done|]).
  unfold py_div in Es, Eq.
  destruct (Qeq_bool (inject_Z (Z.of_N rate)) 0) eqn:E1; [done|].
  destruct (Qeq_bool (seconds * 1000) 0) eqn:E2; [done|].
  simplify_eq. apply Qeq_bool_neq in E1, E2.
  assert (Hrate : (0 < inject_Z (Z.of_N rate))%Q).
  { unfold Qlt, Qeq in *. simpl in *. lia. }
  assert (Hsec : (0 <= inject_Z (Z.of_N n) / inject_Z (Z.of_N rate))%Q)
    by apply duration_nonneg.
  split; [|split].
  - right. eexists. split; [reflexivity|]. simpl.
    apply percentage_in_range.
    + unfold Qle. simpl. lia.
    + apply Qle_lteq in Hsec as [Hlt|Heq]; [lra|]. exfalso. apply E2.
      rewrite <- Heq. lra.
  - intros f' rate' n' Ht Hr' Hz. apply (Htrack f' _ Ht). intros ->.
    rewrite Er in Hr'. simplify_eq. exfalso. destruct Hz as [->| ->].
    + apply E1. reflexivity.
    + apply E2. change (inject_Z (Z.of_N 0)) with 0%Q. unfold Qdiv.
      rewrite !Qmult_0_l. reflexivity.
  - intros f' e Ht Hr'. apply (Htrack f' _ Ht). intros ->. congruence.
Qed.

Lemma wav_monitor_turn_music_end event get_pos start_time w files idx :
  Inv w -> phase w = Some Playing -> monitor w = Running start_time ->
  MUSIC_END (self w) = Some (type event) ->
  file_list (self w) = Some files -> current_index (self w) = Some idx ->
  let w' := monitor_turn pg fs [event] get_pos w in
  current_index (self w') = Some ((idx + 1) `mod` len files)
  /\ phase w' = Some Playing.
Proof.
  intros H Hp Hm Hme Hf Hi w'. subst w'.
  unfold monitor_turn. rewrite Hm. unfold monitor_iteration, bind.
  set (w0 := set_now (now w + (1 # 10))%Q w).
  change (time_sleep (1 # 10) w) with (Ok tt, w0). cbv beta iota.
  assert (H0 : Inv w0) by (subst w0; open_inv w H; run; inv_done).
  assert (Hs0 : self w0 = self w) by reflexivity.
  destruct (wav_handle_event_spec event w0 H0) as (H1 & Ho & _).
  destruct (wav_handle_event_music_end event w0 files idx H0 Hp Hme Hf Hi)
    as (Ei & Ep).
  cbn [for_each]. unfold bind, ret, state_after, outcome in *.
  destruct (handle_event pg fs event w0) as [[[]|e] w1]; [|done].
  simpl in *.
  destruct (wav_update_progress_effect get_pos w1 H1)
    as (Eo & Ei2 & Ep2 & Eq2 & _).
  destruct (update_progress fs get_pos w1) as [[[]|e] w2]; [|done].
  simpl in *. unfold phase in *. rewrite Ei2, Ep2, Eq2. done.
Qed.


End WavPlayerFacts.

(** ** [vlc_wav_player.py] *)

Section VlcFacts.
Import Vlc.

Ltac run :=
  cbv beta iota zeta delta
    [
     negb bind ret raise try_except get modify lift state_after outcome
     for_each file_list current_index is_playing is_paused volume
     current_file gui dropdown_options file_dropdown volume_slider
     autoplay_checkbox current_file_label progress_bar time_label self
     vlc_calls a_file_list a_current_index a_is_playing a_is_paused
     a_volume a_current_file a_gui w_dropdown_options w_file_dropdown
     w_volume_slider w_autoplay_checkbox w_current_file_label
     w_progress_bar w_time_label set_self set_vlc_calls attr setattr
     set_widget call show_current_file].

Ltac open_world w HL :=
  destruct HL as (?files & ?idx & ?playing & ?paused & ?vol & ?cf & ?g & HL);
  destruct w as [?o ?vc]; simpl in HL; subst; simpl in *;
  simplify_eq;
  try match goal with g : Widgets |- _ =>
    destruct g as [?opts ?fd ?vs ?ap ?lbl ?bar ?tl]; simpl in * end.

Ltac open_inv w H :=
  let HL := fresh "HL" in
  let Hi := fresh "Hi" in
  destruct H as (HL & (?files & ?idx & ?Hf & ?Hidx & Hi));
  open_world w HL.

Ltac live_done := unfold live; simpl; do 7 eexists; reflexivity.

Lemma vlc_Inv_explicit files idx playing paused vol cf g vc :
  0 <= idx < len files ->
  Inv (mkWorld (mkPlayer (Some files) (Some idx) (Some playing) (Some paused)
                  (Some vol) (Some cf) (Some g)) vc).
Proof. intros Hi. split; [live_done|]. exists files, idx. done. Qed.

Lemma vlc_Inv_b_sound w : Inv_b w = true -> Inv w.
Proof.
  destruct w as [o vc]. unfold Inv_b. simpl.
  destruct o as [[files|] [idx|] [?|] [?|] [?|] [?|] [g|]]; try done.
  intros H. apply vlc_Inv_explicit. lia.
Qed.

Lemma vlc_track_at_sound w f : track_at w = Some f -> current_track w f.
Proof.
  unfold track_at, current_track.
  destruct (file_list (self w)) as [files|]; [|done].
  destruct (current_index (self w)) as [idx|]; [|done].
  destruct (0 <=? idx) eqn:E; [|done]. intros H.
  exists files, idx. repeat split; [lia|done].
Qed.

Lemma vlc_on_stop_stopped w :
  is_playing (self w) = Some false -> _on_stop w = (Ok tt, w).
Proof. intros H. unfold _on_stop, bind, attr. by rewrite H. Qed.

Lemma vlc_stop_then_play w f :
  Inv w -> is_playing (self w) = Some true -> current_track w f ->
  let w1 := state_after _on_stop w in
  let w2 := state_after _on_play w1 in
  phase w1 = Some Stopped
  /\ display_cleared w1
  /\ current_index (self w1) = current_index (self w)
  /\ vlc_calls w1 = vlc_calls w ++ [PlayerStop]
  /\ (exists idx, current_index (self w) = Some idx
        /\ vlc_calls w2 = vlc_calls w1 ++ [PlayItemAtIndex idx])
  /\ phase w2 = Some Playing /\ current_track w2 f
  /\ current_file (self w2) = Some (basename f)
  /\ current_index (self w2) = current_index (self w).
Proof.
  intros H Hp (files' & idx' & Hf' & Hi' & Hge & Hl) w1 w2. subst w1 w2.
  open_inv w H. unfold _on_stop. run. cbn [snd].
  unfold _on_play. run.
  match goal with Hr : 0 <= ?i < len ?l |- _ =>
    destruct (py_index_valid l i Hr) as (f' & -> & Hl') end.
  assert (f' = f) as -> by congruence. run.
  split; [done|]. split; [eexists; split; [reflexivity|done]|].
  do 2 (split; [done|]). split; [by eexists|]. split; [done|].
  split; [|done]. eexists _, _. done.
Qed.

Lemma vlc_on_next_effect w :
  Inv w ->
  let w' := state_after _on_next w in
  is_playing (self w') = is_playing (self w)
  /\ is_paused (self w') = is_paused (self w)
  /\ exists files idx,
       file_list (self w) = Some files /\ current_index (self w) = Some idx
       /\ file_list (self w') = Some files
       /\ current_index (self w') = Some ((idx + 1) `mod` len files).
Proof.
  intros H w'. subst w'. open_inv w H. unfold _on_next. run.
  destruct (0 <? len files) eqn:E; [|lia]. run.
  rewrite py_mod_pos by lia. run.
  assert (Hm : 0 <= (idx + 1) `mod` len files < len files)
    by (apply Z.mod_pos_bound; lia).
  destruct playing; run.
  - destruct (py_index_valid files _ Hm) as (f & -> & _). run.
    do 2 (split; [done|]). exists files, idx. done.
  - unfold set_file_dropdown. run.
    match goal with |- context [bool_decide ?P] => destruct (bool_decide P) end;
      run.
    2:{ do 2 (split; [done|]). exists files, idx. done. }
    match goal with |- context [?a =? fd] => destruct (a =? fd) end; run.
    { do 2 (split; [done|]). exists files, idx. done. }
    unfold _on_file_select. run. rewrite Z.eqb_refl. run.
    do 2 (split; [done|]). exists files, idx. done.
Qed.

(** The end-of-track callback. *)
Lemma vlc_on_end_reached_effect w files idx g :
  Inv w ->
  file_list (self w) = Some files -> current_index (self w) = Some idx ->
  gui (self w) = Some g ->
  let w' := state_after on_end_reached w in
  phase w' = phase w
  /\ current_index (self w')
     = Some (if autoplay_checkbox g then (idx + 1) `mod` len files else idx).
Proof.
  intros H Hf Hi Hg w'. subst w'.
  destruct (vlc_on_next_effect w H) as (Hp & Hq & fl & i & ? & ? & _ & Hn).
  assert (fl = files) as -> by congruence. assert (i = idx) as -> by congruence.
  unfold state_after, phase in *.
  destruct g as [opts fd vs ap lbl bar tl].
  unfold on_end_reached, bind, attr. rewrite Hg. simpl.
  destruct ap; [|done]. by rewrite Hp, Hq.
Qed.

(** *** Pause and resume *)

Lemma vlc_pause_then_play w :
  phase w = Some Playing ->
  _on_pause w = (Ok tt,
                 set_self (a_is_paused (Some true) (self w))
                   (set_vlc_calls (vlc_calls w ++ [SetPause true]) w))
  /\ _on_play (state_after _on_pause w)
     = (Ok tt,
        set_vlc_calls (vlc_calls w ++ [SetPause true; SetPause false]) w).
Proof.
  intros Hp. unfold phase in Hp.
  destruct w as [[a1 a2 a3 a4 a5 a6 a7] vc]. simpl in Hp.
  destruct a3 as [[]|], a4 as [[]|]; try done.
  unfold _on_pause, _on_play. run. cbn [fst snd]. run.
  by rewrite <- app_assoc.
Qed.

Lemma vlc_on_play_playing w :
  phase w = Some Playing -> _on_play w = (Ok tt, w).
Proof.
  intros H. unfold phase in H.
  destruct (is_playing (self w)) as [[]|] eqn:E1; try done.
  destruct (is_paused (self w)) as [[]|] eqn:E2; try done.
  unfold _on_play, bind, attr. rewrite E1. simpl. by rewrite E2.
Qed.

Lemma vlc_on_pause_not_playing w :
  phase w = Some Stopped \/ phase w = Some Paused ->
  _on_pause w = (Ok tt, w).
Proof.
  intros H. unfold phase in H.
  destruct (is_playing (self w)) as [[]|] eqn:E1;
    [|unfold _on_pause, bind, attr; by rewrite E1|by destruct H].
  destruct (is_paused (self w)) as [[]|] eqn:E2; [|by destruct H..].
  unfold _on_pause, bind, attr. rewrite E1. simpl. by rewrite E2.
Qed.

(** *** Stepping while a track plays *)

Lemma vlc_step_playing w files idx :
  Inv w -> is_playing (self w) = Some true ->
  file_list (self w) = Some files -> current_index (self w) = Some idx ->
  (forall f, files !! Z.to_nat ((idx + 1) `mod` len files) = Some f ->
     let w' := state_after _on_next w in
     outcome _on_next w = Ok tt
     /\ Inv w'
     /\ vlc_calls w' = vlc_calls w ++ [PlayItemAtIndex ((idx + 1) `mod` len files)]
     /\ current_index (self w') = Some ((idx + 1) `mod` len files)
     /\ current_file (self w') = Some (basename f)
     /\ (current_file_label <$> gui (self w'))
        = Some ("<b>再生ファイル:</b> " +:+ basename f)
     /\ phase w' = phase w)
  /\ (forall f, files !! Z.to_nat ((idx - 1) `mod` len files) = Some f ->
        let w' := state_after _on_prev w in
        outcome _on_prev w = Ok tt
        /\ Inv w'
        /\ vlc_calls w' = vlc_calls w ++ [PlayItemAtIndex ((idx - 1) `mod` len files)]
        /\ current_index (self w') = Some ((idx - 1) `mod` len files)
        /\ current_file (self w') = Some (basename f)
        /\ (current_file_label <$> gui (self w'))
           = Some ("<b>再生ファイル:</b> " +:+ basename f)
        /\ phase w' = phase w).
Proof.
  intros H Hp Hf Hi'. open_inv w H.
  match goal with Hr : 0 <= ?i < len ?l |- _ =>
    assert (Hn : 0 <= (i + 1) `mod` len l < len l)
      by (apply Z.mod_pos_bound; lia);
    assert (Hv : 0 <= (i - 1) `mod` len l < len l)
      by (apply Z.mod_pos_bound; lia);
    destruct (py_index_valid l _ Hn) as (fn & En & Hln);
    destruct (py_index_valid l _ Hv) as (fv & Ev & Hlv)
  end.
  split; intros f Hl.
  - assert (fn = f) as -> by congruence.
    unfold _on_next. run.
    destruct (0 <? len _) eqn:E; [|lia]. run.
    rewrite py_mod_pos by lia. run. rewrite En. run. cbn [fst snd].
    split; [done|]. split; [by apply vlc_Inv_explicit|]. done.
  - assert (fv = f) as -> by congruence.
    unfold _on_prev. run.
    destruct (0 <? len _) eqn:E; [|lia]. run.
    rewrite py_mod_pos by lia. run. rewrite Ev. run. cbn [fst snd].
    split; [done|]. split; [by apply vlc_Inv_explicit|]. done.
Qed.

(** *** The display update of the monitor *)

Lemma vlc_monitor_iteration_spec get_position get_length w :
  live w ->
  exists g,
    gui (self w) = Some g
    /\ monitor_iteration get_position get_length w
       = (Ok tt,
          if decide (is_playing (self w) = Some true /\ 0 < get_length)
          then set_self
                 (a_gui
                    (Some (w_time_label
                             (PygameResume.time_text
                                (get_position * (inject_Z get_length / 1000))
                                (inject_Z get_length / 1000))
                             (w_progress_bar (get_position * 100)%Q g)))
                    (self w)) w
          else w).
Proof.
  intros HL. open_world w HL. eexists. split; [done|].
  unfold monitor_iteration. run.
  destruct playing; run.
  2:{ rewrite decide_False; [done|]. by intros [? _]. }
  destruct (Qltb 0 (inject_Z get_length / 1000)) eqn:E; run.
  - apply Qltb_true in E. rewrite decide_True; [done|]. split; [done|].
    assert (Hq : (0 < inject_Z get_length)%Q).
    { apply Qmult_lt_r with (z := (/ 1000)%Q); [done|].
      unfold Qdiv in E. by rewrite Qmult_0_l. }
    change 0%Q with (inject_Z 0) in Hq. by rewrite <- Zlt_Qlt in Hq.
  - rewrite decide_False; [done|]. intros [_ Hpos].
    assert (Hq : Qltb 0 (inject_Z get_length / 1000) = true).
    { apply Qltb_true. unfold Qdiv.
      apply Qmult_lt_0_compat; [|done].
      change 0%Q with (inject_Z 0). by rewrite <- Zlt_Qlt. }
    congruence.
Qed.


(** *** Previous after next *)

Lemma vlc_on_next_index w :
  Inv w ->
  let w' := state_after _on_next w in
  Inv w'
  /\ exists files idx,
       file_list (self w) = Some files /\ current_index (self w) = Some idx
       /\ file_list (self w') = Some files
       /\ current_index (self w') = Some ((idx + 1) `mod` len files).
Proof.
  intros H w'. subst w'. open_inv w H. unfold _on_next. run.
  destruct (0 <? len _) eqn:E; [|lia]. run.
  rewrite py_mod_pos by lia. run.
  match goal with Hr : 0 <= ?i < len ?l |- _ =>
    assert (Hm : 0 <= (i + 1) `mod` len l < len l)
      by (apply Z.mod_pos_bound; lia);
    destruct (py_index_valid l _ Hm) as (f & Ef & _)
  end.
  destruct playing; run.
  - rewrite Ef. run. split; [by apply vlc_Inv_explicit|]. by eexists _, _.
  - unfold set_file_dropdown. run.
    match goal with |- context [bool_decide ?P] => destruct (bool_decide P) end;
      run.
    2:{ split; [by apply vlc_Inv_explicit|]. by eexists _, _. }
    match goal with |- context [?a =? fd] => destruct (a =? fd) end; run.
    { split; [by apply vlc_Inv_explicit|]. by eexists _, _. }
    unfold _on_file_select. run. rewrite Z.eqb_refl. run.
    split; [by apply vlc_Inv_explicit|]. by eexists _, _.
Qed.

Lemma vlc_on_prev_index w :
  Inv w ->
  let w' := state_after _on_prev w in
  Inv w'
  /\ exists files idx,
       file_list (self w) = Some files /\ current_index (self w) = Some idx
       /\ file_list (self w') = Some files
       /\ current_index (self w') = Some ((idx - 1) `mod` len files).
Proof.
  intros H w'. subst w'. open_inv w H. unfold _on_prev. run.
  destruct (0 <? len _) eqn:E; [|lia]. run.
  rewrite py_mod_pos by lia. run.
  match goal with Hr : 0 <= ?i < len ?l |- _ =>
    assert (Hm : 0 <= (i - 1) `mod` len l < len l)
      by (apply Z.mod_pos_bound; lia);
    destruct (py_index_valid l _ Hm) as (f & Ef & _)
  end.
  destruct playing; run.
  - rewrite Ef. run. split; [by apply vlc_Inv_explicit|]. by eexists _, _.
  - unfold set_file_dropdown. run.
    match goal with |- context [bool_decide ?P] => destruct (bool_decide P) end;
      run.
    2:{ split; [by apply vlc_Inv_explicit|]. by eexists _, _. }
    match goal with |- context [?a =? fd] => destruct (a =? fd) end; run.
    { split; [by apply vlc_Inv_explicit|]. by eexists _, _. }
    unfold _on_file_select. run. rewrite Z.eqb_refl. run.
    split; [by apply vlc_Inv_explicit|]. by eexists _, _.
Qed.

Lemma vlc_on_prev_after_next w idx :
  Inv w -> current_index (self w) = Some idx ->
  current_index (self (state_after _on_prev (state_after _on_next w)))
  = Some idx
  /\ current_index (self (state_after _on_next (state_after _on_prev w)))
     = Some idx.
Proof.
  intros H Hi.
  assert (Hr : exists files, file_list (self w) = Some files
                             /\ 0 <= idx < len files).
  { destruct H as (_ & (fl & i & ? & ? & ?)). exists fl.
    split; [done|]. by assert (i = idx) as <- by congruence. }
  destruct Hr as (files & Hf & Hr).
  split.
  - destruct (vlc_on_next_index w H) as (H1 & fl & i & ? & ? & Hf1 & Hi1).
    assert (fl = files) as -> by congruence.
    assert (i = idx) as -> by congruence.
    destruct (vlc_on_prev_index _ H1) as (_ & fl & i & ? & ? & _ & ->).
    assert (fl = files) as -> by congruence.
    assert (i = (idx + 1) `mod` len files) as -> by congruence.
    f_equal. rewrite Zminus_mod_idemp_l.
    replace (idx + 1 - 1) with idx by lia. by apply Z.mod_small.
  - destruct (vlc_on_prev_index w H) as (H1 & fl & i & ? & ? & Hf1 & Hi1).
    assert (fl = files) as -> by congruence.
    assert (i = idx) as -> by congruence.
    destruct (vlc_on_next_index _ H1) as (_ & fl & i & ? & ? & _ & ->).
    assert (fl = files) as -> by congruence.
    assert (i = (idx - 1) `mod` len files) as -> by congruence.
    f_equal. rewrite Zplus_mod_idemp_l.
    replace (idx - 1 + 1) with idx by lia. by apply Z.mod_small.
Qed.


End VlcFacts.

(** * The claims *)

(** C7.  Issuing [stop()] while the controller is already Stopped is a
    no-op in each of the three variants: the handler returns normally and
    the whole world is unchanged, so no display field (file label,
    progress bar, time text) changes and the engine receives no call. *)
Theorem stop_while_stopped_is_noop
    (w1 : PygameResume.World) (w2 : WavPlayer.World) (w3 : Vlc.World) :
  PygameResume.phase w1 = Some Stopped ->
  WavPlayer.phase w2 = Some Stopped ->
  Vlc.phase w3 = Some Stopped ->
  PygameResume._on_stop w1 = (Ok tt, w1)
  /\ WavPlayer._on_stop w2 = (Ok tt, w2)
  /\ Vlc._on_stop w3 = (Ok tt, w3).
Proof.
  intros H1 H2 H3. split; [|split].
  - apply on_stop_stopped. unfold PygameResume.phase in H1.
    destruct (PygameResume.is_playing (PygameResume.self w1)) as [[]|];
      try done.
    by destruct (PygameResume.is_paused (PygameResume.self w1)) as [[]|].
  - apply wav_on_stop_stopped. unfold WavPlayer.phase in H2.
    destruct (WavPlayer.is_playing (WavPlayer.self w2)) as [[]|]; try done.
    by destruct (WavPlayer.is_paused (WavPlayer.self w2)) as [[]|].
  - apply vlc_on_stop_stopped. unfold Vlc.phase in H3.
    destruct (Vlc.is_playing (Vlc.self w3)) as [[]|]; try done.
    by destruct (Vlc.is_paused (Vlc.self w3)) as [[]|].
Qed.

Lemma stop_while_stopped_is_noop_witness :
  let w1 := state_after
              (PygameResume.__init__ Scenario.engine Scenario.two_tracks
                 "outputs") (PygameResume.fresh 1000) in
  PygameResume._on_stop w1 = (Ok tt, w1)
  /\ WavPlayer._on_stop Scenario.wav_constructed
     = (Ok tt, Scenario.wav_constructed)
  /\ Vlc._on_stop Scenario.vlc_stopped = (Ok tt, Scenario.vlc_stopped).
Proof.
  intros w1.
  apply (stop_while_stopped_is_noop w1 Scenario.wav_constructed
           Scenario.vlc_stopped); vm_compute; reflexivity.
Defined.

(** C10.  [stop()] issued while Playing or Paused puts the controller in
    Stopped, clears the position and the display fields and leaves the
    current track index unchanged, so that the [play()] that follows asks
    the engine for the track that was active before the stop and, when
    the engine starts it, the controller is Playing that same track.
    Stated for the three variants ([wav_player] keeps no position and
    has no time text). *)
Theorem stop_keeps_current_track (pg : Pygame) (fs : FileSystem)
    (w1 : PygameResume.World) (w2 : WavPlayer.World) (w3 : Vlc.World)
    (f1 f2 f3 : string) :
  PygameResume.Inv w1 -> WavPlayer.Inv w2 -> Vlc.Inv w3 ->
  PygameResume.is_playing (PygameResume.self w1) = Some true ->
  WavPlayer.is_playing (WavPlayer.self w2) = Some true ->
  Vlc.is_playing (Vlc.self w3) = Some true ->
  PygameResume.current_track w1 f1 ->
  WavPlayer.current_track w2 f2 ->
  Vlc.current_track w3 f3 ->
  (let s := state_after PygameResume._on_stop w1 in
   let p := state_after (PygameResume._on_play pg) s in
   PygameResume.phase s = Some Stopped
   /\ PygameResume.current_position (PygameResume.self s) = Some 0%Q
   /\ PygameResume.display_cleared s
   /\ PygameResume.current_index (PygameResume.self s)
      = PygameResume.current_index (PygameResume.self w1)
   /\ (exists rest,
         PygameResume.mixer_calls p
         = PygameResume.mixer_calls s ++ MusicStop :: MusicLoad f1 :: rest)
   /\ (load_ok pg f1 = true -> play_ok pg f1 = true ->
       PygameResume.phase p = Some Playing
       /\ PygameResume.current_track p f1))
  /\ (let s := state_after WavPlayer._on_stop w2 in
      let p := state_after (WavPlayer._on_play pg fs) s in
      WavPlayer.phase s = Some Stopped
      /\ WavPlayer.display_cleared s
      /\ WavPlayer.current_index (WavPlayer.self s)
         = WavPlayer.current_index (WavPlayer.self w2)
      /\ (exists rest,
            WavPlayer.mixer_calls p
            = WavPlayer.mixer_calls s ++ MusicLoad f2 :: rest)
      /\ (load_ok pg f2 = true -> play_ok pg f2 = true ->
          WavPlayer.phase p = Some Playing
          /\ WavPlayer.current_track p f2))
  /\ (let s := state_after Vlc._on_stop w3 in
      let p := state_after Vlc._on_play s in
      Vlc.phase s = Some Stopped
      /\ Vlc.display_cleared s
      /\ Vlc.current_index (Vlc.self s) = Vlc.current_index (Vlc.self w3)
      /\ (exists idx,
            Vlc.current_index (Vlc.self w3) = Some idx
            /\ Vlc.vlc_calls p = Vlc.vlc_calls s ++ [Vlc.PlayItemAtIndex idx])
      /\ Vlc.phase p = Some Playing
      /\ Vlc.current_track p f3).
Proof.
  intros I1 I2 I3 P1 P2 P3 T1 T2 T3. split; [|split].
  - destruct (stop_then_play pg w1 f1 I1 P1 T1)
      as (? & ? & ? & ? & ? & H). do 5 (split; [done|]).
    intros Hl Hp. destruct (H Hl Hp) as (? & ? & _). done.
  - destruct (wav_stop_then_play pg fs w2 f2 I2 P2 T2)
      as (? & ? & ? & ? & H). do 4 (split; [done|]).
    intros Hl Hp. destruct (H Hl Hp) as (? & ? & _). done.
  - destruct (vlc_stop_then_play w3 f3 I3 P3 T3)
      as (? & ? & ? & _ & ? & ? & ? & _). done.
Qed.

Lemma stop_keeps_current_track_witness :
  let w2 := state_after
              (WavPlayer._on_play Scenario.engine Scenario.two_tracks)
              Scenario.wav_constructed in
  PygameResume.current_index
    (PygameResume.self (state_after PygameResume._on_stop Scenario.playing_a))
  = Some 0
  /\ WavPlayer.phase
       (state_after (WavPlayer._on_play Scenario.engine Scenario.two_tracks)
          (state_after WavPlayer._on_stop w2)) = Some Playing
  /\ Vlc.current_track
       (state_after Vlc._on_play
          (state_after Vlc._on_stop Scenario.vlc_playing_a))
       "outputs/a.wav".
Proof.
  intros w2.
  assert (I1 : PygameResume.Inv Scenario.playing_a)
    by (apply Inv_b_sound; vm_compute; reflexivity).
  assert (I2 : WavPlayer.Inv w2)
    by (apply wav_Inv_b_sound; vm_compute; reflexivity).
  assert (I3 : Vlc.Inv Scenario.vlc_playing_a)
    by (apply vlc_Inv_b_sound; vm_compute; reflexivity).
  assert (T1 : PygameResume.current_track Scenario.playing_a "outputs/a.wav")
    by (apply track_at_sound; vm_compute; reflexivity).
  assert (T2 : WavPlayer.current_track w2 "outputs/a.wav")
    by (apply wav_track_at_sound; vm_compute; reflexivity).
  assert (T3 : Vlc.current_track Scenario.vlc_playing_a "outputs/a.wav")
    by (apply vlc_track_at_sound; vm_compute; reflexivity).
  destruct (stop_keeps_current_track Scenario.engine Scenario.two_tracks
              Scenario.playing_a w2 Scenario.vlc_playing_a
              "outputs/a.wav" "outputs/a.wav" "outputs/a.wav"
              I1 I2 I3 eq_refl eq_refl eq_refl T1 T2 T3)
    as (H1 & H2 & H3).
  split; [|split].
  - destruct H1 as (_ & _ & _ & H1 & _). exact H1.
  - destruct H2 as (_ & _ & _ & _ & H2). apply H2; reflexivity.
  - destruct H3 as (_ & _ & _ & _ & _ & H3). exact H3.
Defined.

(** C4.  For a playlist of length N >= 1 and any start index, [next()]
    applied N times brings the current index back to the start index;
    [next()] from the last index gives index 0 and [previous()] from
    index 0 gives index N-1 (modulo, not clamping).  Stated for
    [pygame_resume_player] and [wav_player]; the index moves in the same
    way whether or not the engine manages to start the new track. *)
Theorem next_wraps_around (pg : Pygame) (fs : FileSystem)
    (w1 : PygameResume.World) (files1 : list string) (idx1 : Z)
    (w2 : WavPlayer.World) (files2 : list string) (idx2 : Z) :
  PygameResume.Inv w1 ->
  PygameResume.file_list (PygameResume.self w1) = Some files1 ->
  PygameResume.current_index (PygameResume.self w1) = Some idx1 ->
  WavPlayer.Inv w2 ->
  WavPlayer.file_list (WavPlayer.self w2) = Some files2 ->
  WavPlayer.current_index (WavPlayer.self w2) = Some idx2 ->
  (PygameResume.current_index
     (PygameResume.self
        (Nat.iter (length files1) (state_after (PygameResume._on_next pg)) w1))
   = Some idx1
   /\ (idx1 = len files1 - 1 ->
       PygameResume.current_index
         (PygameResume.self (state_after (PygameResume._on_next pg) w1))
       = Some 0)
   /\ (idx1 = 0 ->
       PygameResume.current_index
         (PygameResume.self (state_after (PygameResume._on_prev pg) w1))
       = Some (len files1 - 1)))
  /\ (WavPlayer.current_index
        (WavPlayer.self
           (Nat.iter (length files2) (state_after (WavPlayer._on_next pg fs))
              w2))
      = Some idx2
      /\ (idx2 = len files2 - 1 ->
          WavPlayer.current_index
            (WavPlayer.self (state_after (WavPlayer._on_next pg fs) w2))
          = Some 0)
      /\ (idx2 = 0 ->
          WavPlayer.current_index
            (WavPlayer.self (state_after (WavPlayer._on_prev pg fs) w2))
          = Some (len files2 - 1))).
Proof.
  intros I1 F1 X1 I2 F2 X2. split.
  - by apply next_closure.
  - by apply wav_next_closure.
Qed.

Lemma next_wraps_around_witness :
  PygameResume.current_index
    (PygameResume.self
       (Nat.iter 2 (state_after (PygameResume._on_next Scenario.engine))
          Scenario.playing_a))
  = Some 0
  /\ WavPlayer.current_index
       (WavPlayer.self
          (state_after
             (WavPlayer._on_prev Scenario.engine Scenario.two_tracks)
             Scenario.wav_constructed))
     = Some 1.
Proof.
  assert (I1 : PygameResume.Inv Scenario.playing_a)
    by (apply Inv_b_sound; vm_compute; reflexivity).
  assert (I2 : WavPlayer.Inv Scenario.wav_constructed)
    by (apply wav_Inv_b_sound; vm_compute; reflexivity).
  destruct (next_wraps_around Scenario.engine Scenario.two_tracks
              Scenario.playing_a ["outputs/a.wav"; "outputs/b.wav"] 0
              Scenario.wav_constructed ["outputs/a.wav"; "outputs/b.wav"] 0
              I1 eq_refl eq_refl I2 eq_refl eq_refl)
    as ((H1 & _) & (_ & _ & H2)).
  split; [exact H1 | exact (H2 eq_refl)].
Defined.

(** C8.  In every reachable state of a controller built over a non-empty
    playlist, a lifecycle phase of Playing or Paused implies
    [0 <= current_index < len(file_list)], and the state every command
    (play, pause, stop, next, previous, select, volume, autoplay) leaves
    behind satisfies the same.  Reachable states are those obtained from
    the constructor by commands of the control surface, turns of the
    monitor loop and the passing of time. *)
Theorem playing_or_paused_index_valid (pg : Pygame) (fs : FileSystem)
    (folder : string) (t0 : Q) (w : PygameResume.World) :
  glob_wav fs folder <> [] ->
  PygameResume.reachable pg fs folder t0 w ->
  (PygameResume.phase w = Some Playing \/ PygameResume.phase w = Some Paused ->
   PygameResume.index_valid w)
  /\ forall c : PygameResume.Command,
       let w' := state_after (PygameResume.run_command pg c) w in
       PygameResume.phase w' = Some Playing
       \/ PygameResume.phase w' = Some Paused ->
       PygameResume.index_valid w'.
Proof.
  intros Hne Hr. pose proof (reachable_Inv pg fs folder t0 w Hne Hr) as H.
  split.
  - intros _. apply H.
  - intros c w' _. apply (run_command_Inv pg c w H).
Qed.

Lemma playing_or_paused_index_valid_witness :
  PygameResume.index_valid Scenario.playing_a.
Proof.
  assert (Hr : PygameResume.reachable Scenario.engine Scenario.two_tracks
                 "outputs" 1000 Scenario.playing_a).
  { apply rtc_once.
    exact (PygameResume.step_command Scenario.engine PygameResume.Play _). }
  assert (Hne : glob_wav Scenario.two_tracks "outputs" <> []) by discriminate.
  destruct (playing_or_paused_index_valid Scenario.engine Scenario.two_tracks
              "outputs" 1000 Scenario.playing_a Hne Hr) as (H & _).
  apply H. left. vm_compute. reflexivity.
Defined.

(** What keeps the index valid under [select] is the dropdown, which
    only offers the indices of the playlist: [_on_file_select] itself
    stores whatever index it is given. *)
Example file_select_stores_any_index :
  let w := state_after (PygameResume._on_file_select Scenario.engine (Some 7))
             Scenario.playing_a in
  PygameResume.phase w = Some Playing
  /\ PygameResume.current_index (PygameResume.self w) = Some 7
  /\ outcome (PygameResume.run_command Scenario.engine (PygameResume.Select 7))
       Scenario.playing_a = Raise TraitError.
Proof. repeat split; vm_compute; reflexivity. Qed.

(** C9.  Duration indexing is total over the playlist:
    [_get_wav_durations] always returns, its dictionary has an entry for
    every file of the playlist, a file whose probe fails (any exception
    of the [wave] module or of opening the file, or a frame rate of 0) is
    recorded with duration 0, and the other files keep their computed
    duration [frames / rate]. *)
Theorem durations_index_total (fs : FileSystem) (w : PygameResume.World)
    (files : list string) :
  PygameResume.file_list (PygameResume.self w) = Some files ->
  exists ds : gmap string Q,
    outcome (PygameResume._get_wav_durations fs) w = Ok ds
    /\ dom ds = list_to_set files
    /\ (forall f, f ∈ files -> is_Some (ds !! f))
    /\ (forall f e, f ∈ files -> wave_probe fs f = Raise e ->
        ds !! f = Some 0%Q)
    /\ (forall f frames, f ∈ files -> wave_probe fs f = Ok (frames, 0%N) ->
        ds !! f = Some 0%Q)
    /\ (forall f frames rate, f ∈ files ->
        wave_probe fs f = Ok (frames, rate) -> rate <> 0%N ->
        ds !! f = Some (inject_Z (Z.of_N frames) / inject_Z (Z.of_N rate))%Q).
Proof. apply get_wav_durations_total. Qed.

Lemma durations_index_total_witness :
  exists ds : gmap string Q,
    outcome (PygameResume._get_wav_durations Scenario.unreadable)
      (state_after
         (PygameResume.__init__ Scenario.engine Scenario.unreadable "outputs")
         (PygameResume.fresh 1000)) = Ok ds
    /\ ds !! "outputs/broken.wav" = Some 0%Q
    /\ ds !! "outputs/a.wav" = Some (inject_Z 132300 / inject_Z 44100)%Q.
Proof.
  destruct (durations_index_total Scenario.unreadable
              (state_after
                 (PygameResume.__init__ Scenario.engine Scenario.unreadable
                    "outputs") (PygameResume.fresh 1000))
              ["outputs/a.wav"; "outputs/broken.wav"])
    as (ds & Ho & _ & _ & Hfail & _ & Hgood).
  - vm_compute. reflexivity.
  - exists ds. split; [exact Ho|]. split.
    + apply (Hfail _ WaveError); [set_solver | reflexivity].
    + apply (Hgood _ 132300%N 44100%N); [set_solver | reflexivity | discriminate].
Defined.

(** C5, as stated, fails.  A total duration of 0 is not displayed as
    0 % or as indeterminate: in [pygame_resume_player], after 2.4 s of
    the 3 s of [a.wav] and a [next()] onto an empty track, the monitor
    turn leaves the bar at 80 % and the time text at "0:02 / 0:03".
    [wav_player] does not guard the division: on the empty track it
    divides by a duration of 0.  And not every pair gives a percentage
    within range: the formula has no lower clamp. *)
Lemma zero_duration_keeps_stale_display :
  let w := Scenario.on_empty_track in
  PygameResume.phase w = Some Playing
  /\ PygameResume.track_at w = Some "outputs/b.wav"
  /\ (exists ds total,
        PygameResume.durations (PygameResume.self w) = Some ds
        /\ ds !! "outputs/b.wav" = Some total /\ (total == 0)%Q)
  /\ (exists g,
        PygameResume.gui (PygameResume.self w) = Some g
        /\ (PygameResume.progress_bar g == 80)%Q
        /\ ~ (PygameResume.progress_bar g == 0)%Q
        /\ PygameResume.time_label g = "0:02 / 0:03")
  /\ WavPlayer.track_at Scenario.wav_on_empty_track = Some "outputs/b.wav"
  /\ wavfile_read Scenario.with_empty_track "outputs/b.wav"
     = Ok (44100%N, 0%N)
  /\ py_div (inject_Z 1500)
       (inject_Z (Z.of_N 0) / inject_Z (Z.of_N 44100) * 1000)
     = Raise ZeroDivisionError
  /\ (py_min 100 (-1 / 10 * 100) < 0)%Q.
Proof.
  intros w. split; [vm_compute; reflexivity|].
  split; [vm_compute; reflexivity|]. split.
  { eexists _, _. split; [vm_compute; reflexivity|].
    split; [vm_compute; reflexivity|]. vm_compute. reflexivity. }
  split.
  { eexists. split; [vm_compute; reflexivity|].
    split; [vm_compute; reflexivity|].
    split; [vm_compute; discriminate|]. vm_compute. reflexivity. }
  split; [vm_compute; reflexivity|]. split; [vm_compute; reflexivity|].
  split; vm_compute; reflexivity.
Qed.

(** C5, amended.  For every non-negative elapsed time and positive
    total duration the computed percentage
    [min(100, elapsed / total * 100)] lies in [0, 100]; the elapsed time
    is not negative as long as the wall clock does not run backwards,
    and in every reachable state of [pygame_resume_player] the progress
    bar is within [0, 100], before and after an update by the monitor.
    A total duration of 0 never makes an update fail:
    [pygame_resume_player] tests [total_duration > 0] and skips the
    update, which performs no division, returns normally and leaves the
    progress bar and the time text as they were; [wav_player] has no
    such test: it performs the division and catches the exception,
    leaving everything as it was.  Every update by [wav_player]'s monitor
    returns normally and either changes nothing or writes a value within
    [0, 100]. *)
Theorem progress_percentage_in_range (pg : Pygame) (fs : FileSystem)
    (folder : string) (t0 : Q) (w1 : PygameResume.World) :
  glob_wav fs folder <> [] ->
  PygameResume.reachable pg fs folder t0 w1 ->
  (forall elapsed total : Q,
     (0 <= elapsed)%Q -> (0 < total)%Q ->
     (0 <= py_min 100 (elapsed / total * 100) <= 100)%Q)
  /\ PygameResume.progress_in_range w1
  /\ (forall start_time,
        PygameResume.monitor w1 = Running start_time ->
        PygameResume.progress_in_range
          (state_after (PygameResume.update_position pg start_time) w1)
        /\ outcome (PygameResume.update_position pg start_time) w1
           <> Raise ZeroDivisionError)
  /\ (forall start_time f ds,
        PygameResume.current_track w1 f ->
        PygameResume.durations (PygameResume.self w1) = Some ds ->
        (default 0 (ds !! f) <= 0)%Q ->
        let r := PygameResume.update_position pg start_time w1 in
        PygameResume.gui (PygameResume.self r.2)
        = PygameResume.gui (PygameResume.self w1)
        /\ exists st, r.1 = Ok st)
  /\ (forall (w2 : WavPlayer.World) (get_pos : Z),
        WavPlayer.Inv w2 ->
        let r := WavPlayer.update_progress fs get_pos w2 in
        r.1 = Ok tt
        /\ (r.2 = w2 \/ WavPlayer.progress_in_range r.2)
        /\ (forall f rate n,
              WavPlayer.current_track w2 f ->
              wavfile_read fs f = Ok (rate, n) ->
              rate = 0%N \/ n = 0%N -> r.2 = w2)).
Proof.
  intros Hne Hr.
  split; [exact percentage_in_range|].
  destruct (reachable_Timed pg fs folder t0 w1 Hne Hr)
    as (I1 & P1 & Hpos & _ & Hanchor).
  split; [exact P1|]. split; [|split].
  - intros start_time Em. apply update_position_progress; [done..|].
    rewrite Em in Hanchor. destruct start_time; [exact Hanchor|exact Hpos].
  - intros start_time f ds T Hds Hz.
    by apply (update_position_unknown_duration pg start_time w1 f ds).
  - intros w2 get_pos I2.
    destruct (wav_update_progress_effect fs get_pos w2 I2)
      as (E1 & _ & _ & _ & E2 & E3 & _).
    split; [exact E1|]. split; [exact E2 | exact E3].
Qed.

Lemma progress_percentage_in_range_witness :
  let w1 := PygameResume.monitor_turn Scenario.engine []
              Scenario.track_over_without_autoplay in
  PygameResume.progress_in_range w1
  /\ WavPlayer.progress_in_range
       (state_after (WavPlayer.update_progress Scenario.two_tracks 1500)
          Scenario.wav_playing_a)
  /\ state_after (WavPlayer.update_progress Scenario.with_empty_track 1500)
       Scenario.wav_on_empty_track
     = Scenario.wav_on_empty_track.
Proof.
  intros w1.
  assert (Hne : glob_wav Scenario.two_tracks "outputs" <> []) by discriminate.
  assert (Hr : PygameResume.reachable Scenario.engine Scenario.two_tracks
                 "outputs" 1000 w1).
  { eapply rtc_r; [|exact (PygameResume.step_monitor Scenario.engine [] _)].
    eapply rtc_r;
      [|exact (PygameResume.step_wait Scenario.engine 3 _
                 ltac:(vm_compute; discriminate))].
    eapply rtc_r; [|exact (PygameResume.step_monitor Scenario.engine [] _)].
    eapply rtc_r;
      [|exact (PygameResume.step_command Scenario.engine PygameResume.Play _)].
    apply rtc_once.
    exact (PygameResume.step_command Scenario.engine
             (PygameResume.SetAutoplay false) _). }
  assert (I2 : WavPlayer.Inv Scenario.wav_playing_a)
    by (apply wav_Inv_b_sound; vm_compute; reflexivity).
  assert (I3 : WavPlayer.Inv Scenario.wav_on_empty_track)
    by (apply wav_Inv_b_sound; vm_compute; reflexivity).
  assert (T3 : WavPlayer.current_track Scenario.wav_on_empty_track
                 "outputs/b.wav")
    by (apply wav_track_at_sound; vm_compute; reflexivity).
  destruct (progress_percentage_in_range Scenario.engine Scenario.two_tracks
              "outputs" 1000 w1 Hne Hr) as (_ & H1 & _ & _ & H2).
  destruct (progress_percentage_in_range Scenario.engine
              Scenario.with_empty_track "outputs" 1000
              (state_after
                 (PygameResume.__init__ Scenario.engine
                    Scenario.with_empty_track "outputs")
                 (PygameResume.fresh 1000))
              ltac:(discriminate) (rtc_refl _ _)) as (_ & _ & _ & _ & H3).
  split; [exact H1|]. split.
  - destruct (H2 Scenario.wav_playing_a 1500 I2) as (_ & [E|P] & _);
      [|exact P].
    exfalso. revert E. vm_compute. discriminate.
  - destruct (H3 Scenario.wav_on_empty_track 1500 I3) as (_ & _ & E).
    exact (E "outputs/b.wav" 44100%N 0%N T3 eq_refl (or_intror eq_refl)).
Defined.

(** C1 (the code departs from it).  Resuming a paused session adds the
    whole pause duration to the stored position: with elapsed time [d0]
    at the pause, taken at wall-clock time [tp], the position right after
    [play()] at time [now] is [d0 + (now - tp)], not [d0]. *)
Theorem resume_position_jumps_by_pause_duration (pg : Pygame)
    (w : PygameResume.World) (d0 tp : Q) :
  PygameResume.Inv w ->
  PygameResume.phase w = Some Paused ->
  PygameResume.current_position (PygameResume.self w) = Some d0 ->
  PygameResume.pause_time (PygameResume.self w) = Some (Some tp) ->
  Qeq_bool tp 0 = false ->
  PygameResume.current_position
    (PygameResume.self (state_after (PygameResume._on_play pg) w))
  = Some (d0 + (PygameResume.now w - tp))%Q.
Proof. apply on_play_resume. Qed.

Lemma resume_position_jumps_by_pause_duration_witness :
  exists d0 pos : Q,
    PygameResume.current_position
      (PygameResume.self Scenario.paused_for_ten_seconds) = Some d0
    /\ (d0 == 2)%Q
    /\ PygameResume.current_position
         (PygameResume.self
            (state_after (PygameResume._on_play Scenario.engine)
               Scenario.paused_for_ten_seconds)) = Some pos
    /\ (pos == 12)%Q.
Proof.
  assert (I : PygameResume.Inv Scenario.paused_for_ten_seconds)
    by (apply Inv_b_sound; vm_compute; reflexivity).
  eexists _, _. split; [vm_compute; reflexivity|].
  split; [vm_compute; reflexivity|]. split.
  - apply (resume_position_jumps_by_pause_duration Scenario.engine
             Scenario.paused_for_ten_seconds 2 (10021 # 10) I).
    + vm_compute. reflexivity.
    + vm_compute. reflexivity.
    + vm_compute. reflexivity.
    + vm_compute. reflexivity.
  - vm_compute. reflexivity.
Defined.

(** The same run on the display: the time text shows 0:02 when the
    session is paused and 0:12 at the first monitor turn after the
    resume, the monitor still measuring from the anchor armed at the
    start of the track. *)
Example resume_display_after_next_turn :
  let w := Scenario.paused_for_ten_seconds in
  let w' := PygameResume.monitor_turn Scenario.engine []
              (state_after (PygameResume._on_play Scenario.engine) w) in
  PygameResume.time_label <$> PygameResume.gui (PygameResume.self w)
  = Some "0:02 / 1:00"
  /\ PygameResume.time_label <$> PygameResume.gui (PygameResume.self w')
     = Some "0:12 / 1:00".
Proof. split; vm_compute; reflexivity. Qed.




(** C2, as stated, fails: with autoplay switched off, the elapsed time
    reaching the total duration does not stop the controller.  [a.wav]
    lasts 3 s and has been playing for 3.1 s; after the monitor turn the
    controller is still Playing. *)
Lemma elapsed_end_without_autoplay_keeps_playing :
  let w := Scenario.track_over_without_autoplay in
  let w' := PygameResume.monitor_turn Scenario.engine [] w in
  PygameResume.phase w = Some Playing
  /\ PygameResume.autoplay_checkbox
     <$> PygameResume.gui (PygameResume.self w) = Some false
  /\ (exists pos, PygameResume.current_position (PygameResume.self w')
                  = Some pos /\ (3 <= pos)%Q)
  /\ PygameResume.phase w' = Some Playing
  /\ PygameResume.phase w' <> Some Stopped.
Proof.
  intros w w'. split; [vm_compute; reflexivity|].
  split; [vm_compute; reflexivity|]. split.
  - eexists. split; [vm_compute; reflexivity|]. vm_compute. discriminate.
  - split; [vm_compute; reflexivity|]. vm_compute. discriminate.
Qed.

(** C2, amended.  For a controller over a non-empty playlist that is
    Playing, a track end is observed by a whole turn of the monitor loop
    (by the end callback in [vlc_wav_player]):
    - [pygame_resume_player], a turn that finds one end-of-track
      notification queued: with autoplay enabled the index advances by
      exactly one step with wraparound and the controller stays Playing,
      provided the monitor has no anchor armed, or the time elapsed since
      its anchor is less than the duration of the track advanced to, or
      that duration is not positive; with autoplay disabled the
      controller becomes Stopped and the index is unchanged;
    - [pygame_resume_player], a turn that finds no notification but the
      time elapsed since its anchor at or beyond the (positive) total
      duration: with autoplay enabled the index advances by exactly one
      step with wraparound; with autoplay disabled the index is unchanged
      and the controller stays Playing;
    - [wav_player], which has no autoplay switch: a turn that finds one
      notification advances by exactly one step with wraparound and the
      controller stays Playing;
    - [vlc_wav_player], end-of-track callback: with autoplay enabled the
      index advances by one step with wraparound, with autoplay disabled
      nothing changes; the lifecycle phase is left as it was.
    The case left out is a notification observed while the anchor of the
    finished track is stale by the duration of the next track or more:
    see the example that follows the theorem. *)
Theorem track_end_advances_or_stops (pg : Pygame) (fs : FileSystem) :
  (forall (w : PygameResume.World) (event : Event) (start_time : option Q)
          files idx g f ds,
     PygameResume.Inv w -> PygameResume.phase w = Some Playing ->
     PygameResume.monitor w = Running start_time ->
     PygameResume.should_stop_monitor (PygameResume.self w) = Some false ->
     PygameResume.MUSIC_END (PygameResume.self w) = Some (type event) ->
     PygameResume.file_list (PygameResume.self w) = Some files ->
     PygameResume.current_index (PygameResume.self w) = Some idx ->
     PygameResume.gui (PygameResume.self w) = Some g ->
     PygameResume.autoplay_checkbox g = true ->
     files !! Z.to_nat ((idx + 1) `mod` len files) = Some f ->
     PygameResume.durations (PygameResume.self w) = Some ds ->
     match start_time with
     | None => True
     | Some t0 =>
         (PygameResume.now w - t0 < default 0 (ds !! f))%Q
         \/ (default 0 (ds !! f) <= 0)%Q
     end ->
     let w' := PygameResume.monitor_turn pg [event] w in
     PygameResume.current_index (PygameResume.self w')
     = Some ((idx + 1) `mod` len files)
     /\ PygameResume.phase w' = Some Playing)
  /\ (forall (w : PygameResume.World) (event : Event)
             (start_time : option Q) idx g,
        PygameResume.Inv w -> PygameResume.phase w = Some Playing ->
        PygameResume.monitor w = Running start_time ->
        PygameResume.should_stop_monitor (PygameResume.self w) = Some false ->
        PygameResume.MUSIC_END (PygameResume.self w) = Some (type event) ->
        PygameResume.current_index (PygameResume.self w) = Some idx ->
        PygameResume.gui (PygameResume.self w) = Some g ->
        PygameResume.autoplay_checkbox g = false ->
        let w' := PygameResume.monitor_turn pg [event] w in
        PygameResume.current_index (PygameResume.self w') = Some idx
        /\ PygameResume.phase w' = Some Stopped)
  /\ (forall (w : PygameResume.World) (t0 total : Q) f ds files idx g,
        PygameResume.Inv w -> PygameResume.phase w = Some Playing ->
        PygameResume.monitor w = Running (Some t0) ->
        PygameResume.should_stop_monitor (PygameResume.self w) = Some false ->
        PygameResume.current_track w f ->
        PygameResume.durations (PygameResume.self w) = Some ds ->
        ds !! f = Some total ->
        (0 < total)%Q -> (total <= PygameResume.now w - t0)%Q ->
        PygameResume.file_list (PygameResume.self w) = Some files ->
        PygameResume.current_index (PygameResume.self w) = Some idx ->
        PygameResume.gui (PygameResume.self w) = Some g ->
        let w' := PygameResume.monitor_turn pg [] w in
        PygameResume.phase w' = Some Playing
        /\ PygameResume.current_index (PygameResume.self w')
           = Some (if PygameResume.autoplay_checkbox g
                   then (idx + 1) `mod` len files else idx))
  /\ (forall (w : WavPlayer.World) (event : Event) (get_pos : Z)
             (start_time : option Q) files idx,
        WavPlayer.Inv w -> WavPlayer.phase w = Some Playing ->
        WavPlayer.monitor w = Running start_time ->
        WavPlayer.MUSIC_END (WavPlayer.self w) = Some (type event) ->
        WavPlayer.file_list (WavPlayer.self w) = Some files ->
        WavPlayer.current_index (WavPlayer.self w) = Some idx ->
        let w' := WavPlayer.monitor_turn pg fs [event] get_pos w in
        WavPlayer.current_index (WavPlayer.self w')
        = Some ((idx + 1) `mod` len files)
        /\ WavPlayer.phase w' = Some Playing)
  /\ (forall (w : Vlc.World) files idx g,
        Vlc.Inv w ->
        Vlc.file_list (Vlc.self w) = Some files ->
        Vlc.current_index (Vlc.self w) = Some idx ->
        Vlc.gui (Vlc.self w) = Some g ->
        let w' := state_after Vlc.on_end_reached w in
        Vlc.phase w' = Vlc.phase w
        /\ Vlc.current_index (Vlc.self w')
           = Some (if Vlc.autoplay_checkbox g
                   then (idx + 1) `mod` len files else idx)).
Proof.
  split; [|split; [|split; [|split]]].
  - intros. by eapply monitor_turn_notification_advance.
  - intros w event start_time idx g ? ? ? ? ? ? ? ? w'.
    by destruct (monitor_turn_notification_stop pg event start_time w idx g)
      as (? & ? & _).
  - intros. by eapply monitor_turn_track_over.
  - intros. by eapply wav_monitor_turn_music_end.
  - intros. by apply vlc_on_end_reached_effect.
Qed.

Lemma track_end_advances_or_stops_witness :
  PygameResume.current_index
    (PygameResume.self
       (PygameResume.monitor_turn Scenario.engine [{| type := 25 |}]
          Scenario.playing_two_seconds)) = Some 1
  /\ PygameResume.phase
       (PygameResume.monitor_turn Scenario.engine [{| type := 25 |}]
          Scenario.track_over_without_autoplay) = Some Stopped
  /\ PygameResume.current_index
       (PygameResume.self
          (PygameResume.monitor_turn Scenario.engine []
             (PygameResume.set_now (10031 # 10)
                Scenario.playing_two_seconds))) = Some 1
  /\ WavPlayer.current_index
       (WavPlayer.self
          (WavPlayer.monitor_turn Scenario.engine_without_b
             Scenario.two_tracks [{| type := 25 |}] 1500
             Scenario.wav_playing_a)) = Some 1
  /\ Vlc.current_index
       (Vlc.self (state_after Vlc.on_end_reached Scenario.vlc_playing_a))
     = Some 1.
Proof.
  destruct (track_end_advances_or_stops Scenario.engine_without_b
              Scenario.two_tracks) as (_ & _ & _ & H4 & H5).
  destruct (track_end_advances_or_stops Scenario.engine Scenario.two_tracks)
    as (H1 & H2 & H3 & _ & _).
  assert (I1 : PygameResume.Inv Scenario.playing_two_seconds)
    by (apply Inv_b_sound; vm_compute; reflexivity).
  assert (I2 : PygameResume.Inv Scenario.track_over_without_autoplay)
    by (apply Inv_b_sound; vm_compute; reflexivity).
  assert (I3 : PygameResume.Inv
                 (PygameResume.set_now (10031 # 10)
                    Scenario.playing_two_seconds))
    by (apply Inv_b_sound; vm_compute; reflexivity).
  assert (I4 : WavPlayer.Inv Scenario.wav_playing_a)
    by (apply wav_Inv_b_sound; vm_compute; reflexivity).
  assert (I5 : Vlc.Inv Scenario.vlc_playing_a)
    by (apply vlc_Inv_b_sound; vm_compute; reflexivity).
  split; [|split; [|split; [|split]]].
  - epose proof (H1 Scenario.playing_two_seconds {| type := 25 |}
                   (Some 1000%Q) ["outputs/a.wav"; "outputs/b.wav"] 0 _
                   "outputs/b.wav"
                   (<["outputs/b.wav" := (220500 # 44100)%Q]>
                      (<["outputs/a.wav" := (132300 # 44100)%Q]> ∅)) I1)
      as H.
    edestruct H as (E & _);
      [first [vm_compute; reflexivity | left; vm_compute; reflexivity] ..
      |exact E].
  - epose proof (H2 Scenario.track_over_without_autoplay {| type := 25 |}
                   (Some 1000%Q) 0 _ I2) as H.
    edestruct H as (_ & E); [vm_compute; reflexivity .. | exact E].
  - assert (T : PygameResume.current_track
                  (PygameResume.set_now (10031 # 10)
                     Scenario.playing_two_seconds) "outputs/a.wav")
      by (apply track_at_sound; vm_compute; reflexivity).
    epose proof (H3 (PygameResume.set_now (10031 # 10)
                       Scenario.playing_two_seconds)
                   1000%Q (132300 # 44100)%Q "outputs/a.wav"
                   (<["outputs/b.wav" := (220500 # 44100)%Q]>
                      (<["outputs/a.wav" := (132300 # 44100)%Q]> ∅))
                   ["outputs/a.wav"; "outputs/b.wav"] 0 _ I3) as H.
    edestruct H as (_ & E);
      [first [exact T | vm_compute; reflexivity | vm_compute; discriminate] ..
      |exact E].
  - refine (proj1 (H4 Scenario.wav_playing_a {| type := 25 |} 1500 None
                     ["outputs/a.wav"; "outputs/b.wav"] 0 I4 _ _ _ _ _));
      vm_compute; reflexivity.
  - exact (proj2 (H5 Scenario.vlc_playing_a _ _ _ I5 eq_refl eq_refl eq_refl)).
Defined.

(** The case C2 leaves out.  The notification path does not reset the
    anchor [start_time], as the elapsed-time path does: a notification
    observed when the anchor of the finished track is stale by the
    duration of the next track or more is followed, in the same turn, by
    the elapsed-time check, and the index moves twice.  Here the
    notification advances to [b.wav], and the elapsed time, still
    measured from the anchor of [a.wav], has also passed the 5 s of
    [b.wav]: the turn ends on [a.wav] again. *)
Example notification_and_elapsed_in_one_turn :
  let w := PygameResume.set_now (10052 # 10)
             (PygameResume.monitor_turn Scenario.engine [] Scenario.playing_a) in
  let w' := PygameResume.monitor_turn Scenario.engine [{| type := 25 |}] w in
  PygameResume.current_index (PygameResume.self w) = Some 0
  /\ PygameResume.current_index (PygameResume.self w') = Some 0
  /\ loaded_files (PygameResume.mixer_calls w')
     = ["outputs/a.wav"; "outputs/b.wav"; "outputs/a.wav"].
Proof. repeat split; vm_compute; reflexivity. Qed.




(** * Further properties of the code *)

(** ** Construction *)

(** X1.  The playlist the constructor builds is the folder listing in
    lexicographic order, no file lost or added, and the dropdown offers
    the pair (base name, position) for every position of the playlist and
    shows position 0.  Stated for [pygame_resume_player] and
    [wav_player]. *)
Theorem playlist_is_sorted_listing (pg : Pygame) (fs : FileSystem)
    (folder : string) (t0 : Q) :
  glob_wav fs folder <> [] ->
  let w1 := state_after (PygameResume.__init__ pg fs folder)
              (PygameResume.fresh t0) in
  let w2 := state_after (WavPlayer.__init__ pg fs folder)
              (WavPlayer.fresh t0) in
  exists files g1 g2,
    PygameResume.file_list (PygameResume.self w1) = Some files
    /\ WavPlayer.file_list (WavPlayer.self w2) = Some files
    /\ files ≡ₚ glob_wav fs folder
    /\ Sorted (fun a b => String.leb a b = true) files
    /\ PygameResume.gui (PygameResume.self w1) = Some g1
    /\ WavPlayer.gui (WavPlayer.self w2) = Some g2
    /\ PygameResume.file_dropdown g1 = 0
    /\ WavPlayer.file_dropdown g2 = 0
    /\ forall (i : nat) (f : string),
         files !! i = Some f ->
         PygameResume.dropdown_options g1 !! i = Some (basename f, Z.of_nat i)
         /\ WavPlayer.dropdown_options g2 !! i
            = Some (basename f, Z.of_nat i).
Proof.
  intros Hne w1 w2. subst w1 w2.
  destruct (init_state pg fs folder t0 Hne) as (ds & E1 & _).
  pose proof (wav_init_state pg fs folder t0 Hne) as E2.
  unfold state_after. rewrite E1, E2. simpl.
  eexists _, _, _. split; [reflexivity|]. split; [reflexivity|].
  split; [apply sorted_perm|]. split; [apply sorted_Sorted|].
  split; [reflexivity|]. split; [reflexivity|].
  split; [reflexivity|]. split; [reflexivity|].
  intros i f Hl. simpl. rewrite !list_lookup_imap, Hl. done.
Qed.

Lemma playlist_is_sorted_listing_witness :
  PygameResume.file_list (PygameResume.self Scenario.pygame_constructed)
  = Some ["outputs/a.wav"; "outputs/b.wav"]
  /\ exists files g1 g2,
       PygameResume.file_list (PygameResume.self Scenario.pygame_constructed)
       = Some files
       /\ WavPlayer.file_list (WavPlayer.self Scenario.wav_constructed)
          = Some files
       /\ files ≡ₚ ["outputs/b.wav"; "outputs/a.wav"]
       /\ Sorted (fun a b => String.leb a b = true) files
       /\ PygameResume.gui (PygameResume.self Scenario.pygame_constructed)
          = Some g1
       /\ WavPlayer.gui (WavPlayer.self Scenario.wav_constructed) = Some g2
       /\ PygameResume.file_dropdown g1 = 0
       /\ WavPlayer.file_dropdown g2 = 0
       /\ forall (i : nat) (f : string),
            files !! i = Some f ->
            PygameResume.dropdown_options g1 !! i
            = Some (basename f, Z.of_nat i)
            /\ WavPlayer.dropdown_options g2 !! i
               = Some (basename f, Z.of_nat i).
Proof.
  split; [vm_compute; reflexivity|].
  apply (playlist_is_sorted_listing Scenario.engine Scenario.two_tracks
           "outputs" 1000).
  discriminate.
Defined.

(** X2.  Over a non-empty folder the constructor returns normally and
    leaves the controller Stopped at index 0 with volume 0.7, nothing
    loaded, an empty display and autoplay switched on, the monitor thread
    started with no anchor.  [pygame_resume_player] has then made exactly
    three engine calls (the two initialisations and the registration of
    the end event [USEREVENT + 1]); [wav_player] has made four, the
    volume being set once, here, and has printed nothing. *)
Theorem constructor_leaves_stopped (pg : Pygame) (fs : FileSystem)
    (folder : string) (t0 : Q) :
  glob_wav fs folder <> [] ->
  (let w := state_after (PygameResume.__init__ pg fs folder)
              (PygameResume.fresh t0) in
   outcome (PygameResume.__init__ pg fs folder) (PygameResume.fresh t0)
   = Ok tt
   /\ PygameResume.phase w = Some Stopped
   /\ PygameResume.current_index (PygameResume.self w) = Some 0
   /\ PygameResume.volume (PygameResume.self w) = Some (7 # 10)
   /\ PygameResume.current_position (PygameResume.self w) = Some 0%Q
   /\ PygameResume.pause_time (PygameResume.self w) = Some None
   /\ PygameResume.MUSIC_END (PygameResume.self w) = Some (USEREVENT pg + 1)
   /\ PygameResume.should_stop_monitor (PygameResume.self w) = Some false
   /\ PygameResume.display_cleared w
   /\ PygameResume.autoplay_checkbox <$> PygameResume.gui (PygameResume.self w)
      = Some true
   /\ PygameResume.music_loaded w = None
   /\ PygameResume.mixer_calls w
      = [PygameInit; MixerInit; SetEndEvent (USEREVENT pg + 1)]
   /\ PygameResume.monitor w = Running None
   /\ PygameResume.now w = t0)
  /\ (let w := state_after (WavPlayer.__init__ pg fs folder)
                 (WavPlayer.fresh t0) in
      outcome (WavPlayer.__init__ pg fs folder) (WavPlayer.fresh t0) = Ok tt
      /\ WavPlayer.phase w = Some Stopped
      /\ WavPlayer.current_index (WavPlayer.self w) = Some 0
      /\ WavPlayer.volume (WavPlayer.self w) = Some (7 # 10)
      /\ WavPlayer.MUSIC_END (WavPlayer.self w) = Some (USEREVENT pg + 1)
      /\ WavPlayer.display_cleared w
      /\ WavPlayer.music_loaded w = None
      /\ WavPlayer.mixer_calls w
         = [MixerInit; PygameInit; MusicSetVolume (7 # 10);
            SetEndEvent (USEREVENT pg + 1)]
      /\ WavPlayer.stdout w = []
      /\ WavPlayer.monitor w = Running None).
Proof.
  intros Hne.
  destruct (init_state pg fs folder t0 Hne) as (ds & E1 & _).
  pose proof (wav_init_state pg fs folder t0 Hne) as E2.
  unfold state_after, outcome. rewrite E1, E2. simpl.
  split.
  - do 8 (split; [reflexivity|]). split.
    { eexists. split; [reflexivity|]. done. }
    done.
  - do 5 (split; [reflexivity|]). split.
    { eexists. split; [reflexivity|]. done. }
    done.
Qed.

Lemma constructor_leaves_stopped_witness :
  PygameResume.phase Scenario.pygame_constructed = Some Stopped
  /\ PygameResume.mixer_calls Scenario.pygame_constructed
     = [PygameInit; MixerInit; SetEndEvent 25]
  /\ WavPlayer.mixer_calls Scenario.wav_constructed
     = [MixerInit; PygameInit; MusicSetVolume (7 # 10); SetEndEvent 25].
Proof.
  destruct (constructor_leaves_stopped Scenario.engine Scenario.two_tracks
              "outputs" 1000 ltac:(discriminate)) as (H1 & H2).
  split; [|split].
  - destruct H1 as (_ & H1 & _). exact H1.
  - destruct H1 as (_ & _ & _ & _ & _ & _ & _ & _ & _ & _ & _ & H1 & _).
    exact H1.
  - destruct H2 as (_ & _ & _ & _ & _ & _ & _ & H2 & _). exact H2.
Defined.

(** X3.  [_get_wav_durations] prints one line for every file of the
    playlist whose probe fails (an exception of the [wave] module or a
    frame rate of 0), in playlist order and naming the file and the
    exception, and changes nothing else; no duration it records is
    negative. *)
Theorem durations_report_failed_probes (fs : FileSystem)
    (w : PygameResume.World) (files : list string) :
  PygameResume.file_list (PygameResume.self w) = Some files ->
  exists ds : gmap string Q,
    PygameResume._get_wav_durations fs w
    = (Ok ds,
       PygameResume.set_stdout
         (PygameResume.stdout w ++
          omap (fun f =>
                  (fun e => "ファイル " +:+ f +:+ " の長さを取得できませんでした: "
                            +:+ exn_text fs e)
                  <$> PygameResume.probe_error fs f) files) w)
    /\ map_Forall (fun _ d => (0 <= d)%Q) ds.
Proof. apply get_wav_durations_lines. Qed.

Lemma durations_report_failed_probes_witness :
  exists ds : gmap string Q,
    PygameResume._get_wav_durations Scenario.unreadable
      Scenario.pygame_constructed
    = (Ok ds,
       PygameResume.set_stdout
         ["ファイル outputs/b.wav の長さを取得できませんでした: file does not start with RIFF id"]
         Scenario.pygame_constructed)
    /\ map_Forall (fun _ d => (0 <= d)%Q) ds.
Proof.
  destruct (durations_report_failed_probes Scenario.unreadable
              Scenario.pygame_constructed ["outputs/a.wav"; "outputs/b.wav"])
    as (ds & E & Hds).
  { vm_compute. reflexivity. }
  exists ds. split; [|exact Hds]. rewrite E. reflexivity.
Defined.

(** X4.  What the constructor of [pygame_resume_player] configures is
    never changed afterwards: in every reachable state the folder, the
    playlist (the sorted folder listing), the durations, the end event,
    the options of the dropdown and the stop flag of the monitor are
    those the constructor left.  The flag staying [False], the monitor
    thread never leaves its loop through the loop condition: it is
    running, or an exception has ended it. *)
Theorem configuration_is_fixed (pg : Pygame) (fs : FileSystem)
    (folder : string) (t0 : Q) (w : PygameResume.World) :
  glob_wav fs folder <> [] ->
  PygameResume.reachable pg fs folder t0 w ->
  PygameResume.config w
  = PygameResume.config
      (state_after (PygameResume.__init__ pg fs folder)
         (PygameResume.fresh t0))
  /\ PygameResume.folder_path (PygameResume.self w) = Some folder
  /\ PygameResume.file_list (PygameResume.self w)
     = Some (sorted (glob_wav fs folder))
  /\ PygameResume.MUSIC_END (PygameResume.self w) = Some (USEREVENT pg + 1)
  /\ PygameResume.should_stop_monitor (PygameResume.self w) = Some false
  /\ ((exists start_time, PygameResume.monitor w = Running start_time)
      \/ exists e, PygameResume.monitor w = Crashed e).
Proof.
  intros Hne Hr.
  destruct (reachable_config pg fs folder t0 w Hne Hr) as [Hc Hm].
  split; [exact Hc|].
  destruct (init_state pg fs folder t0 Hne) as (ds & E & _).
  unfold state_after in Hc. rewrite E in Hc.
  unfold PygameResume.config in Hc. simpl in Hc.
  injection Hc as H1 H2 H3 H4 H5 H6.
  do 4 (split; [assumption|]).
  unfold PygameResume.monitor_started in Hm.
  destruct (PygameResume.monitor w); try done; eauto.
Qed.

Lemma configuration_is_fixed_witness :
  let w := PygameResume.monitor_turn Scenario.engine []
             Scenario.track_over_without_autoplay in
  PygameResume.file_list (PygameResume.self w)
  = Some ["outputs/a.wav"; "outputs/b.wav"]
  /\ PygameResume.should_stop_monitor (PygameResume.self w) = Some false.
Proof.
  intros w.
  assert (Hne : glob_wav Scenario.two_tracks "outputs" <> []) by discriminate.
  assert (Hr : PygameResume.reachable Scenario.engine Scenario.two_tracks
                 "outputs" 1000 w).
  { eapply rtc_r; [|exact (PygameResume.step_monitor Scenario.engine [] _)].
    eapply rtc_r;
      [|exact (PygameResume.step_wait Scenario.engine 3 _
                 ltac:(vm_compute; discriminate))].
    eapply rtc_r; [|exact (PygameResume.step_monitor Scenario.engine [] _)].
    eapply rtc_r;
      [|exact (PygameResume.step_command Scenario.engine PygameResume.Play _)].
    apply rtc_once.
    exact (PygameResume.step_command Scenario.engine
             (PygameResume.SetAutoplay false) _). }
  destruct (configuration_is_fixed Scenario.engine Scenario.two_tracks
              "outputs" 1000 w Hne Hr) as (_ & _ & H1 & _ & H2 & _).
  split; [exact H1 | exact H2].
Defined.

(** ** Transport commands *)

(** X5.  In [pygame_resume_player], [pause()] while Playing returns
    normally, asks the engine to stop (the engine is never asked to
    pause), makes the controller Paused and records the current time as
    the instant of the pause; position, index and display stay as they
    were.  A second [pause()], however much later, changes nothing: the
    recorded instant is that of the first one. *)
Theorem pause_records_first_instant (w : PygameResume.World) (d : Q) :
  PygameResume.Inv w -> PygameResume.phase w = Some Playing ->
  let w1 := state_after PygameResume._on_pause w in
  let later := PygameResume.set_now (PygameResume.now w1 + d)%Q w1 in
  outcome PygameResume._on_pause w = Ok tt
  /\ PygameResume.phase w1 = Some Paused
  /\ PygameResume.pause_time (PygameResume.self w1)
     = Some (Some (PygameResume.now w))
  /\ PygameResume.current_position (PygameResume.self w1)
     = PygameResume.current_position (PygameResume.self w)
  /\ PygameResume.current_index (PygameResume.self w1)
     = PygameResume.current_index (PygameResume.self w)
  /\ PygameResume.gui (PygameResume.self w1)
     = PygameResume.gui (PygameResume.self w)
  /\ PygameResume.mixer_calls w1 = PygameResume.mixer_calls w ++ [MusicStop]
  /\ state_after PygameResume._on_pause later = later.
Proof.
  intros H Hp w1 later.
  destruct (on_pause_playing w H Hp) as (E1 & E2 & E3 & E4 & E5 & E6 & E7 & _).
  do 7 (split; [assumption|]).
  apply on_pause_again_later.
Qed.

Lemma pause_records_first_instant_witness :
  let w1 := state_after PygameResume._on_pause Scenario.playing_two_seconds in
  PygameResume.pause_time (PygameResume.self w1) = Some (Some 1002%Q)
  /\ PygameResume.pause_time
       (PygameResume.self
          (state_after PygameResume._on_pause
             (PygameResume.set_now (PygameResume.now w1 + 30)%Q w1)))
     = Some (Some 1002%Q).
Proof.
  intros w1.
  assert (I : PygameResume.Inv Scenario.playing_two_seconds)
    by (apply Inv_b_sound; vm_compute; reflexivity).
  destruct (pause_records_first_instant Scenario.playing_two_seconds 30 I
              ltac:(vm_compute; reflexivity))
    as (_ & _ & H1 & _ & _ & _ & _ & H2).
  split; [exact H1|]. fold w1 in H2. rewrite H2. vm_compute. reflexivity.
Defined.

(** X6.  A transport command that does not apply in the current phase
    does nothing at all, in each of the three variants: [play()] while
    Playing, and [pause()] while Stopped or Paused, return normally and
    leave the whole world, engine calls included, as it was. *)
Theorem play_and_pause_out_of_phase (pg : Pygame) (fs : FileSystem) :
  (forall w : PygameResume.World,
     (PygameResume.phase w = Some Playing ->
      PygameResume._on_play pg w = (Ok tt, w))
     /\ (PygameResume.phase w = Some Stopped
         \/ PygameResume.phase w = Some Paused ->
         PygameResume._on_pause w = (Ok tt, w)))
  /\ (forall w : WavPlayer.World,
        (WavPlayer.phase w = Some Playing ->
         WavPlayer._on_play pg fs w = (Ok tt, w))
        /\ (WavPlayer.phase w = Some Stopped
            \/ WavPlayer.phase w = Some Paused ->
            WavPlayer._on_pause w = (Ok tt, w)))
  /\ (forall w : Vlc.World,
        (Vlc.phase w = Some Playing -> Vlc._on_play w = (Ok tt, w))
        /\ (Vlc.phase w = Some Stopped \/ Vlc.phase w = Some Paused ->
            Vlc._on_pause w = (Ok tt, w))).
Proof.
  split; [|split]; intros w; split.
  - apply on_play_playing.
  - apply on_pause_not_playing.
  - apply wav_on_play_playing.
  - apply wav_on_pause_not_playing.
  - apply vlc_on_play_playing.
  - apply vlc_on_pause_not_playing.
Qed.

Lemma play_and_pause_out_of_phase_witness :
  PygameResume._on_play Scenario.engine Scenario.playing_a
  = (Ok tt, Scenario.playing_a)
  /\ PygameResume._on_pause Scenario.paused_for_ten_seconds
     = (Ok tt, Scenario.paused_for_ten_seconds)
  /\ WavPlayer._on_play Scenario.engine Scenario.two_tracks
       Scenario.wav_playing_a
     = (Ok tt, Scenario.wav_playing_a)
  /\ WavPlayer._on_pause Scenario.wav_constructed
     = (Ok tt, Scenario.wav_constructed)
  /\ Vlc._on_play Scenario.vlc_playing_a = (Ok tt, Scenario.vlc_playing_a)
  /\ Vlc._on_pause Scenario.vlc_stopped = (Ok tt, Scenario.vlc_stopped).
Proof.
  destruct (play_and_pause_out_of_phase Scenario.engine Scenario.two_tracks)
    as (H1 & H2 & H3).
  split; [|split; [|split; [|split; [|split]]]].
  - apply (proj1 (H1 _)). vm_compute. reflexivity.
  - apply (proj2 (H1 _)). right. vm_compute. reflexivity.
  - apply (proj1 (H2 _)). vm_compute. reflexivity.
  - apply (proj2 (H2 _)). left. vm_compute. reflexivity.
  - apply (proj1 (H3 _)). vm_compute. reflexivity.
  - apply (proj2 (H3 _)). left. vm_compute. reflexivity.
Defined.

(** X7.  In [pygame_resume_player], [play()] while Paused does not ask
    the engine to continue: it has the current track stopped, loaded
    again and started from its beginning, the volume being set in
    between, and the controller is Playing. *)
Theorem resume_restarts_current_track (pg : Pygame)
    (w : PygameResume.World) (f : string) :
  PygameResume.Inv w -> PygameResume.phase w = Some Paused ->
  PygameResume.current_track w f ->
  load_ok pg f = true -> play_ok pg f = true ->
  let w' := state_after (PygameResume._on_play pg) w in
  exists vol,
    PygameResume.volume (PygameResume.self w) = Some vol
    /\ PygameResume.mixer_calls w'
       = PygameResume.mixer_calls w
         ++ [MusicStop; MusicLoad f; MusicSetVolume vol; MusicPlay]
    /\ PygameResume.phase w' = Some Playing.
Proof.
  intros H Hp Ht Hlo Hpl w'.
  destruct (on_play_resume_calls pg w f H Hp Ht) as (rest & Hc & Hok).
  destruct (Hok Hlo Hpl) as (Hph & vol & Hv & ->).
  exists vol. done.
Qed.

Lemma resume_restarts_current_track_witness :
  PygameResume.mixer_calls
    (state_after (PygameResume._on_play Scenario.engine)
       Scenario.paused_for_ten_seconds)
  = PygameResume.mixer_calls Scenario.paused_for_ten_seconds
    ++ [MusicStop; MusicLoad "outputs/a.wav"; MusicSetVolume (7 # 10);
        MusicPlay].
Proof.
  assert (I : PygameResume.Inv Scenario.paused_for_ten_seconds)
    by (apply Inv_b_sound; vm_compute; reflexivity).
  assert (T : PygameResume.current_track Scenario.paused_for_ten_seconds
                "outputs/a.wav")
    by (apply track_at_sound; vm_compute; reflexivity).
  destruct (resume_restarts_current_track Scenario.engine
              Scenario.paused_for_ten_seconds "outputs/a.wav" I
              ltac:(vm_compute; reflexivity) T eq_refl eq_refl)
    as (vol & Hv & Hc & _).
  vm_compute in Hv. injection Hv as <-. exact Hc.
Defined.

(** X8.  In [pygame_resume_player], selecting in the dropdown a track
    other than the current one makes it the current track.  While
    Stopped nothing else happens: the controller stays Stopped and the
    engine receives no call.  While Playing or Paused the engine is asked
    to stop and to load the selected track, and once it has started the
    track the controller is Playing it from position 0: a selection made
    while Paused ends the pause. *)
Theorem select_switches_track (pg : Pygame) (w : PygameResume.World)
    (files : list string) (idx v : Z) (g : PygameResume.Widgets)
    (f : string) :
  PygameResume.Inv w ->
  PygameResume.file_list (PygameResume.self w) = Some files ->
  PygameResume.current_index (PygameResume.self w) = Some idx ->
  PygameResume.gui (PygameResume.self w) = Some g ->
  0 <= v < len files -> v <> idx -> v <> PygameResume.file_dropdown g ->
  files !! Z.to_nat v = Some f ->
  let w' := state_after (PygameResume.set_file_dropdown pg v) w in
  PygameResume.current_index (PygameResume.self w') = Some v
  /\ PygameResume.file_dropdown <$> PygameResume.gui (PygameResume.self w')
     = Some v
  /\ (PygameResume.phase w = Some Stopped ->
      outcome (PygameResume.set_file_dropdown pg v) w = Ok tt
      /\ PygameResume.phase w' = Some Stopped
      /\ PygameResume.mixer_calls w' = PygameResume.mixer_calls w)
  /\ (PygameResume.phase w = Some Playing
      \/ PygameResume.phase w = Some Paused ->
      (exists rest,
         PygameResume.mixer_calls w'
         = PygameResume.mixer_calls w ++ MusicStop :: MusicLoad f :: rest)
      /\ (load_ok pg f = true -> play_ok pg f = true ->
          outcome (PygameResume.set_file_dropdown pg v) w = Ok tt
          /\ PygameResume.phase w' = Some Playing
          /\ PygameResume.current_position (PygameResume.self w') = Some 0%Q
          /\ PygameResume.current_file (PygameResume.self w')
             = Some (basename f))).
Proof.
  intros H Hf Hi Hg Hv Hne Hfd Hl w'.
  destruct (select_switches pg v w files idx g f H Hf Hi Hg Hv Hne Hfd Hl)
    as (E1 & E2 & E3 & E4).
  do 3 (split; [assumption|]).
  intros Hp.
  assert (Hpl : PygameResume.is_playing (PygameResume.self w) = Some true).
  { unfold PygameResume.phase in Hp.
    destruct (PygameResume.is_playing (PygameResume.self w)) as [[]|];
      [done|by destruct Hp..]. }
  split; [by apply E4|]. intros Hlo Hpo.
  by apply (select_starts_track pg v w files idx g f).
Qed.

Lemma select_switches_track_witness :
  let w' := state_after (PygameResume.set_file_dropdown Scenario.engine 1)
              Scenario.playing_a in
  PygameResume.current_index (PygameResume.self w') = Some 1
  /\ PygameResume.phase w' = Some Playing
  /\ PygameResume.current_file (PygameResume.self w') = Some "b.wav".
Proof.
  intros w'.
  assert (I : PygameResume.Inv Scenario.playing_a)
    by (apply Inv_b_sound; vm_compute; reflexivity).
  destruct (select_switches_track Scenario.engine Scenario.playing_a
              ["outputs/a.wav"; "outputs/b.wav"] 0 1
              (PygameResume.mkWidgets [("a.wav", 0); ("b.wav", 1)] 0 (7 # 10)
                 true "<b>再生ファイル:</b> a.wav" 0 "0:00 / 0:00")
              "outputs/b.wav" I)
    as (H1 & _ & _ & H2); try (vm_compute; reflexivity).
  - unfold len. simpl. lia.
  - lia.
  - simpl. lia.
  - split; [exact H1|].
    destruct H2 as (_ & H2); [left; vm_compute; reflexivity|].
    destruct (H2 eq_refl eq_refl) as (_ & H3 & _ & H4).
    split; [exact H3 | exact H4].
Defined.

(** X9.  In [pygame_resume_player], [next()] while Stopped only moves
    the selection: it returns normally, the index and the dropdown go to
    the following position (wrapping around), the controller stays
    Stopped and the engine receives no call.  The [play()] that follows
    asks the engine for the track at the new position. *)
Theorem next_while_stopped_moves_selection (pg : Pygame)
    (w : PygameResume.World) (files : list string) (idx : Z) (f : string) :
  PygameResume.Inv w -> PygameResume.phase w = Some Stopped ->
  PygameResume.file_list (PygameResume.self w) = Some files ->
  PygameResume.current_index (PygameResume.self w) = Some idx ->
  files !! Z.to_nat ((idx + 1) `mod` len files) = Some f ->
  let w1 := state_after (PygameResume._on_next pg) w in
  let w2 := state_after (PygameResume._on_play pg) w1 in
  outcome (PygameResume._on_next pg) w = Ok tt
  /\ PygameResume.phase w1 = Some Stopped
  /\ PygameResume.mixer_calls w1 = PygameResume.mixer_calls w
  /\ PygameResume.current_index (PygameResume.self w1)
     = Some ((idx + 1) `mod` len files)
  /\ PygameResume.file_dropdown <$> PygameResume.gui (PygameResume.self w1)
     = Some ((idx + 1) `mod` len files)
  /\ exists rest,
       PygameResume.mixer_calls w2
       = PygameResume.mixer_calls w ++ MusicStop :: MusicLoad f :: rest.
Proof.
  intros H Hp Hf Hi Hl w1 w2.
  destruct (on_next_stopped pg w files idx H Hp Hf Hi)
    as (E1 & HI & E2 & E3 & E4 & E5).
  fold w1 in HI, E2, E3, E4, E5.
  do 5 (split; [assumption|]).
  destruct (on_next_effect pg w H) as (_ & _ & fl & i & Hf0 & _ & Hf1 & _).
  fold w1 in Hf1. assert (fl = files) as -> by congruence.
  assert (Ht : PygameResume.current_track w1 f).
  { exists files, ((idx + 1) `mod` len files).
    split; [done|]. split; [done|]. split; [|done].
    apply Z.mod_pos_bound.
    destruct H as (_ & (fl' & i' & ? & ? & ?) & _).
    assert (fl' = files) as -> by congruence. lia. }
  destruct (play_current_effect pg 0 w1 f HI Ht) as (rest & Hc & _).
  exists rest. subst w2. unfold state_after in *.
  rewrite (on_play_stopped pg w1 E2). rewrite Hc. by rewrite E3.
Qed.

Lemma next_while_stopped_moves_selection_witness :
  let w1 := state_after (PygameResume._on_next Scenario.engine)
              Scenario.pygame_constructed in
  PygameResume.current_index (PygameResume.self w1) = Some 1
  /\ PygameResume.mixer_calls w1
     = PygameResume.mixer_calls Scenario.pygame_constructed.
Proof.
  intros w1.
  assert (I : PygameResume.Inv Scenario.pygame_constructed)
    by (apply Inv_b_sound; vm_compute; reflexivity).
  destruct (next_while_stopped_moves_selection Scenario.engine
              Scenario.pygame_constructed ["outputs/a.wav"; "outputs/b.wav"]
              0 "outputs/b.wav" I)
    as (_ & _ & H1 & H2 & _); try (vm_compute; reflexivity).
  split; [exact H2 | exact H1].
Defined.

(** X10.  [previous()] undoes [next()] and [next()] undoes [previous()]
    on the current index, in each of the three variants and whatever the
    phase: the index after the two commands is the index before them. *)
Theorem previous_undoes_next (pg : Pygame) (fs : FileSystem)
    (w1 : PygameResume.World) (w2 : WavPlayer.World) (w3 : Vlc.World)
    (idx1 idx2 idx3 : Z) :
  PygameResume.Inv w1 -> WavPlayer.Inv w2 -> Vlc.Inv w3 ->
  PygameResume.current_index (PygameResume.self w1) = Some idx1 ->
  WavPlayer.current_index (WavPlayer.self w2) = Some idx2 ->
  Vlc.current_index (Vlc.self w3) = Some idx3 ->
  (PygameResume.current_index
     (PygameResume.self
        (state_after (PygameResume._on_prev pg)
           (state_after (PygameResume._on_next pg) w1))) = Some idx1
   /\ PygameResume.current_index
        (PygameResume.self
           (state_after (PygameResume._on_next pg)
              (state_after (PygameResume._on_prev pg) w1))) = Some idx1)
  /\ (WavPlayer.current_index
        (WavPlayer.self
           (state_after (WavPlayer._on_prev pg fs)
              (state_after (WavPlayer._on_next pg fs) w2))) = Some idx2
      /\ WavPlayer.current_index
           (WavPlayer.self
              (state_after (WavPlayer._on_next pg fs)
                 (state_after (WavPlayer._on_prev pg fs) w2))) = Some idx2)
  /\ (Vlc.current_index
        (Vlc.self (state_after Vlc._on_prev (state_after Vlc._on_next w3)))
      = Some idx3
      /\ Vlc.current_index
           (Vlc.self (state_after Vlc._on_next (state_after Vlc._on_prev w3)))
         = Some idx3).
Proof.
  intros I1 I2 I3 E1 E2 E3. split; [|split].
  - by apply on_prev_after_next.
  - by apply wav_on_prev_after_next.
  - by apply vlc_on_prev_after_next.
Qed.

Lemma previous_undoes_next_witness :
  PygameResume.current_index
    (PygameResume.self
       (state_after (PygameResume._on_prev Scenario.engine)
          (state_after (PygameResume._on_next Scenario.engine)
             Scenario.playing_a))) = Some 0
  /\ WavPlayer.current_index
       (WavPlayer.self
          (state_after
             (WavPlayer._on_next Scenario.engine Scenario.two_tracks)
             (state_after
                (WavPlayer._on_prev Scenario.engine Scenario.two_tracks)
                Scenario.wav_playing_a))) = Some 0
  /\ Vlc.current_index
       (Vlc.self
          (state_after Vlc._on_prev
             (state_after Vlc._on_next Scenario.vlc_playing_a))) = Some 0.
Proof.
  assert (I1 : PygameResume.Inv Scenario.playing_a)
    by (apply Inv_b_sound; vm_compute; reflexivity).
  assert (I2 : WavPlayer.Inv Scenario.wav_playing_a)
    by (apply wav_Inv_b_sound; vm_compute; reflexivity).
  assert (I3 : Vlc.Inv Scenario.vlc_playing_a)
    by (apply vlc_Inv_b_sound; vm_compute; reflexivity).
  destruct (previous_undoes_next Scenario.engine Scenario.two_tracks
              Scenario.playing_a Scenario.wav_playing_a
              Scenario.vlc_playing_a 0 0 0 I1 I2 I3
              ltac:(vm_compute; reflexivity) ltac:(vm_compute; reflexivity)
              ltac:(vm_compute; reflexivity))
    as ((H1 & _) & (_ & H2) & (H3 & _)).
  split; [exact H1|]. split; [exact H2 | exact H3].
Defined.

(** ** The monitor thread of [pygame_resume_player] *)

(** X11.  While the controller is Stopped or Paused a turn of the
    monitor loop does nothing but sleep: whatever events are queued (end
    of track notifications included), the object, the display and the
    engine calls are untouched and the clock has advanced by 0.1 s.
    While Paused the monitor keeps its anchor. *)
Theorem idle_monitor_turn_only_sleeps (pg : Pygame)
    (events : list Event) (start_time : option Q) (w : PygameResume.World) :
  PygameResume.Inv w ->
  PygameResume.monitor w = Running start_time ->
  PygameResume.should_stop_monitor (PygameResume.self w) = Some false ->
  PygameResume.phase w = Some Stopped \/ PygameResume.phase w = Some Paused ->
  exists start_time',
    PygameResume.monitor_turn pg events w
    = PygameResume.set_monitor (Running start_time')
        (PygameResume.set_now (PygameResume.now w + (1 # 10))%Q w)
    /\ (PygameResume.phase w = Some Paused -> start_time' = start_time).
Proof. apply monitor_turn_idle. Qed.

Lemma idle_monitor_turn_only_sleeps_witness :
  let w := Scenario.paused_for_ten_seconds in
  exists start_time',
    PygameResume.monitor_turn Scenario.engine [{| type := 25 |}] w
    = PygameResume.set_monitor (Running start_time')
        (PygameResume.set_now (PygameResume.now w + (1 # 10))%Q w)
    /\ start_time' = Some 1000%Q.
Proof.
  intros w.
  assert (I : PygameResume.Inv w)
    by (apply Inv_b_sound; vm_compute; reflexivity).
  destruct (idle_monitor_turn_only_sleeps Scenario.engine [{| type := 25 |}]
              (Some 1000%Q) w I ltac:(vm_compute; reflexivity)
              ltac:(vm_compute; reflexivity)
              ltac:(right; vm_compute; reflexivity))
    as (st & E & Hst).
  exists st. split; [exact E|]. apply Hst. vm_compute. reflexivity.
Defined.

(** X12.  While a track plays and is not over, a turn of the monitor
    loop with its anchor armed at [t0] overwrites the stored position
    with the wall-clock time elapsed since the anchor, [now - t0],
    whatever position was stored before; anchor, phase, index and engine
    calls stay as they are and the turn ends after its sleep of 0.1 s. *)
Theorem position_follows_wall_clock (pg : Pygame) (t0 : Q)
    (w : PygameResume.World) (f : string) (ds : gmap string Q) :
  PygameResume.Inv w -> PygameResume.phase w = Some Playing ->
  PygameResume.monitor w = Running (Some t0) ->
  PygameResume.should_stop_monitor (PygameResume.self w) = Some false ->
  PygameResume.current_track w f ->
  PygameResume.durations (PygameResume.self w) = Some ds ->
  (PygameResume.now w - t0 < default 0 (ds !! f))%Q
  \/ (default 0 (ds !! f) <= 0)%Q ->
  let w' := PygameResume.monitor_turn pg [] w in
  PygameResume.current_position (PygameResume.self w')
  = Some (PygameResume.now w - t0)%Q
  /\ PygameResume.monitor w' = Running (Some t0)
  /\ PygameResume.phase w' = Some Playing
  /\ PygameResume.current_index (PygameResume.self w')
     = PygameResume.current_index (PygameResume.self w)
  /\ PygameResume.mixer_calls w' = PygameResume.mixer_calls w
  /\ PygameResume.now w' = (PygameResume.now w + (1 # 10))%Q.
Proof. apply monitor_turn_running. Qed.

Lemma position_follows_wall_clock_witness :
  let w' := PygameResume.monitor_turn Scenario.engine []
              Scenario.playing_two_seconds in
  PygameResume.current_position (PygameResume.self w')
  = Some (1002 - 1000)%Q
  /\ PygameResume.monitor w' = Running (Some 1000%Q).
Proof.
  intros w'.
  assert (I : PygameResume.Inv Scenario.playing_two_seconds)
    by (apply Inv_b_sound; vm_compute; reflexivity).
  assert (T : PygameResume.current_track Scenario.playing_two_seconds
                "outputs/a.wav")
    by (apply track_at_sound; vm_compute; reflexivity).
  destruct (position_follows_wall_clock Scenario.engine 1000
              Scenario.playing_two_seconds "outputs/a.wav"
              (<["outputs/b.wav" := 220500 # 44100]>
                 (<["outputs/a.wav" := 132300 # 44100]> ∅))
              I ltac:(vm_compute; reflexivity) ltac:(vm_compute; reflexivity)
              ltac:(vm_compute; reflexivity) T
              ltac:(vm_compute; reflexivity)
              ltac:(left; vm_compute; reflexivity))
    as (H1 & H2 & _).
  split; [exact H1 | exact H2].
Defined.

(** X13.  An engine failure during an automatic advance ends the
    monitor thread of [pygame_resume_player]: when a turn of the monitor,
    whatever its anchor, finds the end-of-track notification at the head
    of the queue while Playing with autoplay switched on and the engine
    cannot load the following track, the exception leaves the loop.  The
    controller is left Playing at the new index, and from then on a turn
    of the monitor changes nothing: position and display are no longer
    updated. *)
Theorem failed_advance_ends_monitor (pg : Pygame) (event : Event)
    (rest : list Event) (start_time : option Q)
    (w : PygameResume.World) (files : list string) (idx : Z)
    (g : PygameResume.Widgets) (f : string) :
  PygameResume.Inv w -> PygameResume.phase w = Some Playing ->
  PygameResume.monitor w = Running start_time ->
  PygameResume.should_stop_monitor (PygameResume.self w) = Some false ->
  PygameResume.MUSIC_END (PygameResume.self w) = Some (type event) ->
  PygameResume.file_list (PygameResume.self w) = Some files ->
  PygameResume.current_index (PygameResume.self w) = Some idx ->
  PygameResume.gui (PygameResume.self w) = Some g ->
  PygameResume.autoplay_checkbox g = true ->
  files !! Z.to_nat ((idx + 1) `mod` len files) = Some f ->
  load_ok pg f = false ->
  let w' := PygameResume.monitor_turn pg (event :: rest) w in
  PygameResume.monitor w' = Crashed PygameError
  /\ PygameResume.phase w' = Some Playing
  /\ PygameResume.current_index (PygameResume.self w')
     = Some ((idx + 1) `mod` len files)
  /\ forall events, PygameResume.monitor_turn pg events w' = w'.
Proof. apply monitor_turn_crash. Qed.

Lemma failed_advance_ends_monitor_witness :
  let w' := PygameResume.monitor_turn Scenario.engine_without_b
              [{| type := 25 |}] Scenario.playing_two_seconds in
  PygameResume.monitor Scenario.playing_two_seconds = Running (Some 1000%Q)
  /\ PygameResume.monitor w' = Crashed PygameError
  /\ PygameResume.phase w' = Some Playing
  /\ PygameResume.monitor_turn Scenario.engine_without_b [] w' = w'.
Proof.
  intros w'.
  assert (I : PygameResume.Inv Scenario.playing_two_seconds)
    by (apply Inv_b_sound; vm_compute; reflexivity).
  epose proof (failed_advance_ends_monitor Scenario.engine_without_b
                 {| type := 25 |} [] (Some 1000%Q)
                 Scenario.playing_two_seconds
                 ["outputs/a.wav"; "outputs/b.wav"] 0 _ "outputs/b.wav" I)
    as H.
  edestruct H as (H1 & H2 & _ & H3); try (vm_compute; reflexivity).
  split; [vm_compute; reflexivity|].
  split; [exact H1|]. split; [exact H2 | apply H3].
Defined.

(** X14.  The time text shows whole seconds: for a non-negative elapsed
    time and total duration, each side of the text is the integer part of
    the time split into minutes and a seconds field of exactly two
    digits below 60. *)
Theorem time_text_shows_whole_seconds (current total : Q) :
  (0 <= current)%Q -> (0 <= total)%Q ->
  PygameResume.time_text current total
  = fmt_d (Qfloor current `div` 60) +:+ ":"
    +:+ fmt_02d (Qfloor current `mod` 60) +:+ " / "
    +:+ fmt_d (Qfloor total `div` 60) +:+ ":"
    +:+ fmt_02d (Qfloor total `mod` 60)
  /\ String.length (fmt_02d (Qfloor current `mod` 60)) = 2%nat
  /\ String.length (fmt_02d (Qfloor total `mod` 60)) = 2%nat.
Proof.
  intros Hc Ht. split; [by apply time_text_floor|].
  split; apply fmt_02d_width; apply Z.mod_pos_bound; lia.
Qed.

Lemma time_text_shows_whole_seconds_witness :
  PygameResume.time_text (125 # 2) 180 = "1:02 / 3:00".
Proof.
  destruct (time_text_shows_whole_seconds (125 # 2) 180
              ltac:(vm_compute; discriminate) ltac:(vm_compute; discriminate))
    as (H & _).
  rewrite H. vm_compute. reflexivity.
Defined.

(** X15.  In [pygame_resume_player] a change of volume is stored and
    forwarded to the engine at once, without touching the phase, and it
    is applied again whenever a track is started: the [play()] that
    follows sets the new volume between loading and starting. *)
Theorem volume_applies_to_next_start (pg : Pygame) (v : Q)
    (w : PygameResume.World) (f : string) :
  PygameResume.Inv w -> PygameResume.phase w = Some Stopped ->
  PygameResume.current_track w f ->
  load_ok pg f = true -> play_ok pg f = true ->
  let w1 := state_after (PygameResume._on_volume_change v) w in
  let w2 := state_after (PygameResume._on_play pg) w1 in
  PygameResume.volume (PygameResume.self w1) = Some v
  /\ PygameResume.phase w1 = Some Stopped
  /\ PygameResume.mixer_calls w1
     = PygameResume.mixer_calls w ++ [MusicSetVolume v]
  /\ PygameResume.mixer_calls w2
     = PygameResume.mixer_calls w1
       ++ [MusicStop; MusicLoad f; MusicSetVolume v; MusicPlay]
  /\ PygameResume.phase w2 = Some Playing.
Proof. apply volume_then_play. Qed.

Lemma volume_applies_to_next_start_witness :
  let w1 := state_after (PygameResume._on_volume_change (1 # 2))
              Scenario.pygame_constructed in
  PygameResume.mixer_calls
    (state_after (PygameResume._on_play Scenario.engine) w1)
  = PygameResume.mixer_calls w1
    ++ [MusicStop; MusicLoad "outputs/a.wav"; MusicSetVolume (1 # 2);
        MusicPlay].
Proof.
  intros w1.
  assert (I : PygameResume.Inv Scenario.pygame_constructed)
    by (apply Inv_b_sound; vm_compute; reflexivity).
  assert (T : PygameResume.current_track Scenario.pygame_constructed
                "outputs/a.wav")
    by (apply track_at_sound; vm_compute; reflexivity).
  destruct (volume_applies_to_next_start Scenario.engine (1 # 2)
              Scenario.pygame_constructed "outputs/a.wav" I
              ltac:(vm_compute; reflexivity) T eq_refl eq_refl)
    as (_ & _ & _ & H & _).
  exact H.
Defined.

(** X16.  In [pygame_resume_player], [next()] while a track is playing
    or paused moves the index but not the dropdown: [_play_current] does
    not assign the dropdown, which keeps showing the value it had. *)
Theorem next_while_playing_keeps_dropdown (pg : Pygame)
    (w : PygameResume.World) (files : list string) (idx : Z) :
  PygameResume.Inv w ->
  PygameResume.is_playing (PygameResume.self w) = Some true ->
  PygameResume.file_list (PygameResume.self w) = Some files ->
  PygameResume.current_index (PygameResume.self w) = Some idx ->
  let w' := state_after (PygameResume._on_next pg) w in
  PygameResume.current_index (PygameResume.self w')
  = Some ((idx + 1) `mod` len files)
  /\ PygameResume.file_dropdown <$> PygameResume.gui (PygameResume.self w')
     = PygameResume.file_dropdown <$> PygameResume.gui (PygameResume.self w).
Proof.
  intros H Hp Hf Hi w'. split; [|by apply on_next_playing_dropdown].
  destruct (on_next_effect pg w H) as (_ & _ & fl & i & ? & ? & _ & E).
  assert (fl = files) as -> by congruence.
  assert (i = idx) as -> by congruence. exact E.
Qed.

Lemma next_while_playing_keeps_dropdown_witness :
  let w' := state_after (PygameResume._on_next Scenario.engine)
              Scenario.playing_a in
  PygameResume.current_index (PygameResume.self w') = Some 1
  /\ PygameResume.file_dropdown <$> PygameResume.gui (PygameResume.self w')
     = Some 0.
Proof.
  intros w'.
  assert (I : PygameResume.Inv Scenario.playing_a)
    by (apply Inv_b_sound; vm_compute; reflexivity).
  destruct (next_while_playing_keeps_dropdown Scenario.engine
              Scenario.playing_a ["outputs/a.wav"; "outputs/b.wav"] 0 I
              ltac:(vm_compute; reflexivity) ltac:(vm_compute; reflexivity)
              ltac:(vm_compute; reflexivity))
    as (H1 & H2).
  split; [exact H1|]. etrans; [exact H2|]. vm_compute. reflexivity.
Defined.

(** X21.  The times [pygame_resume_player] stores are sound in every
    reachable state (the wall clock never running backwards): the stored
    position is not negative, and neither the recorded instant of the
    last pause nor the anchor of the monitor lies in the future. *)
Theorem stored_times_are_sound (pg : Pygame) (fs : FileSystem)
    (folder : string) (t0 : Q) (w : PygameResume.World) :
  glob_wav fs folder <> [] ->
  PygameResume.reachable pg fs folder t0 w ->
  (exists pos,
     PygameResume.current_position (PygameResume.self w) = Some pos
     /\ (0 <= pos)%Q)
  /\ (exists pt,
        PygameResume.pause_time (PygameResume.self w) = Some pt
        /\ PygameResume.not_after pt (PygameResume.now w))
  /\ PygameResume.not_after (PygameResume.anchor (PygameResume.monitor w))
       (PygameResume.now w).
Proof.
  intros Hne Hr.
  destruct (reachable_Timed pg fs folder t0 w Hne Hr) as (_ & _ & Hc).
  exact Hc.
Qed.

Lemma stored_times_are_sound_witness :
  let w := PygameResume.monitor_turn Scenario.engine []
             Scenario.track_over_without_autoplay in
  exists pos,
    PygameResume.current_position (PygameResume.self w) = Some pos
    /\ (0 <= pos)%Q.
Proof.
  intros w.
  assert (Hne : glob_wav Scenario.two_tracks "outputs" <> []) by discriminate.
  assert (Hr : PygameResume.reachable Scenario.engine Scenario.two_tracks
                 "outputs" 1000 w).
  { eapply rtc_r; [|exact (PygameResume.step_monitor Scenario.engine [] _)].
    eapply rtc_r;
      [|exact (PygameResume.step_wait Scenario.engine 3 _
                 ltac:(vm_compute; discriminate))].
    eapply rtc_r; [|exact (PygameResume.step_monitor Scenario.engine [] _)].
    eapply rtc_r;
      [|exact (PygameResume.step_command Scenario.engine PygameResume.Play _)].
    apply rtc_once.
    exact (PygameResume.step_command Scenario.engine
             (PygameResume.SetAutoplay false) _). }
  destruct (stored_times_are_sound Scenario.engine Scenario.two_tracks
              "outputs" 1000 w Hne Hr) as (H & _).
  exact H.
Defined.

(** ** [wav_player] and [vlc_wav_player] *)

(** X17.  In [wav_player], [_play_current] asks the engine for the
    current track once when the dropdown already shows the current
    index, and twice when it does not: assigning the dropdown notifies
    [_on_file_select], which calls [_play_current] again, and the track
    is loaded and started a second time.  Either way the call returns
    with the dropdown showing the current index and the controller
    Playing. *)
Theorem wav_play_current_loads_once_or_twice (pg : Pygame)
    (fs : FileSystem) (w : WavPlayer.World) (files : list string) (idx : Z)
    (g : WavPlayer.Widgets) (f : string) :
  WavPlayer.Inv w ->
  WavPlayer.file_list (WavPlayer.self w) = Some files ->
  WavPlayer.current_index (WavPlayer.self w) = Some idx ->
  WavPlayer.gui (WavPlayer.self w) = Some g ->
  files !! Z.to_nat idx = Some f ->
  load_ok pg f = true -> play_ok pg f = true ->
  let w' := state_after (WavPlayer.play_current pg fs) w in
  WavPlayer.mixer_calls w'
  = WavPlayer.mixer_calls w ++
    (if WavPlayer.file_dropdown g =? idx then [MusicLoad f; MusicPlay]
     else [MusicLoad f; MusicPlay; MusicLoad f; MusicPlay])
  /\ WavPlayer.file_dropdown <$> WavPlayer.gui (WavPlayer.self w')
     = Some idx
  /\ WavPlayer.phase w' = Some Playing
  /\ WavPlayer.current_file (WavPlayer.self w') = Some (basename f).
Proof. apply (wav_play_current_loads pg fs 998). Qed.

Lemma wav_play_current_loads_once_or_twice_witness :
  let w' := state_after
              (WavPlayer.play_current Scenario.engine Scenario.two_tracks)
              Scenario.wav_at_b in
  WavPlayer.mixer_calls w'
  = WavPlayer.mixer_calls Scenario.wav_at_b
    ++ [MusicLoad "outputs/b.wav"; MusicPlay;
        MusicLoad "outputs/b.wav"; MusicPlay]
  /\ WavPlayer.file_dropdown <$> WavPlayer.gui (WavPlayer.self w') = Some 1.
Proof.
  intros w'.
  assert (I : WavPlayer.Inv Scenario.wav_at_b)
    by (apply wav_Inv_b_sound; vm_compute; reflexivity).
  destruct (wav_play_current_loads_once_or_twice Scenario.engine
              Scenario.two_tracks Scenario.wav_at_b
              ["outputs/a.wav"; "outputs/b.wav"] 1
              (WavPlayer.mkWidgets [("a.wav", 0); ("b.wav", 1)] 0 (7 # 10)
                 "<b>再生ファイル:</b> a.wav" 0)
              "outputs/b.wav" I)
    as (H1 & H2 & _); try (vm_compute; reflexivity).
  split; [exact H1 | exact H2].
Defined.

(** X18.  In [wav_player] and [vlc_wav_player], [pause()] followed by
    [play()] is a round trip: the engine is asked to pause and then to
    continue, and afterwards the object and its display are exactly as
    before the pause, the controller Playing again. *)
Theorem pause_then_play_round_trip (pg : Pygame) (fs : FileSystem)
    (w2 : WavPlayer.World) (w3 : Vlc.World) :
  WavPlayer.phase w2 = Some Playing -> Vlc.phase w3 = Some Playing ->
  (outcome WavPlayer._on_pause w2 = Ok tt
   /\ WavPlayer.phase (state_after WavPlayer._on_pause w2) = Some Paused
   /\ WavPlayer._on_play pg fs (state_after WavPlayer._on_pause w2)
      = (Ok tt,
         WavPlayer.set_mixer_calls
           (WavPlayer.mixer_calls w2 ++ [MusicPause; MusicUnpause]) w2))
  /\ (outcome Vlc._on_pause w3 = Ok tt
      /\ Vlc.phase (state_after Vlc._on_pause w3) = Some Paused
      /\ Vlc._on_play (state_after Vlc._on_pause w3)
         = (Ok tt,
            Vlc.set_vlc_calls
              (Vlc.vlc_calls w3 ++ [Vlc.SetPause true; Vlc.SetPause false])
              w3)).
Proof.
  intros H2 H3.
  destruct (wav_pause_then_play pg fs w2 H2) as (E1 & E2).
  destruct (vlc_pause_then_play w3 H3) as (E3 & E4).
  split.
  - split; [unfold outcome; by rewrite E1|]. split; [|exact E2].
    unfold state_after. rewrite E1. unfold WavPlayer.phase in *. simpl.
    by destruct (WavPlayer.is_playing (WavPlayer.self w2)) as [[]|].
  - split; [unfold outcome; by rewrite E3|]. split; [|exact E4].
    unfold state_after. rewrite E3. unfold Vlc.phase in *. simpl.
    by destruct (Vlc.is_playing (Vlc.self w3)) as [[]|].
Qed.

Lemma pause_then_play_round_trip_witness :
  WavPlayer.self
    (state_after (WavPlayer._on_play Scenario.engine Scenario.two_tracks)
       (state_after WavPlayer._on_pause Scenario.wav_playing_a))
  = WavPlayer.self Scenario.wav_playing_a
  /\ Vlc.self
       (state_after Vlc._on_play
          (state_after Vlc._on_pause Scenario.vlc_playing_a))
     = Vlc.self Scenario.vlc_playing_a.
Proof.
  destruct (pause_then_play_round_trip Scenario.engine Scenario.two_tracks
              Scenario.wav_playing_a Scenario.vlc_playing_a
              ltac:(vm_compute; reflexivity) ltac:(vm_compute; reflexivity))
    as ((_ & _ & H1) & (_ & _ & H2)).
  unfold state_after at 1 3. rewrite H1, H2. split; vm_compute; reflexivity.
Defined.

(** X19.  In [vlc_wav_player], [next()] and [previous()] while a track
    is playing or paused ask the list player for the item at the
    neighbouring index (wrapping around), make it the current index and
    show its base name in the file label; they return normally and leave
    the phase as it is. *)
Theorem vlc_step_while_playing (w : Vlc.World) (files : list string)
    (idx : Z) :
  Vlc.Inv w -> Vlc.is_playing (Vlc.self w) = Some true ->
  Vlc.file_list (Vlc.self w) = Some files ->
  Vlc.current_index (Vlc.self w) = Some idx ->
  (forall f, files !! Z.to_nat ((idx + 1) `mod` len files) = Some f ->
     let w' := state_after Vlc._on_next w in
     outcome Vlc._on_next w = Ok tt
     /\ Vlc.Inv w'
     /\ Vlc.vlc_calls w'
        = Vlc.vlc_calls w ++ [Vlc.PlayItemAtIndex ((idx + 1) `mod` len files)]
     /\ Vlc.current_index (Vlc.self w') = Some ((idx + 1) `mod` len files)
     /\ Vlc.current_file (Vlc.self w') = Some (basename f)
     /\ Vlc.current_file_label <$> Vlc.gui (Vlc.self w')
        = Some ("<b>再生ファイル:</b> " +:+ basename f)
     /\ Vlc.phase w' = Vlc.phase w)
  /\ (forall f, files !! Z.to_nat ((idx - 1) `mod` len files) = Some f ->
        let w' := state_after Vlc._on_prev w in
        outcome Vlc._on_prev w = Ok tt
        /\ Vlc.Inv w'
        /\ Vlc.vlc_calls w'
           = Vlc.vlc_calls w
             ++ [Vlc.PlayItemAtIndex ((idx - 1) `mod` len files)]
        /\ Vlc.current_index (Vlc.self w') = Some ((idx - 1) `mod` len files)
        /\ Vlc.current_file (Vlc.self w') = Some (basename f)
        /\ Vlc.current_file_label <$> Vlc.gui (Vlc.self w')
           = Some ("<b>再生ファイル:</b> " +:+ basename f)
        /\ Vlc.phase w' = Vlc.phase w).
Proof. apply vlc_step_playing. Qed.

Lemma vlc_step_while_playing_witness :
  Vlc.vlc_calls (state_after Vlc._on_next Scenario.vlc_playing_a)
  = Vlc.vlc_calls Scenario.vlc_playing_a ++ [Vlc.PlayItemAtIndex 1]
  /\ Vlc.current_file (Vlc.self (state_after Vlc._on_prev Scenario.vlc_playing_a))
     = Some "b.wav".
Proof.
  assert (I : Vlc.Inv Scenario.vlc_playing_a)
    by (apply vlc_Inv_b_sound; vm_compute; reflexivity).
  destruct (vlc_step_while_playing Scenario.vlc_playing_a
              ["outputs/a.wav"; "outputs/b.wav"] 0 I
              ltac:(vm_compute; reflexivity) ltac:(vm_compute; reflexivity)
              ltac:(vm_compute; reflexivity))
    as (H1 & H2).
  split.
  - destruct (H1 "outputs/b.wav" ltac:(vm_compute; reflexivity))
      as (_ & _ & H & _). exact H.
  - destruct (H2 "outputs/b.wav" ltac:(vm_compute; reflexivity))
      as (_ & _ & _ & _ & H & _). exact H.
Defined.

(** X20.  A turn of the monitor loop of [vlc_wav_player] never raises
    and never touches the flags, the index or the engine.  When the
    controller is not playing, or the engine reports no positive length,
    it changes nothing at all; otherwise (also while Paused) it assigns
    the reported fraction times 100 to the progress bar and the text of
    the elapsed and total times to the time label; a fraction within
    [0, 1] gives a bar within [0, 100]. *)
Theorem vlc_monitor_updates_display_only (get_position : Q)
    (get_length : Z) (w : Vlc.World) :
  Vlc.live w ->
  exists g,
    Vlc.gui (Vlc.self w) = Some g
    /\ Vlc.monitor_iteration get_position get_length w
       = (Ok tt,
          if decide (Vlc.is_playing (Vlc.self w) = Some true /\ 0 < get_length)
          then Vlc.set_self
                 (Vlc.a_gui
                    (Some (Vlc.w_time_label
                             (PygameResume.time_text
                                (get_position * (inject_Z get_length / 1000))
                                (inject_Z get_length / 1000))
                             (Vlc.w_progress_bar (get_position * 100)%Q g)))
                    (Vlc.self w)) w
          else w)
    /\ ((0 <= get_position <= 1)%Q ->
        (0 <= get_position * 100 <= 100)%Q).
Proof.
  intros HL.
  destruct (vlc_monitor_iteration_spec get_position get_length w HL)
    as (g & Hg & E).
  exists g. split; [exact Hg|]. split; [exact E|]. intros [? ?]. split; lra.
Qed.

Lemma vlc_monitor_updates_display_only_witness :
  let w' := state_after (Vlc.monitor_iteration (1 # 2) 180000)
              Scenario.vlc_playing_a in
  Vlc.time_label <$> Vlc.gui (Vlc.self w') = Some "1:30 / 3:00"
  /\ Vlc.vlc_calls w' = Vlc.vlc_calls Scenario.vlc_playing_a.
Proof.
  intros w'.
  assert (L : Vlc.live Scenario.vlc_playing_a)
    by (apply (fun H => proj1 (vlc_Inv_b_sound _ H)); vm_compute;
        reflexivity).
  destruct (vlc_monitor_updates_display_only (1 # 2) 180000
              Scenario.vlc_playing_a L) as (g & Hg & E & _).
  subst w'. unfold state_after. rewrite E.
  vm_compute in Hg. injection Hg as <-.
  split; vm_compute; reflexivity.
Defined.
